(** * statbox: synthetic medical data generation

    A shallow embedding of the two generators of the repository,
    [tools/generate_data.py] and [generate_synthetic_medical_data.py],
    and the properties of them that the specification states.

    Numbers are the code's: Python [float] and numpy [float64] are IEEE 754
    binary64, embedded as Rocq's primitive [float]; Python [int] is [Z].
    The process-wide numpy generator ([np.random.seed], [np.random.normal],
    and the scipy [rvs] methods, which draw from the same global
    [RandomState]) is threaded explicitly: a computation is a function from
    the generator state to a result or an exception, together with the
    generator state it leaves behind.  The state survives an exception, as
    the global generator does in Python. *)

From Stdlib Require Import String ZArith List Bool Lia Floats.
Import ListNotations.

Set Warnings "-inexact-float".

Local Open Scope Z_scope.

(** ** Exceptions and the generator-state monad *)

(** The exceptions raised on the paths modelled here: [ValueError] by the
    argument checks of numpy and scipy, [OverflowError] by Python's float
    power, [OSError] by the file system. *)
Inductive exn : Type :=
| ValueError
| OverflowError
| OSError.

Definition M (S A : Type) : Type := S -> (exn + A) * S.

Definition ret {S A : Type} (a : A) : M S A :=
  fun s => (inr a, s).

Definition raise {S A : Type} (e : exn) : M S A :=
  fun s => (inl e, s).

Definition bind {S A B : Type} (m : M S A) (k : A -> M S B) : M S B :=
  fun s =>
    match m s with
    | (inr a, s') => k a s'
    | (inl e, s') => (inl e, s')
    end.

(** A call that raises or returns without touching the generator. *)
Definition lift {S A : Type} (r : exn + A) : M S A :=
  fun s => (r, s).

Declare Scope monad_scope.
Delimit Scope monad_scope with monad.
Notation "x <- m ;; k" := (bind m (fun x => k))
  (at level 100, m at next level, right associativity) : monad_scope.
Notation "' p <- m ;; k" := (bind m (fun p => k))
  (at level 100, p pattern, m at next level, right associativity) : monad_scope.
Notation "m ;;; k" := (bind m (fun _ => k))
  (at level 100, right associativity) : monad_scope.

(** ** Arrays and scalars *)

(** A one-dimensional numpy array, by dtype. *)
Inductive ndarray : Type :=
| float64 (xs : list float)
| int64 (xs : list Z).

Definition size (a : ndarray) : nat :=
  match a with
  | float64 xs => length xs
  | int64 xs => length xs
  end.

(** One cell of a table. *)
Inductive scalar : Type :=
| Float (x : float)
| Int (z : Z).

Definition item (a : ndarray) (i : nat) : scalar :=
  match a with
  | float64 xs => Float (nth i xs nan)
  | int64 xs => Int (nth i xs 0)
  end.

(** The C library's [pow]: its result and the [errno] it leaves (0 when it
    reports nothing). Nothing is assumed of it. *)
Class Libm : Type := {
  libm_pow : float -> float -> float * Z
}.

Module py.

Section Power.

Context {L : Libm}.

(** [ERANGE], the [errno] of a result out of range. *)
Definition ERANGE : Z := 34.

(** [x ** 2] on a Python float: CPython's [float_pow] at the exponent 2.0.
    A NaN, an infinity, a zero and plus or minus one are answered without
    the C library; otherwise [pow(abs(x), 2.0)] is, and an infinite result
    or a range error that [pow] reports raises OverflowError (a reported
    range error with a zero result is an underflow and is let through). *)
Definition pow2 (x : float) : exn + float :=
  if is_nan x then inr x
  else if is_infinity x then inr (abs x)
  else if (x =? 0)%float then inr 0%float
  else
    let iv := if (x <? 0)%float then (- x)%float else x in
    if (iv =? 1)%float then inr 1%float
    else
      let (ix, errno) := libm_pow iv 2 in
      let errno :=
        if errno =? 0 then (if is_infinity ix then ERANGE else 0)
        else if (errno =? ERANGE) && (ix =? 0)%float then 0
        else errno in
      if errno =? 0 then inr ix
      else if errno =? ERANGE then inl OverflowError
      else inl ValueError.

(** Whether [x ** 2] evaluates. *)
Definition squares (x : float) : bool :=
  match pow2 x with
  | inr _ => true
  | inl _ => false
  end.

End Power.

End py.

Module np.

(** [arr * c] and [c * arr]: a scalar broadcast over an array. *)
Definition mul_scalar (xs : list float) (c : float) : list float :=
  map (fun x => (x * c)%float) xs.

Definition scalar_mul (c : float) (xs : list float) : list float :=
  map (fun x => (c * x)%float) xs.

Definition add_scalar (xs : list float) (c : float) : list float :=
  map (fun x => (x + c)%float) xs.

(** [a + b] on two arrays; both operands have the same shape wherever the
    code adds arrays. *)
Definition add (xs ys : list float) : list float :=
  map (fun p => (fst p + snd p)%float) (combine xs ys).

(** The C cast of a double to a 64-bit integer, as [astype(int)] does it:
    truncation toward zero; a NaN, an infinity or a value out of range
    gives the most negative integer (x86-64). *)
Definition trunc (x : float) : option Z :=
  match Prim2SF x with
  | S754_zero _ => Some 0
  | S754_finite sg m e =>
      let a := if 0 <=? e then Z.pos m * 2 ^ e else Z.pos m / 2 ^ (- e) in
      Some (if sg then - a else a)
  | _ => None
  end.

Definition to_int64 (x : float) : Z :=
  match trunc x with
  | Some z => if (- 2 ^ 63 <=? z) && (z <? 2 ^ 63) then z else - 2 ^ 63
  | None => - 2 ^ 63
  end.

Definition astype_int (xs : list float) : list Z := map to_int64 xs.

(** [np.ones(k) * c]. *)
Definition full (k : nat) (c : float) : list float := repeat c k.

End np.

(** ** The random generator

    numpy's legacy [RandomState]: what seeding makes of a seed, and the
    three variate generators the code reaches, each consuming the state.
    Nothing is assumed of them. *)
Class BitGenerator : Type := {
  RandomState : Type;
  (** [_legacy_seeding] on a seed in range. *)
  init_by_seed : Z -> RandomState;
  (** One standard normal variate. *)
  legacy_gauss : RandomState -> float * RandomState;
  (** One standard Gamma variate of the given shape. *)
  legacy_standard_gamma : float -> RandomState -> float * RandomState;
  (** One binomial variate of [n] trials with success probability [p]. *)
  legacy_binomial : Z -> float -> RandomState -> Z * RandomState
}.

(** [k] successive variates, filled in index order. *)
Fixpoint draws {S A : Type} (f : S -> A * S) (k : nat) (s : S) : list A * S :=
  match k with
  | O => ([], s)
  | Datatypes.S k' =>
      let (x, s1) := f s in
      let (xs, s2) := draws f k' s1 in
      (x :: xs, s2)
  end.

(** An array of [size] variates; a negative size raises before any draw
    ("negative dimensions are not allowed"). *)
Definition sample {S A : Type} (f : S -> A * S) (size : Z) : M S (list A) :=
  fun s =>
    if size <? 0 then (inl ValueError, s)
    else let (xs, s') := draws f (Z.to_nat size) s in (inr xs, s').

(** An array of [size] copies of a constant, with the same size check. *)
Definition constant {S : Type} (c : float) (size : Z) : M S (list float) :=
  fun s =>
    if size <? 0 then (inl ValueError, s)
    else (inr (np.full (Z.to_nat size) c), s).

(** What the argument checks of the samplers let through. *)
Definition valid_seed (seed : Z) : bool :=
  (0 <=? seed) && (seed <? 2 ^ 32).

Definition accepts_scale (scale : float) : bool :=
  (0 <=? scale)%float.

Definition accepts_gamma (a scale : float) : bool :=
  (0 <? a)%float && (0 <=? scale)%float.

Definition accepts_prevalence (p : float) : bool :=
  (0 <=? p)%float && (p <=? 1)%float.

Section Library.

Context {G : BitGenerator}.

Local Open Scope monad_scope.

(** [np.random.seed(seed)]: the seed must lie in [0, 2**32 - 1]. *)
Definition np_random_seed (seed : Z) : M RandomState unit :=
  fun s =>
    if (0 <=? seed) && (seed <? 2 ^ 32) then (inr tt, init_by_seed seed)
    else (inl ValueError, s).

(** [np.random.normal(loc, scale, size)]. *)
Definition np_random_normal (loc scale : float) (size : Z)
  : M RandomState (list float) :=
  if (scale <? 0)%float then raise ValueError
  else
    gs <- sample legacy_gauss size ;;
    ret (map (fun g => (loc + scale * g)%float) gs).

(** [scipy.stats.norm.rvs(loc, scale, size)]: the argument check, the
    degenerate case of a zero scale, then standard variates rescaled. *)
Definition norm_rvs (loc scale : float) (size : Z)
  : M RandomState (list float) :=
  if negb (0 <=? scale)%float then raise ValueError
  else if (scale =? 0)%float then constant (loc * 1)%float size
  else
    gs <- sample legacy_gauss size ;;
    ret (np.add_scalar (np.mul_scalar gs scale) loc).

(** [scipy.stats.gamma.rvs(a, scale, size)], with [loc = 0]. *)
Definition gamma_rvs (a scale : float) (size : Z)
  : M RandomState (list float) :=
  if negb ((0 <? a)%float && (0 <=? scale)%float) then raise ValueError
  else if (scale =? 0)%float then constant (0 * 1)%float size
  else
    gs <- sample (legacy_standard_gamma a) size ;;
    ret (np.add_scalar (np.mul_scalar gs scale) 0%float).

(** [scipy.stats.binom.rvs(n, p, size)]. *)
Definition binom_rvs (n : Z) (p : float) (size : Z)
  : M RandomState (list Z) :=
  if negb ((0 <=? n) && (0 <=? p)%float && (p <=? 1)%float)
  then raise ValueError
  else sample (legacy_binomial n p) size.

End Library.

(** ** Dictionaries and tables *)

(** A Python [dict] with string keys: insertion-ordered; assigning to a key
    that is present replaces its value and keeps the key's position. *)
Module dict.

Definition t (V : Type) : Type := list (string * V).

Fixpoint set {V : Type} (d : t V) (k : string) (v : V) : t V :=
  match d with
  | [] => [(k, v)]
  | (k', v') :: rest =>
      if String.eqb k' k then (k', v) :: rest
      else (k', v') :: set rest k v
  end.

Fixpoint get {V : Type} (d : t V) (k : string) : option V :=
  match d with
  | [] => None
  | (k', v') :: rest => if String.eqb k' k then Some v' else get rest k
  end.

Definition keys {V : Type} (d : t V) : list string := map fst d.

Definition values {V : Type} (d : t V) : list V := map snd d.

End dict.

(** The keys of a dictionary after one more assignment, and after a sequence
    of assignments to an empty one: each key once, where it first occurs. *)
Definition add_key (ks : list string) (k : string) : list string :=
  if existsb (fun k' => String.eqb k' k) ks then ks else ks ++ [k].

Definition first_occurrences (l : list string) : list string :=
  fold_left add_key l [].

(** A pandas [DataFrame] over the default range index: its columns in order,
    and the length of the index. *)
Record DataFrame : Type := {
  data : dict.t ndarray;
  nrows : nat
}.

Module pd.

(** [df[k] = v] on an array: its length must be that of the index. *)
Definition setitem (df : DataFrame) (k : string) (v : ndarray)
  : exn + DataFrame :=
  if (size v =? nrows df)%nat
  then inr {| data := dict.set (data df) k v; nrows := nrows df |}
  else inl ValueError.

Definition columns (df : DataFrame) : list string := dict.keys (data df).

(** Row [i]: each field name with the cell of its column. *)
Definition iloc (df : DataFrame) (i : nat) : list (string * scalar) :=
  map (fun kv => (fst kv, item (snd kv) i)) (data df).

Definition rows (df : DataFrame) : list (list (string * scalar)) :=
  map (iloc df) (seq 0 (nrows df)).

(** [pd.DataFrame(d)] on a dict of arrays: the arrays must all have one
    length, which becomes the number of rows. *)
Definition DataFrame (d : dict.t ndarray) : exn + DataFrame :=
  match d with
  | [] => inr {| data := []; nrows := 0 |}
  | (_, c) :: rest =>
      if forallb (fun kv => (size (snd kv) =? size c)%nat) rest
      then inr {| data := d; nrows := size c |}
      else inl ValueError
  end.

End pd.

(** ** tools/generate_data.py *)

Module generate_data.

Section Code.

Context {G : BitGenerator} {L : Libm}.

Local Open Scope monad_scope.

Definition generate_correlated_variables
  (n : Z) (mean1 std1 mean2 std2 correlation : float)
  : M RandomState (list float * list float) :=
  x1 <- np_random_normal 0 1 n ;;
  x2 <- np_random_normal 0 1 n ;;
  squared <- lift (py.pow2 correlation) ;;
  let x2 :=
    np.add (np.scalar_mul correlation x1)
           (np.scalar_mul (sqrt (1 - squared))%float x2) in
  let var1 := np.add_scalar (np.mul_scalar x1 std1) mean1 in
  let var2 := np.add_scalar (np.mul_scalar x2 std2) mean2 in
  ret (var1, var2).

(** The keyword arguments of [generate_synthetic_data]. *)
Record variable : Type := {
  name : string;
  mean : float;
  std : float
}.

Record correlated : Type := {
  var1 : variable;
  var2 : variable;
  correlation : float
}.

Record kwargs : Type := {
  num_samples : Z;
  age_params : float * float;
  weight_params : float * float;
  length_of_stay_params : float * float;
  comorbidity_list : option (list string);
  comorbidity_prevalences : option (list float);
  survival_shape : float;
  survival_scale : float;
  correlated_vars : option correlated;
  random_seed : Z
}.

Definition defaults : kwargs := {|
  num_samples := 1000;
  age_params := (60, 10)%float;
  weight_params := (70, 15)%float;
  length_of_stay_params := (2.0, 2)%float;
  comorbidity_list := None;
  comorbidity_prevalences := None;
  survival_shape := 2.0%float;
  survival_scale := 5.0%float;
  correlated_vars := None;
  random_seed := 42
|}.

(** The lists the two [None] defaults are replaced with. *)
Definition comorbidities (kw : kwargs) : list string :=
  match comorbidity_list kw with
  | Some l => l
  | None => ["diabetes"; "hypertension"; "cancer"]%string
  end.

Definition prevalences (kw : kwargs) : list float :=
  match comorbidity_prevalences kw with
  | Some l => l
  | None => [0.2; 0.3; 0.05]%float
  end.

(** The loop over [zip(comorbidity_list, comorbidity_prevalences)]. *)
Fixpoint build_comorbidities (n : Z) (pairs : list (string * float))
  (data_dict : dict.t ndarray) : M RandomState (dict.t ndarray) :=
  match pairs with
  | [] => ret data_dict
  | (comorbidity, prevalence) :: rest =>
      v <- binom_rvs 1 prevalence n ;;
      build_comorbidities n rest (dict.set data_dict comorbidity (int64 v))
  end.

(** The first two columns: the correlated pair, or age and weight. *)
Definition leading_columns (kw : kwargs) (data_dict : dict.t ndarray)
  : M RandomState (dict.t ndarray) :=
  match correlated_vars kw with
  | Some cv =>
      ' (v1, v2) <- generate_correlated_variables (num_samples kw)
                      (mean (var1 cv)) (std (var1 cv))
                      (mean (var2 cv)) (std (var2 cv))
                      (correlation cv) ;;
      let data_dict := dict.set data_dict (name (var1 cv)) (float64 v1) in
      let data_dict := dict.set data_dict (name (var2 cv)) (float64 v2) in
      ret data_dict
  | None =>
      a <- norm_rvs (fst (age_params kw)) (snd (age_params kw))
             (num_samples kw) ;;
      let data_dict :=
        dict.set data_dict "age" (int64 (np.astype_int a)) in
      w <- norm_rvs (fst (weight_params kw)) (snd (weight_params kw))
             (num_samples kw) ;;
      let data_dict := dict.set data_dict "weight" (float64 w) in
      ret data_dict
  end.

Definition generate_synthetic_data (kw : kwargs)
  : M RandomState DataFrame :=
  np_random_seed (random_seed kw) ;;;
  let data_dict := [] in
  data_dict <- leading_columns kw data_dict ;;
  los <- gamma_rvs (fst (length_of_stay_params kw))
           (snd (length_of_stay_params kw)) (num_samples kw) ;;
  let data_dict := dict.set data_dict "length_of_stay" (float64 los) in
  data_dict <- build_comorbidities (num_samples kw)
                 (combine (comorbidities kw) (prevalences kw))
                 data_dict ;;
  st <- gamma_rvs (survival_shape kw) (survival_scale kw)
          (num_samples kw) ;;
  let data_dict := dict.set data_dict "survival_time" (float64 st) in
  ev <- binom_rvs 1 0.3 (num_samples kw) ;;
  let data_dict := dict.set data_dict "event_occurred" (int64 ev) in
  lift (pd.DataFrame data_dict).

(** A valid configuration: a sample count that is not negative, a seed
    numpy accepts, distribution parameters in the domain their sampler
    checks and, with a correlated pair, a correlation whose square
    evaluates (it does not overflow).  A Gamma scale or a standard
    deviation of zero is accepted by the samplers, so it counts as valid
    here. *)
Definition valid (kw : kwargs) : bool :=
  (0 <=? num_samples kw)
  && valid_seed (random_seed kw)
  && match correlated_vars kw with
     | Some cv => py.squares (correlation cv)
     | None => accepts_scale (snd (age_params kw))
               && accepts_scale (snd (weight_params kw))
     end
  && accepts_gamma (fst (length_of_stay_params kw))
                   (snd (length_of_stay_params kw))
  && forallb (fun cp => accepts_prevalence (snd cp))
             (combine (comorbidities kw) (prevalences kw))
  && accepts_gamma (survival_shape kw) (survival_scale kw).

(** Whether the square of the configured correlation evaluates (there is
    nothing to square without a pair). *)
Definition pair_squares (kw : kwargs) : bool :=
  match correlated_vars kw with
  | Some cv => py.squares (correlation cv)
  | None => true
  end.

(** A configuration with an invalid parameter, as the samplers see it:
    a negative sample count, a Gamma shape that is not positive or a
    Gamma scale that is negative (or NaN), for length of stay or for
    survival time, or the prevalence of a comorbidity outside [0,1]. *)
Definition invalid (kw : kwargs) : bool :=
  (num_samples kw <? 0)
  || negb (accepts_gamma (fst (length_of_stay_params kw))
                         (snd (length_of_stay_params kw)))
  || existsb (fun cp => negb (accepts_prevalence (snd cp)))
             (combine (comorbidities kw) (prevalences kw))
  || negb (accepts_gamma (survival_shape kw) (survival_scale kw)).

(** The names of the first two columns. *)
Definition leading_names (kw : kwargs) : list string :=
  match correlated_vars kw with
  | Some cv => [name (var1 cv); name (var2 cv)]
  | None => ["age"; "weight"]%string
  end.

(** The comorbidity names that get a column: those [zip] pairs with a
    prevalence. *)
Definition comorbidity_names (kw : kwargs) : list string :=
  map fst (combine (comorbidities kw) (prevalences kw)).

(** The keys of [data_dict] in the order the code assigns them. *)
Definition assignments (kw : kwargs) : list string :=
  leading_names kw
  ++ ["length_of_stay"%string]
  ++ comorbidity_names kw
  ++ ["survival_time"; "event_occurred"]%string.

(** The field order the specification gives. *)
Definition specified_order (kw : kwargs) : list string :=
  leading_names kw
  ++ ["length_of_stay"; "survival_time"; "event_occurred"]%string
  ++ comorbidity_names kw.

(** How many comorbidities [zip] pairs with a prevalence. *)
Definition paired (kw : kwargs) : nat :=
  Nat.min (length (comorbidities kw)) (length (prevalences kw)).

(** The same call with other age and weight parameters. *)
Definition with_age_weight (kw : kwargs) (a w : float * float) : kwargs := {|
  num_samples := num_samples kw;
  age_params := a;
  weight_params := w;
  length_of_stay_params := length_of_stay_params kw;
  comorbidity_list := comorbidity_list kw;
  comorbidity_prevalences := comorbidity_prevalences kw;
  survival_shape := survival_shape kw;
  survival_scale := survival_scale kw;
  correlated_vars := correlated_vars kw;
  random_seed := random_seed kw
|}.

(** The same call with other comorbidity lists. *)
Definition with_comorbidities (kw : kwargs) (names : list string)
  (prevs : list float) : kwargs := {|
  num_samples := num_samples kw;
  age_params := age_params kw;
  weight_params := weight_params kw;
  length_of_stay_params := length_of_stay_params kw;
  comorbidity_list := Some names;
  comorbidity_prevalences := Some prevs;
  survival_shape := survival_shape kw;
  survival_scale := survival_scale kw;
  correlated_vars := correlated_vars kw;
  random_seed := random_seed kw
|}.

End Code.

End generate_data.

(** ** generate_synthetic_medical_data.py *)

Module generate_synthetic_medical_data.

Section Code.

Context {G : BitGenerator} {L : Libm}.

Local Open Scope monad_scope.

Record kwargs : Type := {
  num_samples : Z;
  age_params : float * float;
  weight_params : float * float;
  length_of_stay_params : float * float;
  comorbidity_list : option (list string);
  comorbidity_prevalences : option (list float);
  survival_shape : float;
  survival_scale : float;
  random_seed : Z
}.

Definition defaults : kwargs := {|
  num_samples := 1000;
  age_params := (60, 10)%float;
  weight_params := (70, 15)%float;
  length_of_stay_params := (2.0, 2)%float;
  comorbidity_list := None;
  comorbidity_prevalences := None;
  survival_shape := 2.0%float;
  survival_scale := 5.0%float;
  random_seed := 42
|}.

Definition comorbidities (kw : kwargs) : list string :=
  match comorbidity_list kw with
  | Some l => l
  | None => ["diabetes"; "hypertension"; "cancer"]%string
  end.

Definition prevalences (kw : kwargs) : list float :=
  match comorbidity_prevalences kw with
  | Some l => l
  | None => [0.2; 0.3; 0.05]%float
  end.

(** The loop that fills [comorbidity_data]. *)
Fixpoint build_comorbidities (n : Z) (pairs : list (string * float))
  (comorbidity_data : dict.t ndarray) : M RandomState (dict.t ndarray) :=
  match pairs with
  | [] => ret comorbidity_data
  | (comorbidity, prevalence) :: rest =>
      v <- binom_rvs 1 prevalence n ;;
      build_comorbidities n rest
        (dict.set comorbidity_data comorbidity (int64 v))
  end.

(** The loop over [comorbidity_data.items()] that adds the columns. *)
Fixpoint insert_comorbidities (items : list (string * ndarray))
  (data : DataFrame) : exn + DataFrame :=
  match items with
  | [] => inr data
  | (c_name, c_values) :: rest =>
      match pd.setitem data c_name c_values with
      | inr data => insert_comorbidities rest data
      | inl e => inl e
      end
  end.

Definition generate_synthetic_data (kw : kwargs)
  : M RandomState DataFrame :=
  np_random_seed (random_seed kw) ;;;
  a <- norm_rvs (fst (age_params kw)) (snd (age_params kw))
         (num_samples kw) ;;
  let ages := np.astype_int a in
  weights <- norm_rvs (fst (weight_params kw)) (snd (weight_params kw))
               (num_samples kw) ;;
  length_of_stay <- gamma_rvs (fst (length_of_stay_params kw))
                      (snd (length_of_stay_params kw)) (num_samples kw) ;;
  comorbidity_data <- build_comorbidities (num_samples kw)
                        (combine (comorbidities kw) (prevalences kw)) [] ;;
  survival_times <- gamma_rvs (survival_shape kw) (survival_scale kw)
                      (num_samples kw) ;;
  event_occurred <- binom_rvs 1 0.3 (num_samples kw) ;;
  data <- lift (pd.DataFrame
            [("age", int64 ages);
             ("weight", float64 weights);
             ("length_of_stay", float64 length_of_stay);
             ("survival_time", float64 survival_times);
             ("event_occurred", int64 event_occurred)]%string) ;;
  lift (insert_comorbidities comorbidity_data data).

Definition valid (kw : kwargs) : bool :=
  (0 <=? num_samples kw)
  && valid_seed (random_seed kw)
  && accepts_scale (snd (age_params kw))
  && accepts_scale (snd (weight_params kw))
  && accepts_gamma (fst (length_of_stay_params kw))
                   (snd (length_of_stay_params kw))
  && forallb (fun cp => accepts_prevalence (snd cp))
             (combine (comorbidities kw) (prevalences kw))
  && accepts_gamma (survival_shape kw) (survival_scale kw).

Definition comorbidity_names (kw : kwargs) : list string :=
  map fst (combine (comorbidities kw) (prevalences kw)).

(** The keys of the literal dict the table is built from. *)
Definition fixed_names : list string :=
  ["age"; "weight"; "length_of_stay"; "survival_time";
   "event_occurred"]%string.

Definition specified_order (kw : kwargs) : list string :=
  fixed_names ++ comorbidity_names kw.

Definition paired (kw : kwargs) : nat :=
  Nat.min (length (comorbidities kw)) (length (prevalences kw)).

Definition with_comorbidities (kw : kwargs) (names : list string)
  (prevs : list float) : kwargs := {|
  num_samples := num_samples kw;
  age_params := age_params kw;
  weight_params := weight_params kw;
  length_of_stay_params := length_of_stay_params kw;
  comorbidity_list := Some names;
  comorbidity_prevalences := Some prevs;
  survival_shape := survival_shape kw;
  survival_scale := survival_scale kw;
  random_seed := random_seed kw
|}.

End Code.

End generate_synthetic_medical_data.

(** ** Specifications of computations *)

(** [wp m Q s]: run from [s], [m] returns, and the value and final state
    satisfy [Q]. *)
Definition wp {S A : Type} (m : M S A) (Q : A -> S -> Prop) (s : S) : Prop :=
  match m s with
  | (inr a, s') => Q a s'
  | (inl _, _) => False
  end.

(** [raises e m s]: run from [s], [m] raises [e]. *)
Definition raises {S A : Type} (e : exn) (m : M S A) (s : S) : Prop :=
  exists s', m s = (inl e, s').

(** [only_raises e m]: [m] raises nothing but [e]. *)
Definition only_raises {S A : Type} (e : exn) (m : M S A) : Prop :=
  forall s e' s', m s = (inl e', s') -> e' = e.

(** [fails m s]: run from [s], [m] raises. *)
Definition fails {S A : Type} (m : M S A) (s : S) : Prop :=
  exists e s', m s = (inl e, s').

(** A table of [n]-long columns under the keys [ks]. *)
Definition table_ok (n : nat) (ks : list string) (d : dict.t ndarray)
  : Prop :=
  dict.keys d = ks /\ Forall (fun c => size c = n) (dict.values d).

(** ** A replay generator

    A generator that plays back a given sequence of variates for each seed:
    every draw takes the next variate of the sequence (zero once it is
    used up).  It makes the code executable on concrete inputs. *)
Module Replay.

Definition next (s : list float) : float * list float :=
  match s with
  | [] => (0%float, [])
  | x :: rest => (x, rest)
  end.

(** A Bernoulli trial by inversion of the next variate. *)
Definition bernoulli (p : float) (s : list float) : Z * list float :=
  let (u, rest) := next s in
  ((if (u <? p)%float then 1 else 0), rest).

Definition generator (tape : Z -> list float) : BitGenerator := {|
  RandomState := list float;
  init_by_seed := tape;
  legacy_gauss := next;
  legacy_standard_gamma := fun _ => next;
  legacy_binomial := fun _ => bernoulli
|}.

End Replay.

(** ** Example calls *)

Module Examples.

(** The variates replayed, whatever the seed. *)
Definition tape (_ : Z) : list float :=
  [0.1; 0.7; 0.25; 0.9; 0.05; 0.6; 0.35; 0.8; 0.15; 0.45; 0.55; 0.95;
   0.3; 0.2; 0.4; 0.5; 0.65; 0.75; 0.85; 0.12]%float.

Definition generator : BitGenerator := Replay.generator tape.

(** A C library whose [pow] squares by one rounded multiplication and
    reports no error, to run the code on concrete inputs. *)
Definition libm : Libm := {|
  libm_pow := fun x _ => ((x * x)%float, 0)
|}.

(** The default parameters with the given sample count, Gamma parameters
    for the length of stay, comorbidity lists and correlated pair. *)
Definition call (n : Z) (length_of_stay : float * float)
  (names : option (list string)) (prevs : option (list float))
  (pair : option generate_data.correlated) : generate_data.kwargs := {|
  generate_data.num_samples := n;
  generate_data.age_params := (60, 10)%float;
  generate_data.weight_params := (70, 15)%float;
  generate_data.length_of_stay_params := length_of_stay;
  generate_data.comorbidity_list := names;
  generate_data.comorbidity_prevalences := prevs;
  generate_data.survival_shape := 2.0%float;
  generate_data.survival_scale := 5.0%float;
  generate_data.correlated_vars := pair;
  generate_data.random_seed := 42
|}.

(** Two samples, all defaults. *)
Definition two : generate_data.kwargs :=
  call 2 (2.0, 2)%float None None None.

(** No sample. *)
Definition none : generate_data.kwargs :=
  call 0 (2.0, 2)%float None None None.

(** A Gamma shape of zero for the length of stay. *)
Definition zero_shape : generate_data.kwargs :=
  call 2 (0, 2)%float None None None.

(** A comorbidity called like the age field. *)
Definition colliding : generate_data.kwargs :=
  call 2 (2.0, 2)%float (Some ["age"%string]) (Some [0.5%float]) None.

(** Three names, one prevalence. *)
Definition uneven : generate_data.kwargs :=
  call 2 (2.0, 2)%float
    (Some ["diabetes"; "hypertension"; "cancer"]%string)
    (Some [0.2%float]) None.

(** Height and mass, correlated at 0.8. *)
Definition height_mass : generate_data.correlated := {|
  generate_data.var1 :=
    {| generate_data.name := "height";
       generate_data.mean := 170%float;
       generate_data.std := 10%float |};
  generate_data.var2 :=
    {| generate_data.name := "mass";
       generate_data.mean := 70%float;
       generate_data.std := 15%float |};
  generate_data.correlation := 0.8%float
|}.

Definition paired_call : generate_data.kwargs :=
  call 2 (2.0, 2)%float None None (Some height_mass).

(** Height and mass with a correlation too large to be squared, and the
    call with this pair and a Gamma shape of zero. *)
Definition unsquarable : generate_data.correlated := {|
  generate_data.var1 := generate_data.var1 height_mass;
  generate_data.var2 := generate_data.var2 height_mass;
  generate_data.correlation := 1e200%float
|}.

Definition unsquarable_call : generate_data.kwargs :=
  call 2 (0, 2)%float None None (Some unsquarable).

(** The script's defaults, for two samples and for three names with one
    prevalence. *)
Definition script_call (names : option (list string))
  (prevs : option (list float)) : generate_synthetic_medical_data.kwargs := {|
  generate_synthetic_medical_data.num_samples := 2;
  generate_synthetic_medical_data.age_params := (60, 10)%float;
  generate_synthetic_medical_data.weight_params := (70, 15)%float;
  generate_synthetic_medical_data.length_of_stay_params := (2.0, 2)%float;
  generate_synthetic_medical_data.comorbidity_list := names;
  generate_synthetic_medical_data.comorbidity_prevalences := prevs;
  generate_synthetic_medical_data.survival_shape := 2.0%float;
  generate_synthetic_medical_data.survival_scale := 5.0%float;
  generate_synthetic_medical_data.random_seed := 42
|}.

End Examples.

(** ** tools/generate_data.py: the export

    [export_synthetic_data] acts on the world through three library
    calls: [os.makedirs], [DataFrame.to_csv] and [print].  Each of them
    either comes back or raises, as the operating system decides; the
    calls made so far are the state of the computation, and a call that
    raises ends it.  The date is the caller's clock, formatted [%Y%m%d]. *)

Module str.

(** [s.endswith(suffix)]. *)
Fixpoint endswith (s suffix : string) : bool :=
  if String.eqb s suffix then true
  else match s with
       | EmptyString => false
       | String _ rest => endswith rest suffix
       end.

(** [s.startswith(prefix)]. *)
Definition startswith (s prefix : string) : bool := String.prefix prefix s.

End str.

Module os.

(** [os.path.join(a, b)] on POSIX. *)
Definition path_join (a b : string) : string :=
  if str.startswith b "/" then b
  else if String.eqb a "" || str.endswith a "/" then (a ++ b)%string
  else (a ++ "/" ++ b)%string.

End os.

Inductive effect : Type :=
| os_makedirs (path : string)
| to_csv (df : DataFrame) (path : string)
| print_line (text : string).

(** The operating system: for a call, after the calls made before it, the
    error it raises, if any. *)
Class OperatingSystem : Type := {
  outcome : list effect -> effect -> option exn
}.

(** One call to the library: it is made, and it comes back or raises. *)
Definition perform {O : OperatingSystem} (e : effect)
  : M (list effect) unit :=
  fun made =>
    match outcome made e with
    | Some err => (inl err, made ++ [e])
    | None => (inr tt, made ++ [e])
    end.

Module export.

Section Code.

Context {O : OperatingSystem}.

Local Open Scope monad_scope.

Definition output_dir : string := "data/generated_data".

(** The name the file gets: dated when none is given, else the given one,
    with the extension added unless it ends with it. *)
Definition file_name (today : string) (filename : option string) : string :=
  match filename with
  | None => ("synthetic_medical_data_" ++ today ++ ".csv")%string
  | Some filename =>
      if negb (str.endswith filename ".csv")
      then (filename ++ ".csv")%string
      else filename
  end.

Definition output_path (today : string) (filename : option string)
  : string :=
  os.path_join output_dir (file_name today filename).

Definition export_synthetic_data (today : string) (df : DataFrame)
  (filename : option string) : M (list effect) unit :=
  perform (os_makedirs output_dir) ;;;
  let output_path := output_path today filename in
  perform (to_csv df output_path) ;;;
  perform (print_line ("Data exported to " ++ output_path)%string).

End Code.

End export.

(** Two operating systems to run the export on: one on which every call
    comes back, and one on which the directory data/generated_data/sub
    does not exist, so that writing a file there raises OSError. *)
Module Systems.

Definition willing : OperatingSystem := {|
  outcome := fun _ _ => None
|}.

Definition no_subdirectory : OperatingSystem := {|
  outcome := fun _ e =>
    match e with
    | to_csv _ path =>
        if str.startswith path "data/generated_data/sub/"
        then Some OSError else None
    | _ => None
    end
|}.

Definition empty_table : DataFrame := {| data := []; nrows := 0 |}.

End Systems.

(** ** Assignments in sequence *)

(** A dictionary after the assignments [d[k] = v] of a list, in order. *)
Definition assign_all {V : Type} (d : dict.t V) (kvs : list (string * V))
  : dict.t V :=
  fold_left (fun d kv => dict.set d (fst kv) (snd kv)) kvs d.

(** The value a list of assignments leaves under a key: that of the last
    assignment to it. *)
Definition last_assigned {V : Type} (kvs : list (string * V)) (k : string)
  : option V :=
  dict.get (rev kvs) k.

(** One table seen through another: the fields of [upper] where it has
    them, those of [lower] elsewhere. *)
Definition overlay {V : Type} (upper lower : string -> option V)
  (k : string) : option V :=
  match upper k with
  | Some v => Some v
  | None => lower k
  end.

Section Indicators.

Context {G : BitGenerator} {L : Libm}.

Local Open Scope monad_scope.

(** The indicator columns the comorbidity loop samples, with their names,
    in the order of the loop. *)
Fixpoint indicator_columns (n : Z) (pairs : list (string * float))
  : M RandomState (list (string * ndarray)) :=
  match pairs with
  | [] => ret []
  | (comorbidity, prevalence) :: rest =>
      v <- binom_rvs 1 prevalence n ;;
      cols <- indicator_columns n rest ;;
      ret ((comorbidity, int64 v) :: cols)
  end.

(** What both generators sample after the two leading columns, in their
    common order: the length of stay, the indicators, the survival times
    and the events. *)
Definition tail_samples (n : Z) (length_of_stay : float * float)
  (pairs : list (string * float)) (shape scale : float)
  : M RandomState
      (list float * list (string * ndarray) * list float * list Z) :=
  los <- gamma_rvs (fst length_of_stay) (snd length_of_stay) n ;;
  cols <- indicator_columns n pairs ;;
  st <- gamma_rvs shape scale n ;;
  ev <- binom_rvs 1 0.3 n ;;
  ret (los, cols, st, ev).

End Indicators.

(** The assignments [tools/generate_data.py] makes after the leading
    columns, and the dictionary it ends with. *)
Definition tools_assignments
  (t : list float * list (string * ndarray) * list float * list Z)
  : list (string * ndarray) :=
  let '(los, cols, st, ev) := t in
  ("length_of_stay"%string, float64 los)
  :: cols
  ++ [("survival_time"%string, float64 st);
      ("event_occurred"%string, int64 ev)].

Definition tools_assemble (d1 : dict.t ndarray)
  (t : list float * list (string * ndarray) * list float * list Z)
  : dict.t ndarray :=
  assign_all d1 (tools_assignments t).

(** The literal dictionary of the script's table, and the table's columns
    once the comorbidities are added. *)
Definition script_frame (a w : list float)
  (t : list float * list (string * ndarray) * list float * list Z)
  : dict.t ndarray :=
  let '(los, cols, st, ev) := t in
  [("age", int64 (np.astype_int a));
   ("weight", float64 w);
   ("length_of_stay", float64 los);
   ("survival_time", float64 st);
   ("event_occurred", int64 ev)]%string.

Definition script_assemble (a w : list float)
  (t : list float * list (string * ndarray) * list float * list Z)
  : dict.t ndarray :=
  let '(los, cols, st, ev) := t in
  assign_all (script_frame a w t) (assign_all [] cols).

(** Tail samples of [n] values each, the indicators integer columns under
    the given names. *)
Definition tail_ok (n : nat) (names : list string)
  (t : list float * list (string * ndarray) * list float * list Z) : Prop :=
  let '(los, cols, st, ev) := t in
  length los = n
  /\ map fst cols = names
  /\ Forall (fun c => size c = n) (map snd cols)
  /\ Forall (fun c => exists v, c = int64 v) (map snd cols)
  /\ length st = n
  /\ length ev = n.

(** The names [tools/generate_data.py] assigns after the leading
    columns. *)
Definition assigned_later (kw : generate_data.kwargs) : list string :=
  "length_of_stay"%string
  :: generate_data.comorbidity_names kw
  ++ ["survival_time"; "event_occurred"]%string.

(** The keyword arguments the two generators share. *)
Definition as_script (kw : generate_data.kwargs)
  : generate_synthetic_medical_data.kwargs := {|
  generate_synthetic_medical_data.num_samples :=
    generate_data.num_samples kw;
  generate_synthetic_medical_data.age_params := generate_data.age_params kw;
  generate_synthetic_medical_data.weight_params :=
    generate_data.weight_params kw;
  generate_synthetic_medical_data.length_of_stay_params :=
    generate_data.length_of_stay_params kw;
  generate_synthetic_medical_data.comorbidity_list :=
    generate_data.comorbidity_list kw;
  generate_synthetic_medical_data.comorbidity_prevalences :=
    generate_data.comorbidity_prevalences kw;
  generate_synthetic_medical_data.survival_shape :=
    generate_data.survival_shape kw;
  generate_synthetic_medical_data.survival_scale :=
    generate_data.survival_scale kw;
  generate_synthetic_medical_data.random_seed := generate_data.random_seed kw
|}.

(** The same call of [tools/generate_data.py] with the given
    [correlated_vars]. *)
Definition with_correlated_vars (kw : generate_data.kwargs)
  (cv : option generate_data.correlated) : generate_data.kwargs := {|
  generate_data.num_samples := generate_data.num_samples kw;
  generate_data.age_params := generate_data.age_params kw;
  generate_data.weight_params := generate_data.weight_params kw;
  generate_data.length_of_stay_params :=
    generate_data.length_of_stay_params kw;
  generate_data.comorbidity_list := generate_data.comorbidity_list kw;
  generate_data.comorbidity_prevalences :=
    generate_data.comorbidity_prevalences kw;
  generate_data.survival_shape := generate_data.survival_shape kw;
  generate_data.survival_scale := generate_data.survival_scale kw;
  generate_data.correlated_vars := cv;
  generate_data.random_seed := generate_data.random_seed kw
|}.

(** ** Example calls with a comorbidity called survival_time *)

Module Collisions.

Definition tools_call : generate_data.kwargs :=
  Examples.call 2 (2.0, 2)%float (Some ["survival_time"%string])
    (Some [0.5%float]) None.

Definition script_call : generate_synthetic_medical_data.kwargs :=
  Examples.script_call (Some ["survival_time"%string]) (Some [0.5%float]).

(** A correlated pair whose two variables are both called score. *)
Definition score_twice : generate_data.correlated := {|
  generate_data.var1 :=
    {| generate_data.name := "score";
       generate_data.mean := 0%float;
       generate_data.std := 1%float |};
  generate_data.var2 :=
    {| generate_data.name := "score";
       generate_data.mean := 10%float;
       generate_data.std := 2%float |};
  generate_data.correlation := 0.5%float
|}.

Definition one_name_call : generate_data.kwargs :=
  Examples.call 2 (2.0, 2)%float None None (Some score_twice).

End Collisions.

(** * Properties *)

(** ** Keys of a dictionary *)

Section Keys.

Lemma existsb_eqb_In (ks : list string) (k : string) :
  existsb (fun k' => String.eqb k' k) ks = true <-> In k ks.
Proof.
  rewrite existsb_exists. split.
  - intros (k' & Hin & Heq). apply String.eqb_eq in Heq. now subst.
  - intros Hin. exists k. split; [assumption | apply String.eqb_refl].
Qed.

Lemma add_key_present (ks : list string) (k : string) :
  In k ks -> add_key ks k = ks.
Proof.
  intros Hin. unfold add_key.
  now rewrite (proj2 (existsb_eqb_In ks k) Hin).
Qed.

Lemma add_key_absent (ks : list string) (k : string) :
  ~ In k ks -> add_key ks k = ks ++ [k].
Proof.
  intros Hnin. unfold add_key.
  destruct (existsb _ ks) eqn:E; [| reflexivity].
  apply existsb_eqb_In in E. contradiction.
Qed.

Lemma add_key_In (ks : list string) (k x : string) :
  In x (add_key ks k) <-> In x ks \/ x = k.
Proof.
  destruct (in_dec string_dec k ks) as [Hin | Hnin].
  - rewrite add_key_present by assumption. split; [tauto |].
    intros [H | H]; [assumption | now subst].
  - rewrite add_key_absent by assumption. rewrite in_app_iff. simpl.
    split; intros [H | H]; auto.
    + destruct H as [H | []]; auto.
Qed.

Lemma add_key_NoDup (ks : list string) (k : string) :
  NoDup ks -> NoDup (add_key ks k).
Proof.
  intros Hnd. destruct (in_dec string_dec k ks) as [Hin | Hnin].
  - now rewrite add_key_present.
  - rewrite add_key_absent by assumption.
    apply NoDup_app; [assumption | repeat constructor; auto | ].
    intros x Hx [Hk | []]. now subst.
Qed.

Lemma fold_add_key_In (l acc : list string) (x : string) :
  In x (fold_left add_key l acc) <-> In x acc \/ In x l.
Proof.
  revert acc. induction l as [| k l IH]; intros acc; simpl.
  - tauto.
  - rewrite IH, add_key_In. intuition (subst; auto).
Qed.

Lemma fold_add_key_NoDup (l acc : list string) :
  NoDup acc -> NoDup (fold_left add_key l acc).
Proof.
  revert acc. induction l as [| k l IH]; intros acc Hnd; simpl.
  - assumption.
  - apply IH. now apply add_key_NoDup.
Qed.

(** Assigning fresh, distinct keys appends them in order. *)
Lemma fold_add_key_fresh (l acc : list string) :
  NoDup (acc ++ l) -> fold_left add_key l acc = acc ++ l.
Proof.
  revert acc. induction l as [| k l IH]; intros acc Hnd; simpl.
  - now rewrite app_nil_r.
  - assert (Hk : ~ In k acc).
    { apply NoDup_remove_2 in Hnd. intros Hin. apply Hnd.
      apply in_or_app. now left. }
    rewrite add_key_absent by assumption.
    rewrite IH; rewrite <- app_assoc; simpl; [reflexivity | assumption].
Qed.

Lemma first_occurrences_NoDup (l : list string) :
  NoDup (first_occurrences l).
Proof. apply fold_add_key_NoDup. constructor. Qed.

Lemma first_occurrences_In (l : list string) (x : string) :
  In x (first_occurrences l) <-> In x l.
Proof. unfold first_occurrences. rewrite fold_add_key_In. simpl. tauto. Qed.

Lemma first_occurrences_distinct (l : list string) :
  NoDup l -> first_occurrences l = l.
Proof. intros Hnd. now apply (fold_add_key_fresh l []). Qed.

Lemma keys_set {V : Type} (d : dict.t V) (k : string) (v : V) :
  dict.keys (dict.set d k v) = add_key (dict.keys d) k.
Proof.
  unfold add_key, dict.keys.
  induction d as [| [k' v'] d IH]; simpl; [reflexivity |].
  destruct (String.eqb k' k); simpl; [reflexivity |].
  rewrite IH. now destruct (existsb _ (map fst d)).
Qed.

Lemma values_set {V : Type} (P : V -> Prop) (d : dict.t V) (k : string)
  (v : V) :
  Forall P (dict.values d) -> P v -> Forall P (dict.values (dict.set d k v)).
Proof.
  unfold dict.values. intros Hd Hv.
  induction d as [| [k' v'] d IH]; simpl.
  - constructor; [assumption | constructor].
  - inversion Hd; subst.
    destruct (String.eqb k' k); simpl; constructor; auto.
Qed.

(** [zip] stops at the shorter list. *)
Lemma combine_firstn {A B : Type} (l : list A) (l' : list B) :
  combine l l'
  = combine (firstn (Nat.min (length l) (length l')) l)
            (firstn (Nat.min (length l) (length l')) l').
Proof.
  revert l'. induction l as [| a l IH]; intros [| b l']; simpl;
    try reflexivity.
  f_equal. apply IH.
Qed.

Lemma map_fst_combine {A B : Type} (l : list A) (l' : list B) :
  map fst (combine l l') = firstn (Nat.min (length l) (length l')) l.
Proof.
  revert l'. induction l as [| a l IH]; intros [| b l']; simpl;
    try reflexivity.
  f_equal. apply IH.
Qed.

End Keys.

(** ** Reasoning about computations *)

Section Monad.

Context {S : Type}.

Lemma wp_ret {A : Type} (a : A) (Q : A -> S -> Prop) (s : S) :
  Q a s -> wp (ret a) Q s.
Proof. intros H. exact H. Qed.

Lemma wp_lift {A : Type} (a : A) (Q : A -> S -> Prop) (s : S) :
  Q a s -> wp (lift (inr a)) Q s.
Proof. intros H. exact H. Qed.

Lemma wp_bind {A B : Type} (m : M S A) (k : A -> M S B)
  (Q : B -> S -> Prop) (s : S) :
  wp m (fun a s' => wp (k a) Q s') s -> wp (bind m k) Q s.
Proof.
  unfold wp, bind. destruct (m s) as [[e | a] s']; intros H;
    [contradiction | exact H].
Qed.

Lemma wp_mono {A : Type} (m : M S A) (P Q : A -> S -> Prop) (s : S) :
  wp m P s -> (forall a s', P a s' -> Q a s') -> wp m Q s.
Proof.
  unfold wp. destruct (m s) as [[e | a] s']; intros H HPQ;
    [contradiction | now apply HPQ].
Qed.

Lemma wp_returns {A : Type} (m : M S A) (Q : A -> S -> Prop) (s : S) :
  wp m Q s <-> exists a s', m s = (inr a, s') /\ Q a s'.
Proof.
  unfold wp. destruct (m s) as [[e | a] s']; split.
  - contradiction.
  - intros (a & s1 & Heq & _). discriminate.
  - intros H. now exists a, s'.
  - intros (a1 & s1 & Heq & H). now inversion Heq; subst.
Qed.

Lemma wp_not_fails {A : Type} (m : M S A) (Q : A -> S -> Prop) (s : S) :
  wp m Q s -> ~ fails m s.
Proof.
  unfold wp. intros H (e & s' & Heq). now rewrite Heq in H.
Qed.

(** A failure of the first computation is a failure of the sequence. *)
Lemma fails_bind_now {A B : Type} (m : M S A) (k : A -> M S B) (s : S) :
  fails m s -> fails (bind m k) s.
Proof.
  intros (e & s' & Heq). exists e, s'. unfold bind. now rewrite Heq.
Qed.

(** And so is a failure of whatever follows it. *)
Lemma fails_bind_later {A B : Type} (m : M S A) (k : A -> M S B) (s : S) :
  (forall a s', fails (k a) s') -> fails (bind m k) s.
Proof.
  intros H. unfold fails, bind. destruct (m s) as [[e | a] s'].
  - now exists e, s'.
  - apply H.
Qed.

Lemma fails_raise {A : Type} (e : exn) (s : S) : fails (@raise S A e) s.
Proof. now exists e, s. Qed.

Lemma draws_length {A : Type} (f : S -> A * S) (k : nat) (s : S) :
  length (fst (draws f k s)) = k.
Proof.
  revert s. induction k as [| k IH]; intros s; simpl; [reflexivity |].
  destruct (f s) as [x s1]. specialize (IH s1).
  destruct (draws f k s1) as [xs s2]. simpl in *. now rewrite IH.
Qed.

Lemma sample_nonneg {A : Type} (f : S -> A * S) (n : Z) (s : S) :
  0 <= n ->
  sample f n s
  = (inr (fst (draws f (Z.to_nat n) s)), snd (draws f (Z.to_nat n) s)).
Proof.
  intros Hn. unfold sample.
  destruct (n <? 0) eqn:E; [apply Z.ltb_lt in E; lia |].
  now destruct (draws f (Z.to_nat n) s).
Qed.

Lemma sample_negative {A : Type} (f : S -> A * S) (n : Z) (s : S) :
  n < 0 -> sample f n s = (inl ValueError, s).
Proof.
  intros Hn. unfold sample. apply Z.ltb_lt in Hn. now rewrite Hn.
Qed.

Lemma constant_negative (c : float) (n : Z) (s : S) :
  n < 0 -> constant c n s = (inl ValueError, s).
Proof.
  intros Hn. unfold constant. apply Z.ltb_lt in Hn. now rewrite Hn.
Qed.

Lemma wp_sample {A : Type} (f : S -> A * S) (n : Z)
  (Q : list A -> S -> Prop) (s : S) :
  0 <= n ->
  (forall xs s', length xs = Z.to_nat n -> Q xs s') ->
  wp (sample f n) Q s.
Proof.
  intros Hn HQ. unfold wp. rewrite sample_nonneg by assumption.
  apply HQ, draws_length.
Qed.

Lemma wp_constant (c : float) (n : Z) (Q : list float -> S -> Prop)
  (s : S) :
  0 <= n ->
  (forall xs s', length xs = Z.to_nat n -> Q xs s') ->
  wp (constant c n) Q s.
Proof.
  intros Hn HQ. unfold wp, constant.
  destruct (n <? 0) eqn:E; [apply Z.ltb_lt in E; lia |].
  apply HQ. apply repeat_length.
Qed.

End Monad.

(** ** The samplers *)

Section Samplers.

Context {G : BitGenerator} {L : Libm}.

Lemma length_affine (xs : list float) (a b : float) :
  length (np.add_scalar (np.mul_scalar xs a) b) = length xs.
Proof. unfold np.add_scalar, np.mul_scalar. now rewrite !length_map. Qed.

Lemma wp_np_random_seed (seed : Z) (Q : unit -> RandomState -> Prop)
  (s : RandomState) :
  valid_seed seed = true ->
  Q tt (init_by_seed seed) ->
  wp (np_random_seed seed) Q s.
Proof.
  intros Hs HQ. unfold wp, np_random_seed. unfold valid_seed in Hs.
  now rewrite Hs.
Qed.

Lemma wp_norm_rvs (loc scale : float) (n : Z)
  (Q : list float -> RandomState -> Prop) (s : RandomState) :
  accepts_scale scale = true -> 0 <= n ->
  (forall xs s', length xs = Z.to_nat n -> Q xs s') ->
  wp (norm_rvs loc scale n) Q s.
Proof.
  intros Ha Hn HQ. unfold norm_rvs. unfold accepts_scale in Ha.
  rewrite Ha. simpl. destruct (scale =? 0)%float.
  - now apply wp_constant.
  - apply wp_bind. apply wp_sample; [assumption |]. intros xs s' Hlen.
    apply wp_ret. apply HQ. now rewrite length_affine.
Qed.

Lemma wp_gamma_rvs (a scale : float) (n : Z)
  (Q : list float -> RandomState -> Prop) (s : RandomState) :
  accepts_gamma a scale = true -> 0 <= n ->
  (forall xs s', length xs = Z.to_nat n -> Q xs s') ->
  wp (gamma_rvs a scale n) Q s.
Proof.
  intros Ha Hn HQ. unfold gamma_rvs. unfold accepts_gamma in Ha.
  rewrite Ha. simpl. destruct (scale =? 0)%float.
  - now apply wp_constant.
  - apply wp_bind. apply wp_sample; [assumption |]. intros xs s' Hlen.
    apply wp_ret. apply HQ. now rewrite length_affine.
Qed.

Lemma wp_binom_rvs (p : float) (n : Z)
  (Q : list Z -> RandomState -> Prop) (s : RandomState) :
  accepts_prevalence p = true -> 0 <= n ->
  (forall xs s', length xs = Z.to_nat n -> Q xs s') ->
  wp (binom_rvs 1 p n) Q s.
Proof.
  intros Ha Hn HQ. unfold binom_rvs. unfold accepts_prevalence in Ha.
  replace ((0 <=? 1) && (0 <=? p)%float && (p <=? 1)%float)
    with true by (simpl; now rewrite Ha).
  simpl. now apply wp_sample.
Qed.

(** The event indicator's probability passes the check. *)
Lemma accepts_event_probability : accepts_prevalence 0.3 = true.
Proof. reflexivity. Qed.

Lemma np_random_normal_standard (n : Z) (s : RandomState) :
  0 <= n ->
  np_random_normal 0 1 n s
  = (inr (map (fun g => (0 + 1 * g)%float)
              (fst (draws legacy_gauss (Z.to_nat n) s))),
     snd (draws legacy_gauss (Z.to_nat n) s)).
Proof.
  intros Hn. unfold np_random_normal.
  change (1 <? 0)%float with false. cbv iota.
  unfold bind. now rewrite sample_nonneg.
Qed.

(** A negative size makes every sampler raise, the generator untouched. *)
Lemma np_random_normal_negative (loc scale : float) (n : Z)
  (s : RandomState) :
  n < 0 -> np_random_normal loc scale n s = (inl ValueError, s).
Proof.
  intros Hn. unfold np_random_normal.
  destruct (scale <? 0)%float; [reflexivity |].
  unfold bind. now rewrite sample_negative.
Qed.

Lemma norm_rvs_negative (loc scale : float) (n : Z) (s : RandomState) :
  n < 0 -> norm_rvs loc scale n s = (inl ValueError, s).
Proof.
  intros Hn. unfold norm_rvs.
  destruct (negb _); [reflexivity |].
  destruct (scale =? 0)%float; [now apply constant_negative |].
  unfold bind. now rewrite sample_negative.
Qed.

Lemma fails_gamma_rvs (a scale : float) (n : Z) (s : RandomState) :
  accepts_gamma a scale = false -> fails (gamma_rvs a scale n) s.
Proof.
  intros Ha. unfold gamma_rvs. unfold accepts_gamma in Ha. rewrite Ha.
  apply fails_raise.
Qed.

Lemma fails_binom_rvs (k : Z) (p : float) (n : Z) (s : RandomState) :
  accepts_prevalence p = false -> fails (binom_rvs k p n) s.
Proof.
  intros Ha. unfold binom_rvs. unfold accepts_prevalence in Ha.
  rewrite <- andb_assoc, Ha, andb_false_r. apply fails_raise.
Qed.

End Samplers.

(** ** Arrays *)

Section Arrays.

Lemma nth_map_lt {A B : Type} (f : A -> B) (l : list A) (i : nat)
  (d : B) (d' : A) :
  (i < length l)%nat -> nth i (map f l) d = f (nth i l d').
Proof.
  intros Hi. rewrite (nth_indep _ d (f d')) by now rewrite length_map.
  apply map_nth.
Qed.

Lemma length_add (xs ys : list float) :
  length xs = length ys -> length (np.add xs ys) = length xs.
Proof.
  intros H. unfold np.add. rewrite length_map, length_combine. lia.
Qed.

Lemma nth_add (xs ys : list float) (i : nat) (d : float) :
  length xs = length ys -> (i < length xs)%nat ->
  nth i (np.add xs ys) d = (nth i xs d + nth i ys d)%float.
Proof.
  intros Hlen Hi. unfold np.add.
  rewrite (nth_map_lt _ _ _ _ (d, d)) by (rewrite length_combine; lia).
  now rewrite combine_nth.
Qed.

Lemma table_ok_empty (n : nat) : table_ok n [] [].
Proof. split; [reflexivity | constructor]. Qed.

Lemma table_ok_set (n : nat) (ks : list string) (d : dict.t ndarray)
  (k : string) (v : ndarray) :
  table_ok n ks d -> size v = n ->
  table_ok n (add_key ks k) (dict.set d k v).
Proof.
  intros [Hk Hv] Hs. split.
  - now rewrite keys_set, Hk.
  - now apply values_set.
Qed.

Lemma set_not_empty {V : Type} (d : dict.t V) (k : string) (v : V) :
  dict.set d k v <> [].
Proof.
  destruct d as [| [k' v'] d]; simpl; [discriminate |].
  destruct (String.eqb k' k); discriminate.
Qed.

Lemma DataFrame_uniform (n : nat) (ks : list string) (d : dict.t ndarray) :
  table_ok n ks d -> d <> [] ->
  pd.DataFrame d = inr {| data := d; nrows := n |}.
Proof.
  intros [_ Hv] Hne. destruct d as [| [k c] rest]; [contradiction |].
  unfold dict.values in Hv. simpl in Hv. inversion Hv as [| ? ? Hc Hrest]; subst.
  unfold pd.DataFrame.
  replace (forallb _ rest) with true; [reflexivity |].
  symmetry. apply forallb_forall. intros [k' c'] Hin. simpl.
  apply Nat.eqb_eq. rewrite Forall_forall in Hrest.
  apply Hrest. now apply (in_map snd) in Hin.
Qed.

Lemma rows_length (df : DataFrame) : length (pd.rows df) = nrows df.
Proof. unfold pd.rows. now rewrite length_map, length_seq. Qed.

End Arrays.

(** ** tools/generate_data.py: the correlated pair *)

Section CorrelatedPair.

Context {G : BitGenerator} {L : Libm}.

Import generate_data.

(** A run of the generator with [n >= 0]: the two standard normal arrays
    [x1] and [x2] are drawn, then the correlation is squared; when that
    raises, the call raises, and otherwise the two arrays are returned. *)
Lemma generate_correlated_variables_nonneg
  (n : Z) (mean1 std1 mean2 std2 rho : float) (s : RandomState) :
  0 <= n ->
  exists x1 x2 s1 s2,
    np_random_normal 0 1 n s = (inr x1, s1)
    /\ np_random_normal 0 1 n s1 = (inr x2, s2)
    /\ length x1 = Z.to_nat n
    /\ length x2 = Z.to_nat n
    /\ generate_correlated_variables n mean1 std1 mean2 std2 rho s
       = match py.pow2 rho with
         | inr squared =>
             (inr (np.add_scalar (np.mul_scalar x1 std1) mean1,
                   np.add_scalar
                     (np.mul_scalar
                        (np.add (np.scalar_mul rho x1)
                           (np.scalar_mul (sqrt (1 - squared))%float x2))
                        std2)
                     mean2),
              s2)
         | inl e => (inl e, s2)
         end.
Proof.
  intros Hn.
  pose (s1 := snd (draws legacy_gauss (Z.to_nat n) s)).
  exists (map (fun g => (0 + 1 * g)%float)
            (fst (draws legacy_gauss (Z.to_nat n) s))).
  exists (map (fun g => (0 + 1 * g)%float)
            (fst (draws legacy_gauss (Z.to_nat n) s1))).
  exists s1, (snd (draws legacy_gauss (Z.to_nat n) s1)).
  repeat split.
  - now apply np_random_normal_standard.
  - now apply np_random_normal_standard.
  - now rewrite length_map, draws_length.
  - now rewrite length_map, draws_length.
  - unfold generate_correlated_variables, bind.
    rewrite np_random_normal_standard by assumption. fold s1.
    rewrite np_random_normal_standard by assumption.
    unfold lift. now destruct (py.pow2 rho).
Qed.

Lemma squares_pow2 (rho : float) :
  py.squares rho = true -> exists squared, py.pow2 rho = inr squared.
Proof.
  unfold py.squares. destruct (py.pow2 rho) as [e | c]; [discriminate |].
  intros _. now exists c.
Qed.

Lemma nth_var1 (x1 : list float) (std1 mean1 : float) (i : nat) :
  (i < length x1)%nat ->
  nth i (np.add_scalar (np.mul_scalar x1 std1) mean1) nan
  = (nth i x1 nan * std1 + mean1)%float.
Proof.
  intros Hi. unfold np.add_scalar, np.mul_scalar. rewrite map_map.
  now rewrite (nth_map_lt _ _ _ _ nan).
Qed.

Lemma nth_var2 (x1 x2 : list float) (c1 c2 std2 mean2 : float) (i : nat) :
  length x1 = length x2 -> (i < length x1)%nat ->
  nth i (np.add_scalar
           (np.mul_scalar
              (np.add (np.scalar_mul c1 x1) (np.scalar_mul c2 x2)) std2)
           mean2) nan
  = ((c1 * nth i x1 nan + c2 * nth i x2 nan) * std2 + mean2)%float.
Proof.
  intros Hlen Hi.
  assert (Hl1 : length (np.scalar_mul c1 x1) = length x1)
    by apply length_map.
  assert (Hl2 : length (np.scalar_mul c2 x2) = length x2)
    by apply length_map.
  rewrite nth_var1 by (rewrite length_add; lia).
  rewrite nth_add by lia.
  unfold np.scalar_mul.
  rewrite (nth_map_lt _ x1 _ _ nan) by assumption.
  now rewrite (nth_map_lt _ x2 _ _ nan) by lia.
Qed.

Lemma wp_generate_correlated_variables
  (n : Z) (mean1 std1 mean2 std2 rho : float)
  (Q : list float * list float -> RandomState -> Prop) (s : RandomState) :
  0 <= n ->
  py.squares rho = true ->
  (forall v1 v2 s', length v1 = Z.to_nat n -> length v2 = Z.to_nat n ->
                    Q (v1, v2) s') ->
  wp (generate_correlated_variables n mean1 std1 mean2 std2 rho) Q s.
Proof.
  intros Hn Hsq HQ.
  destruct (squares_pow2 rho Hsq) as (c & Hc).
  destruct (generate_correlated_variables_nonneg n mean1 std1 mean2 std2
              rho s Hn) as (x1 & x2 & s1 & s2 & _ & _ & H1 & H2 & Heq).
  rewrite Hc in Heq. unfold wp. rewrite Heq. apply HQ.
  - now rewrite length_affine.
  - rewrite length_affine, length_add; unfold np.scalar_mul;
      rewrite !length_map; lia.
Qed.


End CorrelatedPair.

(** ** tools/generate_data.py: the table *)

Section Table.

Context {G : BitGenerator} {L : Libm}.

Import generate_data.

Lemma valid_inv (kw : kwargs) :
  valid kw = true ->
  0 <= num_samples kw
  /\ valid_seed (random_seed kw) = true
  /\ match correlated_vars kw with
     | Some cv => py.squares (correlation cv) = true
     | None => accepts_scale (snd (age_params kw)) = true
               /\ accepts_scale (snd (weight_params kw)) = true
     end
  /\ accepts_gamma (fst (length_of_stay_params kw))
       (snd (length_of_stay_params kw)) = true
  /\ forallb (fun cp => accepts_prevalence (snd cp))
       (combine (comorbidities kw) (prevalences kw)) = true
  /\ accepts_gamma (survival_shape kw) (survival_scale kw) = true.
Proof.
  unfold valid. rewrite !andb_true_iff.
  intros [[[[[Hn Hs] Hc] Hl] Hp] Hg].
  apply Z.leb_le in Hn. repeat split; try assumption.
  destruct (correlated_vars kw); [exact Hc |].
  now apply andb_true_iff in Hc.
Qed.

Lemma wp_leading_columns (kw : kwargs) (d : dict.t ndarray)
  (ks : list string) (Q : dict.t ndarray -> RandomState -> Prop)
  (s : RandomState) :
  valid kw = true ->
  table_ok (Z.to_nat (num_samples kw)) ks d ->
  (forall d' s',
      table_ok (Z.to_nat (num_samples kw))
        (fold_left add_key (leading_names kw) ks) d' ->
      Q d' s') ->
  wp (leading_columns kw d) Q s.
Proof.
  intros Hv Hd HQ.
  destruct (valid_inv kw Hv) as (Hn & _ & Hc & _).
  unfold leading_columns, leading_names in *.
  destruct (correlated_vars kw) as [cv |].
  - apply wp_bind.
    apply wp_generate_correlated_variables; [assumption | assumption |].
    intros v1 v2 s' H1 H2. apply wp_ret. apply HQ. simpl.
    now repeat apply table_ok_set.
  - destruct Hc as [Ha Hw].
    apply wp_bind. apply wp_norm_rvs; try assumption.
    intros a s1 Hla. apply wp_bind. apply wp_norm_rvs; try assumption.
    intros w s2 Hlw. apply wp_ret. apply HQ. simpl.
    repeat apply table_ok_set; try assumption.
    simpl. unfold np.astype_int. now rewrite length_map.
Qed.

Lemma wp_build_comorbidities (n : Z) (pairs : list (string * float))
  (d : dict.t ndarray) (ks : list string)
  (Q : dict.t ndarray -> RandomState -> Prop) (s : RandomState) :
  0 <= n ->
  forallb (fun cp => accepts_prevalence (snd cp)) pairs = true ->
  table_ok (Z.to_nat n) ks d ->
  (forall d' s',
      table_ok (Z.to_nat n) (fold_left add_key (map fst pairs) ks) d' ->
      Q d' s') ->
  wp (build_comorbidities n pairs d) Q s.
Proof.
  intros Hn. revert d ks s.
  induction pairs as [| [c p] rest IH]; intros d ks s Hp Hd HQ; simpl.
  - apply wp_ret. now apply HQ.
  - simpl in Hp. apply andb_true_iff in Hp as [Hp Hrest].
    apply wp_bind. apply wp_binom_rvs; try assumption.
    intros v s' Hlen. apply (IH _ (add_key ks c)); try assumption.
    now apply table_ok_set.
Qed.

(** A valid configuration yields a table: [n] rows, columns of length [n],
    named by the keys the code assigns, each where it is first assigned. *)
Lemma wp_generate_synthetic_data (kw : kwargs)
  (Q : DataFrame -> RandomState -> Prop) (s : RandomState) :
  valid kw = true ->
  (forall df s',
      nrows df = Z.to_nat (num_samples kw) ->
      table_ok (Z.to_nat (num_samples kw))
        (first_occurrences (assignments kw)) (data df) ->
      Q df s') ->
  wp (generate_synthetic_data kw) Q s.
Proof.
  intros Hv HQ.
  destruct (valid_inv kw Hv) as (Hn & Hs & _ & Hl & Hp & Hg).
  unfold generate_synthetic_data.
  apply wp_bind. apply wp_np_random_seed; [assumption |].
  apply wp_bind. apply (wp_leading_columns kw [] []); try assumption.
  { apply table_ok_empty. }
  intros d1 s1 Hd1.
  apply wp_bind. apply wp_gamma_rvs; try assumption.
  intros los s2 Hlos.
  apply wp_bind.
  eapply wp_build_comorbidities; try eassumption.
  { apply table_ok_set; [exact Hd1 | exact Hlos]. }
  intros d2 s3 Hd2.
  apply wp_bind. apply wp_gamma_rvs; try assumption.
  intros st s4 Hst.
  apply wp_bind.
  apply wp_binom_rvs; [apply accepts_event_probability | assumption |].
  intros ev s5 Hev.
  assert (Hfinal :
    table_ok (Z.to_nat (num_samples kw)) (first_occurrences (assignments kw))
      (dict.set (dict.set d2 "survival_time" (float64 st))
         "event_occurred" (int64 ev))).
  { unfold first_occurrences, assignments, comorbidity_names.
    rewrite !fold_left_app. simpl.
    repeat apply table_ok_set; assumption. }
  unfold wp, lift.
  rewrite (DataFrame_uniform _ _ _ Hfinal) by apply set_not_empty.
  now apply HQ.
Qed.

End Table.

(** ** tools/generate_data.py: what a call returns *)

Section Generation.

Context {G : BitGenerator} {L : Libm}.

Import generate_data.

Lemma get_of_key {V : Type} (d : dict.t V) (k : string) :
  In k (dict.keys d) ->
  exists v, dict.get d k = Some v /\ In v (dict.values d).
Proof.
  unfold dict.keys, dict.values.
  induction d as [| [k' v'] d IH]; simpl; [contradiction |].
  intros Hin. destruct (String.eqb k' k) eqn:E.
  - exists v'. auto.
  - destruct Hin as [Heq | Hin].
    + subst. now rewrite String.eqb_refl in E.
    + destruct (IH Hin) as (v & Hget & Hv). exists v. auto.
Qed.

(** After a valid seed the call no longer depends on the state it found. *)
Lemma generate_synthetic_data_reseeds (kw : kwargs) (s1 s2 : RandomState) :
  valid_seed (random_seed kw) = true ->
  generate_synthetic_data kw s1 = generate_synthetic_data kw s2.
Proof.
  intros Hs. unfold generate_synthetic_data, bind at 1 3, np_random_seed.
  unfold valid_seed in Hs. now rewrite Hs.
Qed.

(** C3. For every valid configuration with sample count [n], the table
    returned has exactly [n] rows, and every generated field (the leading
    pair, length_of_stay, the comorbidities, survival_time, event_occurred)
    is a column of length exactly [n]. *)
Theorem record_count (kw : kwargs) (s : RandomState) :
  valid kw = true ->
  exists df s',
    generate_synthetic_data kw s = (inr df, s')
    /\ Z.of_nat (nrows df) = num_samples kw
    /\ Z.of_nat (length (pd.rows df)) = num_samples kw
    /\ Forall (fun c => Z.of_nat (size c) = num_samples kw)
         (dict.values (data df))
    /\ forall field, In field (assignments kw) ->
         exists c, dict.get (data df) field = Some c
                   /\ Z.of_nat (size c) = num_samples kw.
Proof.
  intros Hv. apply wp_returns.
  apply wp_generate_synthetic_data; [assumption |].
  intros df s' Hrows [Hkeys Hsizes].
  destruct (valid_inv kw Hv) as (Hn & _).
  assert (Hall : Forall (fun c => Z.of_nat (size c) = num_samples kw)
                   (dict.values (data df))).
  { eapply Forall_impl; [| exact Hsizes]. simpl. intros c Hc. lia. }
  repeat split.
  - lia.
  - rewrite rows_length. lia.
  - exact Hall.
  - intros field Hin.
    apply first_occurrences_In in Hin. rewrite <- Hkeys in Hin.
    destruct (get_of_key _ _ Hin) as (c & Hget & Hc).
    exists c. split; [assumption |].
    rewrite Forall_forall in Hall. now apply Hall.
Qed.

(** C4. For every valid configuration, seed included, the call is a
    function of the configuration alone: whatever state the generator is
    in when it is called, it returns the same table (and leaves the
    generator in the same state), so two calls with one configuration
    return identical tables. *)
Theorem deterministic (kw : kwargs) :
  valid kw = true ->
  exists df s',
    forall s : RandomState, generate_synthetic_data kw s = (inr df, s').
Proof.
  intros Hv.
  destruct (valid_inv kw Hv) as (_ & Hs & _).
  assert (H : wp (generate_synthetic_data kw) (fun _ _ => True)
                (init_by_seed 0)).
  { apply wp_generate_synthetic_data; auto. }
  apply wp_returns in H. destruct H as (df & s' & Heq & _).
  exists df, s'. intros s. rewrite <- Heq.
  now apply generate_synthetic_data_reseeds.
Qed.

(** C9. With sample count 0 and parameters otherwise valid, generation
    succeeds and returns a table of no rows whose fields are the
    configured ones; and the correlated-pair generator, asked for 0
    samples with a correlation whose square evaluates, returns two empty
    arrays and draws nothing. *)
Theorem empty_sample (kw : kwargs) (s : RandomState) :
  valid kw = true ->
  num_samples kw = 0 ->
  (exists df s',
      generate_synthetic_data kw s = (inr df, s')
      /\ nrows df = 0%nat
      /\ pd.rows df = []
      /\ pd.columns df = first_occurrences (assignments kw))
  /\ forall (mean1 std1 mean2 std2 rho : float) (s0 : RandomState),
       py.squares rho = true ->
       generate_correlated_variables 0 mean1 std1 mean2 std2 rho s0
       = (inr ([], []), s0).
Proof.
  intros Hv H0. split.
  - apply wp_returns.
    apply wp_generate_synthetic_data; [assumption |].
    intros df s' Hrows [Hkeys _]. rewrite H0 in Hrows. simpl in Hrows.
    repeat split; try assumption.
    unfold pd.rows. now rewrite Hrows.
  - intros mean1 std1 mean2 std2 rho s0 Hsq.
    destruct (squares_pow2 rho Hsq) as (c & Hc).
    unfold generate_correlated_variables, bind.
    rewrite !np_random_normal_standard by lia.
    unfold lift. now rewrite Hc.
Qed.

End Generation.

(** ** tools/generate_data.py: names, failures and the zipped lists *)

Section Configuration.

Context {G : BitGenerator} {L : Libm}.

Import generate_data.

Lemma columns_of_valid (kw : kwargs) (s : RandomState) :
  valid kw = true ->
  exists df s',
    generate_synthetic_data kw s = (inr df, s')
    /\ pd.columns df = first_occurrences (assignments kw).
Proof.
  intros Hv. apply wp_returns.
  apply wp_generate_synthetic_data; [assumption |].
  now intros df s' _ [Hkeys _].
Qed.

(** C8. When a correlated pair is configured, the table has a field of
    each of its two names, a field called age or weight is there only as
    one of the pair or as a comorbidity of that name, and nothing of the
    result depends on the age and weight parameters: age and weight are
    not sampled beside the pair. *)
Theorem correlated_pair_replaces_age_weight
  (kw : kwargs) (cv : correlated) (s : RandomState) :
  valid kw = true ->
  correlated_vars kw = Some cv ->
  (exists df s',
      generate_synthetic_data kw s = (inr df, s')
      /\ In (name (var1 cv)) (pd.columns df)
      /\ In (name (var2 cv)) (pd.columns df)
      /\ forall field,
           field = "age"%string \/ field = "weight"%string ->
           In field (pd.columns df) ->
           field = name (var1 cv) \/ field = name (var2 cv)
           \/ In field (comorbidity_names kw))
  /\ forall a w : float * float,
       generate_synthetic_data (with_age_weight kw a w) s
       = generate_synthetic_data kw s.
Proof.
  intros Hv Hcv. split.
  - destruct (columns_of_valid kw s Hv) as (df & s' & Heq & Hcols).
    exists df, s'. split; [assumption |]. rewrite Hcols.
    unfold assignments, leading_names. rewrite Hcv.
    repeat split.
    + apply first_occurrences_In. simpl. auto.
    + apply first_occurrences_In. simpl. auto.
    + intros field Hfield Hin.
      apply (proj1 (first_occurrences_In _ _)) in Hin.
      simpl in Hin. destruct Hin as [H | [H | [H | H]]]; auto.
      * destruct Hfield; subst; discriminate.
      * apply in_app_or in H. destruct H as [H | [H | [H | []]]]; auto;
          destruct Hfield; subst; discriminate.
  - intros a w. unfold generate_synthetic_data, leading_columns. simpl.
    now rewrite Hcv.
Qed.

(** C6, as the code has it. A configuration with valid parameters is never
    refused for its names: whether or not a comorbidity is called like a
    reserved field, like a field of the correlated pair or like another
    comorbidity, the call returns a table. Its fields are the assigned
    names, each once, at the place of its first assignment in the order
    leading pair, length_of_stay, comorbidities, survival_time,
    event_occurred. *)
Theorem name_collisions_accepted (kw : kwargs) (s : RandomState) :
  valid kw = true ->
  exists df s',
    generate_synthetic_data kw s = (inr df, s')
    /\ pd.columns df = first_occurrences (assignments kw)
    /\ NoDup (pd.columns df)
    /\ forall field, In field (pd.columns df) <-> In field (assignments kw).
Proof.
  intros Hv.
  destruct (columns_of_valid kw s Hv) as (df & s' & Heq & Hcols).
  exists df, s'. rewrite Hcols. repeat split; try assumption.
  - apply first_occurrences_NoDup.
  - now apply first_occurrences_In.
  - now apply first_occurrences_In.
Qed.

Lemma leading_columns_negative (kw : kwargs) (d : dict.t ndarray)
  (s : RandomState) :
  num_samples kw < 0 ->
  leading_columns kw d s = (inl ValueError, s).
Proof.
  intros Hn. unfold leading_columns.
  destruct (correlated_vars kw) as [cv |].
  - unfold bind at 1, generate_correlated_variables, bind at 1.
    now rewrite np_random_normal_negative.
  - unfold bind at 1. now rewrite norm_rvs_negative.
Qed.

(** A negative sample count stops the call at its first sampler. *)
Lemma generate_synthetic_data_negative (kw : kwargs) (s : RandomState) :
  num_samples kw < 0 ->
  generate_synthetic_data kw s
  = (inl ValueError, snd (np_random_seed (random_seed kw) s)).
Proof.
  intros Hn. unfold generate_synthetic_data, bind at 1.
  unfold np_random_seed.
  destruct ((0 <=? random_seed kw) && (random_seed kw <? 2 ^ 32));
    [| reflexivity].
  unfold bind at 1. now rewrite leading_columns_negative.
Qed.

Lemma fails_build_comorbidities (n : Z) (pairs : list (string * float))
  (d : dict.t ndarray) (s : RandomState) :
  existsb (fun cp => negb (accepts_prevalence (snd cp))) pairs = true ->
  fails (build_comorbidities n pairs d) s.
Proof.
  revert d s. induction pairs as [| [c p] rest IH]; intros d s H; simpl in *.
  - discriminate.
  - destruct (accepts_prevalence p) eqn:E; simpl in H.
    + apply fails_bind_later. intros v s'. now apply IH.
    + apply fails_bind_now. now apply fails_binom_rvs.
Qed.

Lemma raises_bind_now {S A B : Type} (e : exn) (m : M S A)
  (k : A -> M S B) (s : S) :
  raises e m s -> raises e (bind m k) s.
Proof.
  intros (s' & Heq). exists s'. unfold bind. now rewrite Heq.
Qed.

Lemma raises_bind_later {S A B : Type} (e : exn) (m : M S A)
  (k : A -> M S B) (s : S) :
  only_raises e m -> (forall a s', raises e (k a) s') ->
  raises e (bind m k) s.
Proof.
  intros Hm Hk. unfold raises, bind.
  destruct (m s) as [[e' | a] s'] eqn:E.
  - rewrite (Hm _ _ _ E). now exists s'.
  - apply Hk.
Qed.

Lemma only_raises_bind {S A B : Type} (e : exn) (m : M S A)
  (k : A -> M S B) :
  only_raises e m -> (forall a, only_raises e (k a)) ->
  only_raises e (bind m k).
Proof.
  intros Hm Hk s e' s'. unfold bind.
  destruct (m s) as [[e0 | a] s0] eqn:E.
  - intros H. inversion H; subst. exact (Hm _ _ _ E).
  - apply Hk.
Qed.

Lemma only_raises_ret {S A : Type} (e : exn) (a : A) :
  only_raises e (@ret S A a).
Proof. intros s e' s' H. discriminate. Qed.

Lemma only_raises_raise {S A : Type} (e : exn) :
  only_raises e (@raise S A e).
Proof. intros s e' s' H. now inversion H. Qed.

Lemma only_raises_sample {S A : Type} (f : S -> A * S) (n : Z) :
  only_raises ValueError (sample f n).
Proof.
  intros s e' s'. unfold sample. destruct (n <? 0).
  - intros H. now inversion H.
  - destruct (draws f (Z.to_nat n) s). discriminate.
Qed.

Lemma only_raises_constant {S : Type} (c : float) (n : Z) :
  only_raises ValueError (@constant S c n).
Proof.
  intros s e' s'. unfold constant. destruct (n <? 0).
  - intros H. now inversion H.
  - discriminate.
Qed.

Lemma only_raises_np_random_seed (seed : Z) :
  only_raises ValueError (np_random_seed seed).
Proof.
  intros s e' s'. unfold np_random_seed.
  destruct ((0 <=? seed) && (seed <? 2 ^ 32)); [discriminate |].
  intros H. now inversion H.
Qed.

Lemma only_raises_np_random_normal (loc scale : float) (n : Z) :
  only_raises ValueError (np_random_normal loc scale n).
Proof.
  unfold np_random_normal. destruct (scale <? 0)%float.
  - apply only_raises_raise.
  - apply only_raises_bind; [apply only_raises_sample |].
    intros gs. apply only_raises_ret.
Qed.

Lemma only_raises_norm_rvs (loc scale : float) (n : Z) :
  only_raises ValueError (norm_rvs loc scale n).
Proof.
  unfold norm_rvs. destruct (negb _); [apply only_raises_raise |].
  destruct (scale =? 0)%float; [apply only_raises_constant |].
  apply only_raises_bind; [apply only_raises_sample |].
  intros gs. apply only_raises_ret.
Qed.

Lemma only_raises_gamma_rvs (a scale : float) (n : Z) :
  only_raises ValueError (gamma_rvs a scale n).
Proof.
  unfold gamma_rvs. destruct (negb _); [apply only_raises_raise |].
  destruct (scale =? 0)%float; [apply only_raises_constant |].
  apply only_raises_bind; [apply only_raises_sample |].
  intros gs. apply only_raises_ret.
Qed.

Lemma only_raises_binom_rvs (k : Z) (p : float) (n : Z) :
  only_raises ValueError (binom_rvs k p n).
Proof.
  unfold binom_rvs. destruct (negb _); [apply only_raises_raise |].
  apply only_raises_sample.
Qed.

Lemma only_raises_leading_columns (kw : kwargs) (d : dict.t ndarray) :
  pair_squares kw = true ->
  only_raises ValueError (leading_columns kw d).
Proof.
  unfold pair_squares, leading_columns.
  destruct (correlated_vars kw) as [cv |]; intros Hsq.
  - apply only_raises_bind; [| intros [v1 v2]; apply only_raises_ret].
    unfold generate_correlated_variables.
    apply only_raises_bind; [apply only_raises_np_random_normal |].
    intros x1.
    apply only_raises_bind; [apply only_raises_np_random_normal |].
    intros x2. destruct (squares_pow2 _ Hsq) as (c & Hc). rewrite Hc.
    apply only_raises_bind; [| intros c'; apply only_raises_ret].
    intros s e' s' H. discriminate.
  - apply only_raises_bind; [apply only_raises_norm_rvs |]. intros a.
    apply only_raises_bind; [apply only_raises_norm_rvs |]. intros w.
    apply only_raises_ret.
Qed.

Lemma raises_gamma_rvs (a scale : float) (n : Z) (s : RandomState) :
  accepts_gamma a scale = false -> raises ValueError (gamma_rvs a scale n) s.
Proof.
  intros Ha. unfold gamma_rvs. unfold accepts_gamma in Ha. rewrite Ha.
  now exists s.
Qed.

Lemma raises_binom_rvs (k : Z) (p : float) (n : Z) (s : RandomState) :
  accepts_prevalence p = false -> raises ValueError (binom_rvs k p n) s.
Proof.
  intros Ha. unfold binom_rvs. unfold accepts_prevalence in Ha.
  rewrite <- andb_assoc, Ha, andb_false_r. now exists s.
Qed.

Lemma raises_build_comorbidities (n : Z) (pairs : list (string * float))
  (d : dict.t ndarray) (s : RandomState) :
  existsb (fun cp => negb (accepts_prevalence (snd cp))) pairs = true ->
  raises ValueError (build_comorbidities n pairs d) s.
Proof.
  revert d s. induction pairs as [| [c p] rest IH]; intros d s H; simpl in *.
  - discriminate.
  - destruct (accepts_prevalence p) eqn:E; simpl in H.
    + apply raises_bind_later; [apply only_raises_binom_rvs |].
      intros v s'. now apply IH.
    + apply raises_bind_now. now apply raises_binom_rvs.
Qed.

Lemma only_raises_build_comorbidities (n : Z)
  (pairs : list (string * float)) (d : dict.t ndarray) :
  only_raises ValueError (build_comorbidities n pairs d).
Proof.
  revert d. induction pairs as [| [c p] rest IH]; intros d; simpl.
  - apply only_raises_ret.
  - apply only_raises_bind; [apply only_raises_binom_rvs |].
    intros v. apply IH.
Qed.

(** With a correlation whose square raises, a call that reaches the pair
    raises that error. *)
Lemma generate_synthetic_data_overflow (kw : kwargs) (cv : correlated)
  (e : exn) (s : RandomState) :
  0 <= num_samples kw ->
  valid_seed (random_seed kw) = true ->
  correlated_vars kw = Some cv ->
  py.pow2 (correlation cv) = inl e ->
  raises e (generate_synthetic_data kw) s.
Proof.
  intros Hn Hs Hcv He. unfold generate_synthetic_data.
  unfold raises, bind at 1, np_random_seed. unfold valid_seed in Hs.
  rewrite Hs. unfold bind at 1, leading_columns. rewrite Hcv.
  unfold bind at 1.
  destruct (generate_correlated_variables_nonneg (num_samples kw)
              (mean (var1 cv)) (std (var1 cv)) (mean (var2 cv))
              (std (var2 cv)) (correlation cv)
              (init_by_seed (random_seed kw)) Hn)
    as (x1 & x2 & s1 & s2 & _ & _ & _ & _ & Heq).
  rewrite He in Heq. rewrite Heq. now exists s2.
Qed.

(** C2, as the code has it. The code validates nothing itself; the
    samplers check what they are given, when they are called. A
    configuration with a negative sample count, a Gamma shape that is not
    positive or a Gamma scale that is negative (length of stay or survival
    time), or a comorbidity prevalence outside [0,1] makes the call raise,
    and no table is returned. With a negative sample count the call stops
    at its first sampler with ValueError, the generator as seeding left
    it. The error is ValueError whenever the square of a configured
    correlation evaluates; when it does not, the sample count is not
    negative and the seed is accepted, the call raises the error of the
    square (OverflowError), whatever the other parameters. *)
Theorem invalid_parameter_raises (kw : kwargs) (s : RandomState) :
  invalid kw = true ->
  (exists e s', generate_synthetic_data kw s = (inl e, s'))
  /\ (num_samples kw < 0 ->
      generate_synthetic_data kw s
      = (inl ValueError, snd (np_random_seed (random_seed kw) s)))
  /\ (pair_squares kw = true ->
      exists s', generate_synthetic_data kw s = (inl ValueError, s'))
  /\ (forall cv e,
         0 <= num_samples kw ->
         valid_seed (random_seed kw) = true ->
         correlated_vars kw = Some cv ->
         py.pow2 (correlation cv) = inl e ->
         exists s', generate_synthetic_data kw s = (inl e, s')).
Proof.
  intros Hbad.
  split; [| split; [apply generate_synthetic_data_negative | split]].
  - unfold invalid in Hbad. rewrite !orb_true_iff in Hbad.
    change (fails (generate_synthetic_data kw) s).
    destruct Hbad as [[[Hn | Hl] | Hp] | Hg].
    + apply Z.ltb_lt in Hn. eexists. eexists.
      now apply generate_synthetic_data_negative.
    + apply negb_true_iff in Hl. unfold generate_synthetic_data.
      apply fails_bind_later. intros _ s0.
      apply fails_bind_later. intros d1 s1.
      apply fails_bind_now. now apply fails_gamma_rvs.
    + unfold generate_synthetic_data.
      apply fails_bind_later. intros _ s0.
      apply fails_bind_later. intros d1 s1.
      apply fails_bind_later. intros los s2.
      apply fails_bind_now. now apply fails_build_comorbidities.
    + apply negb_true_iff in Hg. unfold generate_synthetic_data.
      apply fails_bind_later. intros _ s0.
      apply fails_bind_later. intros d1 s1.
      apply fails_bind_later. intros los s2.
      apply fails_bind_later. intros d2 s3.
      apply fails_bind_now. now apply fails_gamma_rvs.
  - intros Hsq. unfold invalid in Hbad. rewrite !orb_true_iff in Hbad.
    change (raises ValueError (generate_synthetic_data kw) s).
    destruct Hbad as [[[Hn | Hl] | Hp] | Hg].
    + apply Z.ltb_lt in Hn. eexists.
      now apply generate_synthetic_data_negative.
    + apply negb_true_iff in Hl. unfold generate_synthetic_data.
      apply raises_bind_later; [apply only_raises_np_random_seed |].
      intros _ s0.
      apply raises_bind_later;
        [now apply only_raises_leading_columns |]. intros d1 s1.
      apply raises_bind_now. now apply raises_gamma_rvs.
    + unfold generate_synthetic_data.
      apply raises_bind_later; [apply only_raises_np_random_seed |].
      intros _ s0.
      apply raises_bind_later;
        [now apply only_raises_leading_columns |]. intros d1 s1.
      apply raises_bind_later; [apply only_raises_gamma_rvs |].
      intros los s2.
      apply raises_bind_now. now apply raises_build_comorbidities.
    + apply negb_true_iff in Hg. unfold generate_synthetic_data.
      apply raises_bind_later; [apply only_raises_np_random_seed |].
      intros _ s0.
      apply raises_bind_later;
        [now apply only_raises_leading_columns |]. intros d1 s1.
      apply raises_bind_later; [apply only_raises_gamma_rvs |].
      intros los s2.
      apply raises_bind_later; [apply only_raises_build_comorbidities |].
      intros d2 s3.
      apply raises_bind_now. now apply raises_gamma_rvs.
  - intros cv e Hn Hs Hcv He.
    now apply (generate_synthetic_data_overflow kw cv).
Qed.

End Configuration.

(** ** generate_synthetic_medical_data.py *)

Section Script.

Context {G : BitGenerator} {L : Libm}.

Import generate_synthetic_medical_data.

Lemma script_valid_inv (kw : kwargs) :
  valid kw = true ->
  0 <= num_samples kw
  /\ valid_seed (random_seed kw) = true
  /\ accepts_scale (snd (age_params kw)) = true
  /\ accepts_scale (snd (weight_params kw)) = true
  /\ accepts_gamma (fst (length_of_stay_params kw))
       (snd (length_of_stay_params kw)) = true
  /\ forallb (fun cp => accepts_prevalence (snd cp))
       (combine (comorbidities kw) (prevalences kw)) = true
  /\ accepts_gamma (survival_shape kw) (survival_scale kw) = true.
Proof.
  unfold valid. rewrite !andb_true_iff.
  intros [[[[[[Hn Hs] Ha] Hw] Hl] Hp] Hg].
  apply Z.leb_le in Hn. repeat split; assumption.
Qed.

Lemma wp_script_build_comorbidities (n : Z) (pairs : list (string * float))
  (d : dict.t ndarray) (ks : list string)
  (Q : dict.t ndarray -> RandomState -> Prop) (s : RandomState) :
  0 <= n ->
  forallb (fun cp => accepts_prevalence (snd cp)) pairs = true ->
  table_ok (Z.to_nat n) ks d ->
  (forall d' s',
      table_ok (Z.to_nat n) (fold_left add_key (map fst pairs) ks) d' ->
      Q d' s') ->
  wp (build_comorbidities n pairs d) Q s.
Proof.
  intros Hn. revert d ks s.
  induction pairs as [| [c p] rest IH]; intros d ks s Hp Hd HQ; simpl.
  - apply wp_ret. now apply HQ.
  - simpl in Hp. apply andb_true_iff in Hp as [Hp Hrest].
    apply wp_bind. apply wp_binom_rvs; try assumption.
    intros v s' Hlen. apply (IH _ (add_key ks c)); try assumption.
    now apply table_ok_set.
Qed.

(** Adding columns of the right length one by one keeps the table. *)
Lemma insert_comorbidities_ok (n : nat) (items : dict.t ndarray)
  (ks : list string) (df : DataFrame) :
  Forall (fun c => size c = n) (dict.values items) ->
  nrows df = n ->
  table_ok n ks (data df) ->
  exists df',
    insert_comorbidities items df = inr df'
    /\ nrows df' = n
    /\ table_ok n (fold_left add_key (dict.keys items) ks) (data df').
Proof.
  revert ks df.
  induction items as [| [k v] items IH]; intros ks df Hitems Hrows Hdf.
  - exists df. auto.
  - unfold dict.values in Hitems. simpl in Hitems.
    inversion Hitems as [| ? ? Hv Hrest]; subst.
    simpl. unfold pd.setitem. rewrite Hv, Nat.eqb_refl.
    apply IH; [exact Hrest | reflexivity |].
    simpl. now apply table_ok_set.
Qed.

Lemma wp_script_generate_synthetic_data (kw : kwargs)
  (Q : DataFrame -> RandomState -> Prop) (s : RandomState) :
  valid kw = true ->
  (forall df s',
      nrows df = Z.to_nat (num_samples kw) ->
      table_ok (Z.to_nat (num_samples kw))
        (fold_left add_key (first_occurrences (comorbidity_names kw))
           fixed_names)
        (data df) ->
      Q df s') ->
  wp (generate_synthetic_data kw) Q s.
Proof.
  intros Hv HQ.
  destruct (script_valid_inv kw Hv) as (Hn & Hs & Ha & Hw & Hl & Hp & Hg).
  unfold generate_synthetic_data.
  apply wp_bind. apply wp_np_random_seed; [assumption |].
  apply wp_bind. apply wp_norm_rvs; try assumption. intros a s1 Hla.
  apply wp_bind. apply wp_norm_rvs; try assumption. intros w s2 Hlw.
  apply wp_bind. apply wp_gamma_rvs; try assumption. intros los s3 Hlos.
  apply wp_bind.
  apply (wp_script_build_comorbidities _ _ [] []); try assumption.
  { apply table_ok_empty. }
  intros cd s4 [Hck Hcv].
  apply wp_bind. apply wp_gamma_rvs; try assumption. intros st s5 Hst.
  apply wp_bind.
  apply wp_binom_rvs; [apply accepts_event_probability | assumption |].
  intros ev s6 Hev.
  assert (Hfixed :
    table_ok (Z.to_nat (num_samples kw)) fixed_names
      [("age"%string, int64 (np.astype_int a));
       ("weight"%string, float64 w);
       ("length_of_stay"%string, float64 los);
       ("survival_time"%string, float64 st);
       ("event_occurred"%string, int64 ev)]).
  { split; [reflexivity |]. unfold dict.values. simpl.
    repeat constructor; simpl; try assumption.
    unfold np.astype_int. now rewrite length_map. }
  apply wp_bind. unfold wp at 1, lift at 1.
  rewrite (DataFrame_uniform _ _ _ Hfixed) by discriminate.
  destruct (insert_comorbidities_ok _ cd fixed_names
              {| data := _; nrows := Z.to_nat (num_samples kw) |}
              Hcv eq_refl Hfixed) as (df' & Hins & Hrows & Htable).
  unfold wp, lift. rewrite Hins. apply HQ; [assumption |].
  unfold first_occurrences, comorbidity_names. now rewrite <- Hck.
Qed.

Lemma script_columns_of_valid (kw : kwargs) (s : RandomState) :
  valid kw = true ->
  exists df s',
    generate_synthetic_data kw s = (inr df, s')
    /\ pd.columns df
       = fold_left add_key (first_occurrences (comorbidity_names kw))
           fixed_names.
Proof.
  intros Hv. apply wp_returns.
  apply wp_script_generate_synthetic_data; [assumption |].
  now intros df s' _ [Hkeys _].
Qed.

End Script.

(** ** Both generators: the zipped lists and the order of the fields *)

Section Generators.

Context {G : BitGenerator} {L : Libm}.

Lemma tools_zip_truncates (kw : generate_data.kwargs) (s : RandomState) :
  generate_data.generate_synthetic_data kw s
  = generate_data.generate_synthetic_data
      (generate_data.with_comorbidities kw
         (firstn (generate_data.paired kw) (generate_data.comorbidities kw))
         (firstn (generate_data.paired kw) (generate_data.prevalences kw)))
      s.
Proof.
  unfold generate_data.generate_synthetic_data,
    generate_data.leading_columns, generate_data.with_comorbidities,
    generate_data.paired.
  cbn [generate_data.comorbidities generate_data.prevalences
       generate_data.comorbidity_list generate_data.comorbidity_prevalences
       generate_data.num_samples generate_data.age_params
       generate_data.weight_params generate_data.length_of_stay_params
       generate_data.survival_shape generate_data.survival_scale
       generate_data.correlated_vars generate_data.random_seed].
  now rewrite <- combine_firstn.
Qed.

Lemma script_zip_truncates (kw : generate_synthetic_medical_data.kwargs)
  (s : RandomState) :
  generate_synthetic_medical_data.generate_synthetic_data kw s
  = generate_synthetic_medical_data.generate_synthetic_data
      (generate_synthetic_medical_data.with_comorbidities kw
         (firstn (generate_synthetic_medical_data.paired kw)
            (generate_synthetic_medical_data.comorbidities kw))
         (firstn (generate_synthetic_medical_data.paired kw)
            (generate_synthetic_medical_data.prevalences kw)))
      s.
Proof.
  unfold generate_synthetic_medical_data.generate_synthetic_data,
    generate_synthetic_medical_data.with_comorbidities,
    generate_synthetic_medical_data.paired.
  cbn [generate_synthetic_medical_data.comorbidities
       generate_synthetic_medical_data.prevalences
       generate_synthetic_medical_data.comorbidity_list
       generate_synthetic_medical_data.comorbidity_prevalences
       generate_synthetic_medical_data.num_samples
       generate_synthetic_medical_data.age_params
       generate_synthetic_medical_data.weight_params
       generate_synthetic_medical_data.length_of_stay_params
       generate_synthetic_medical_data.survival_shape
       generate_synthetic_medical_data.survival_scale
       generate_synthetic_medical_data.random_seed].
  now rewrite <- combine_firstn.
Qed.

(** C10. In both generators, when the list of comorbidity names and the
    list of prevalences differ in length (or not), a configuration whose
    paired parameters are valid does not fail: the comorbidity columns are
    those of the first [min (len names) (len prevalences)] names, and the
    call returns what it returns on the two lists cut to that length, the
    surplus of the longer one ignored. *)
Theorem zip_ignores_surplus :
  (forall (kw : generate_data.kwargs) (s : RandomState),
      generate_data.valid kw = true ->
      (exists df s',
          generate_data.generate_synthetic_data kw s = (inr df, s')
          /\ pd.columns df
             = first_occurrences
                 (generate_data.leading_names kw
                  ++ ["length_of_stay"%string]
                  ++ firstn (generate_data.paired kw)
                       (generate_data.comorbidities kw)
                  ++ ["survival_time"; "event_occurred"]%string))
      /\ generate_data.generate_synthetic_data kw s
         = generate_data.generate_synthetic_data
             (generate_data.with_comorbidities kw
                (firstn (generate_data.paired kw)
                   (generate_data.comorbidities kw))
                (firstn (generate_data.paired kw)
                   (generate_data.prevalences kw)))
             s)
  /\ (forall (kw : generate_synthetic_medical_data.kwargs) (s : RandomState),
         generate_synthetic_medical_data.valid kw = true ->
         (exists df s',
             generate_synthetic_medical_data.generate_synthetic_data kw s
             = (inr df, s')
             /\ pd.columns df
                = fold_left add_key
                    (first_occurrences
                       (firstn (generate_synthetic_medical_data.paired kw)
                          (generate_synthetic_medical_data.comorbidities kw)))
                    generate_synthetic_medical_data.fixed_names)
         /\ generate_synthetic_medical_data.generate_synthetic_data kw s
            = generate_synthetic_medical_data.generate_synthetic_data
                (generate_synthetic_medical_data.with_comorbidities kw
                   (firstn (generate_synthetic_medical_data.paired kw)
                      (generate_synthetic_medical_data.comorbidities kw))
                   (firstn (generate_synthetic_medical_data.paired kw)
                      (generate_synthetic_medical_data.prevalences kw)))
                s).
Proof.
  split; intros kw s Hv; split.
  - destruct (columns_of_valid kw s Hv) as (df & s' & Heq & Hcols).
    exists df, s'. split; [assumption |]. rewrite Hcols.
    unfold generate_data.assignments, generate_data.comorbidity_names,
      generate_data.paired.
    now rewrite map_fst_combine.
  - apply tools_zip_truncates.
  - destruct (script_columns_of_valid kw s Hv) as (df & s' & Heq & Hcols).
    exists df, s'. split; [assumption |]. rewrite Hcols.
    unfold generate_synthetic_medical_data.comorbidity_names,
      generate_synthetic_medical_data.paired.
    now rewrite map_fst_combine.
  - apply script_zip_truncates.
Qed.

(** C5, as the code has it. With valid parameters and field names that are
    all distinct, [generate_synthetic_medical_data.py] returns the fields
    in the order age, weight, length_of_stay, survival_time,
    event_occurred, then the comorbidities in configured order; and
    [tools/generate_data.py] returns them in the order of its assignments:
    the correlated pair (or age, weight), length_of_stay, the comorbidities
    in configured order, then survival_time, event_occurred. *)
Theorem field_order :
  (forall (kw : generate_synthetic_medical_data.kwargs) (s : RandomState),
      generate_synthetic_medical_data.valid kw = true ->
      NoDup (generate_synthetic_medical_data.specified_order kw) ->
      exists df s',
        generate_synthetic_medical_data.generate_synthetic_data kw s
        = (inr df, s')
        /\ pd.columns df
           = ["age"; "weight"; "length_of_stay"; "survival_time";
              "event_occurred"]%string
             ++ generate_synthetic_medical_data.comorbidity_names kw)
  /\ (forall (kw : generate_data.kwargs) (s : RandomState),
         generate_data.valid kw = true ->
         NoDup (generate_data.assignments kw) ->
         exists df s',
           generate_data.generate_synthetic_data kw s = (inr df, s')
           /\ pd.columns df
              = generate_data.leading_names kw
                ++ ["length_of_stay"%string]
                ++ generate_data.comorbidity_names kw
                ++ ["survival_time"; "event_occurred"]%string).
Proof.
  split; intros kw s Hv Hnd.
  - destruct (script_columns_of_valid kw s Hv) as (df & s' & Heq & Hcols).
    exists df, s'. split; [assumption |]. rewrite Hcols.
    unfold generate_synthetic_medical_data.specified_order in Hnd.
    rewrite first_occurrences_distinct
      by (eapply NoDup_app_remove_l; exact Hnd).
    now apply fold_add_key_fresh.
  - destruct (columns_of_valid kw s Hv) as (df & s' & Heq & Hcols).
    exists df, s'. split; [assumption |]. rewrite Hcols.
    now apply first_occurrences_distinct.
Qed.

(** C7, as the code has it. For every [n >= 0] and every means and
    standard deviations, the correlated-pair generator accepts a
    correlation of 1.0 and of -1.0 and returns two arrays of length [n];
    there [sqrt(1 - rho^2)] is 0, so that, in binary64 arithmetic,
    [v1[i] = x1[i]*std1 + mean1] and
    [v2[i] = (rho*x1[i] + 0*x2[i])*std2 + mean2]: both are read off the
    same draw [x1[i]]. *)
Theorem unit_correlation
  (n : Z) (mean1 std1 mean2 std2 rho : float) (s : RandomState) :
  0 <= n ->
  rho = 1%float \/ rho = (-1)%float ->
  exists x1 x2 s1 s2 v1 v2,
    np_random_normal 0 1 n s = (inr x1, s1)
    /\ np_random_normal 0 1 n s1 = (inr x2, s2)
    /\ generate_data.generate_correlated_variables
         n mean1 std1 mean2 std2 rho s
       = (inr (v1, v2), s2)
    /\ length v1 = Z.to_nat n
    /\ length v2 = Z.to_nat n
    /\ forall i : nat, (i < Z.to_nat n)%nat ->
         nth i v1 nan = (nth i x1 nan * std1 + mean1)%float
         /\ nth i v2 nan
            = ((rho * nth i x1 nan + 0 * nth i x2 nan) * std2 + mean2)%float.
Proof.
  intros Hn Hrho.
  assert (Hone : py.pow2 rho = inr 1%float)
    by (destruct Hrho; subst rho; reflexivity).
  destruct (generate_correlated_variables_nonneg n mean1 std1 mean2 std2
              rho s Hn) as (x1 & x2 & s1 & s2 & E1 & E2 & H1 & H2 & Heq).
  rewrite Hone in Heq.
  change (sqrt (1 - 1))%float with 0%float in Heq.
  exists x1, x2, s1, s2. eexists. eexists.
  split; [exact E1 |]. split; [exact E2 |]. split; [exact Heq |].
  split; [now rewrite length_affine |].
  split.
  - rewrite length_affine, length_add; unfold np.scalar_mul;
      rewrite !length_map; lia.
  - intros i Hi. split.
    + apply nth_var1. lia.
    + apply nth_var2; lia.
Qed.

End Generators.


(** ** Concrete runs *)

Section Runs.

Import Examples.

#[local] Existing Instance libm.

Abbreviation run_tools := (@generate_data.generate_synthetic_data generator libm).
Abbreviation run_script :=
  (@generate_synthetic_medical_data.generate_synthetic_data generator).
Abbreviation run_pair :=
  (@generate_data.generate_correlated_variables generator libm).


(** Two rows from the defaults. *)
Lemma record_count_witness :
  generate_data.valid two = true
  /\ exists df s',
       run_tools two [] = (inr df, s') /\ Z.of_nat (nrows df) = 2.
Proof.
  split; [reflexivity |].
  destruct (@record_count generator libm two [] eq_refl)
    as (df & s' & Heq & Hrows & _).
  exists df, s'. split; assumption.
Defined.

(** The same table from an untouched generator and from a used one. *)
Lemma deterministic_witness :
  generate_data.valid two = true
  /\ exists df s',
       run_tools two [] = (inr df, s')
       /\ run_tools two [0.5; 0.25]%float = (inr df, s').
Proof.
  split; [reflexivity |].
  destruct (@deterministic generator libm two eq_refl) as (df & s' & H).
  exists df, s'. split; apply H.
Defined.

(** No sample: a table of no rows. *)
Lemma empty_sample_witness :
  generate_data.valid none = true
  /\ generate_data.num_samples none = 0
  /\ exists df s', run_tools none [] = (inr df, s') /\ pd.rows df = [].
Proof.
  split; [reflexivity |]. split; [reflexivity |].
  destruct (@empty_sample generator libm none [] eq_refl eq_refl)
    as [(df & s' & Heq & _ & Hrows & _) _].
  exists df, s'. split; assumption.
Defined.

(** Height and mass in place of age and weight. *)
Lemma correlated_pair_replaces_age_weight_witness :
  generate_data.valid paired_call = true
  /\ exists df s',
       run_tools paired_call [] = (inr df, s')
       /\ In "height"%string (pd.columns df)
       /\ In "mass"%string (pd.columns df).
Proof.
  split; [reflexivity |].
  destruct (@correlated_pair_replaces_age_weight generator libm paired_call
              height_mass [] eq_refl eq_refl)
    as [(df & s' & Heq & H1 & H2 & _) _].
  exists df, s'. repeat split; assumption.
Defined.

(** A comorbidity called age: the call goes through. *)
Lemma name_collisions_accepted_witness :
  generate_data.valid colliding = true
  /\ exists df s',
       run_tools colliding [] = (inr df, s') /\ NoDup (pd.columns df).
Proof.
  split; [reflexivity |].
  destruct (@name_collisions_accepted generator libm colliding [] eq_refl)
    as (df & s' & Heq & _ & Hnd & _).
  exists df, s'. split; assumption.
Defined.

(** A zero shape for the length of stay: the call raises. *)
Lemma invalid_parameter_raises_witness :
  generate_data.invalid zero_shape = true
  /\ exists s', run_tools zero_shape [] = (inl ValueError, s').
Proof.
  split; [reflexivity |].
  exact (proj1 (proj2 (proj2 (@invalid_parameter_raises generator libm
                                zero_shape [] eq_refl))) eq_refl).
Defined.

(** A correlation of 1e200 and a zero shape: the square of the correlation
    raises OverflowError once the two normal arrays are drawn, before the
    shape is looked at. *)
Lemma unsquarable_correlation_overflows :
  generate_data.invalid unsquarable_call = true
  /\ @py.pow2 libm 1e200 = inl OverflowError
  /\ run_pair 2 170 10 70 15 1e200 (tape 42)
     = (inl OverflowError, skipn 4 (tape 42))
  /\ run_tools unsquarable_call [] = (inl OverflowError, skipn 4 (tape 42)).
Proof. repeat split; reflexivity. Qed.

(** Three names and one prevalence, in both generators. *)
Lemma zip_ignores_surplus_witness :
  generate_data.valid uneven = true
  /\ generate_synthetic_medical_data.valid
       (script_call (Some ["diabetes"; "hypertension"; "cancer"]%string)
          (Some [0.2%float])) = true
  /\ (exists df s',
         run_tools uneven [] = (inr df, s')
         /\ pd.columns df
            = ["age"; "weight"; "length_of_stay"; "diabetes";
               "survival_time"; "event_occurred"]%string)
  /\ (exists df s',
         run_script
           (script_call (Some ["diabetes"; "hypertension"; "cancer"]%string)
              (Some [0.2%float])) [] = (inr df, s')
         /\ pd.columns df
            = ["age"; "weight"; "length_of_stay"; "survival_time";
               "event_occurred"; "diabetes"]%string).
Proof.
  split; [reflexivity |]. split; [reflexivity |]. split.
  - destruct (proj1 (@zip_ignores_surplus generator libm) uneven [] eq_refl)
      as [(df & s' & Heq & Hcols) _].
    exists df, s'. split; [assumption |]. rewrite Hcols. reflexivity.
  - destruct (proj2 (@zip_ignores_surplus generator libm)
                (script_call
                   (Some ["diabetes"; "hypertension"; "cancer"]%string)
                   (Some [0.2%float])) [] eq_refl)
      as [(df & s' & Heq & Hcols) _].
    exists df, s'. split; [assumption |]. rewrite Hcols. reflexivity.
Defined.

Lemma default_names_distinct :
  NoDup ["age"; "weight"; "length_of_stay"; "survival_time";
         "event_occurred"; "diabetes"; "hypertension"; "cancer"]%string.
Proof.
  repeat (constructor;
          [simpl; intros H; repeat (destruct H as [H | H]; [discriminate |]);
           exact H |]).
  constructor.
Qed.

Lemma default_assignments_distinct :
  NoDup ["age"; "weight"; "length_of_stay"; "diabetes"; "hypertension";
         "cancer"; "survival_time"; "event_occurred"]%string.
Proof.
  repeat (constructor;
          [simpl; intros H; repeat (destruct H as [H | H]; [discriminate |]);
           exact H |]).
  constructor.
Qed.

(** The defaults, in both generators. *)
Lemma field_order_witness :
  (exists df s',
      run_script (script_call None None) [] = (inr df, s')
      /\ pd.columns df
         = ["age"; "weight"; "length_of_stay"; "survival_time";
            "event_occurred"; "diabetes"; "hypertension"; "cancer"]%string)
  /\ (exists df s',
         run_tools two [] = (inr df, s')
         /\ pd.columns df
            = ["age"; "weight"; "length_of_stay"; "diabetes";
               "hypertension"; "cancer"; "survival_time";
               "event_occurred"]%string).
Proof.
  split.
  - exact (proj1 (@field_order generator libm) (script_call None None) []
             eq_refl default_names_distinct).
  - exact (proj2 (@field_order generator libm) two [] eq_refl
             default_assignments_distinct).
Defined.

(** One sample at correlation -1. *)
Lemma unit_correlation_witness :
  exists (v1 v2 : list float) (s' : list float),
    run_pair 1 0 3 0 1 (-1) (tape 42) = (inr (v1, v2), s')
    /\ length v1 = 1%nat
    /\ length v2 = 1%nat.
Proof.
  destruct (@unit_correlation generator libm 1 0 3 0 1 (-1) (tape 42))
    as (x1 & x2 & s1 & s2 & v1 & v2 & _ & _ & Heq & H1 & H2 & _);
    [lia | now right |].
  exists v1, v2, s2. repeat split; assumption.
Defined.

(** C2 does not hold as stated: a Gamma shape of zero for the length of
    stay is invalid, yet the call does not fail before sampling. It raises
    at the sampler of the length of stay, when the four variates of the two
    ages and the two weights have been drawn from the seeded generator. *)
Lemma invalid_shape_raises_after_sampling :
  generate_data.invalid zero_shape = true
  /\ exists s' : list float,
       run_tools zero_shape [] = (inl ValueError, s')
       /\ (length s' + 4 = length (tape 42))%nat
       /\ s' <> snd (@np_random_seed generator 42 []).
Proof.
  split; [reflexivity |].
  eexists. split; [vm_compute; reflexivity |].
  split; [reflexivity |].
  intros H. apply (f_equal (@length float)) in H. vm_compute in H.
  discriminate.
Qed.

(** C5 does not hold as stated for [tools/generate_data.py]: there the
    comorbidities come before survival_time and event_occurred. *)
Lemma tools_field_order_differs :
  generate_data.valid two = true
  /\ exists df s',
       run_tools two [] = (inr df, s')
       /\ pd.columns df
          = ["age"; "weight"; "length_of_stay"; "diabetes"; "hypertension";
             "cancer"; "survival_time"; "event_occurred"]%string
       /\ pd.columns df <> generate_data.specified_order two.
Proof.
  split; [reflexivity |].
  eexists. eexists. split; [vm_compute; reflexivity |].
  split; [reflexivity |].
  intros H. vm_compute in H. discriminate.
Qed.

(** C6 does not hold as stated: with a comorbidity called age the call
    returns a table, in which the indicator has taken the place of the
    age. *)
Lemma colliding_name_returns_table :
  exists df s',
    run_tools colliding [] = (inr df, s')
    /\ pd.columns df
       = ["age"; "weight"; "length_of_stay"; "survival_time";
          "event_occurred"]%string
    /\ dict.get (data df) "age" = Some (int64 [1; 0]).
Proof.
  eexists. eexists. split; [vm_compute; reflexivity |].
  split; reflexivity.
Qed.

(** C7 does not hold as stated: at correlation 1, with [mean1 = 0],
    [std1 = 3], [mean2 = 0], [std2 = 1] and a first draw of 0.1, the
    generator returns [v1 = 0.30000000000000004] and [v2 = 0.1], while
    [(v1 - mean1)/std1*std2 + mean2] is 0.10000000000000002. *)
Lemma unit_correlation_is_rounded :
  run_pair 1 0 3 0 1 1 (tape 42)
  = (inr ([0.30000000000000004%float], [0.1%float]), skipn 2 (tape 42))
  /\ (0 <? 3)%float = true
  /\ ((0.30000000000000004 - 0) / 3 * 1 + 0)%float
     = 0.10000000000000002%float
  /\ (0.10000000000000002 =? 0.1)%float = false.
Proof.
  repeat split; vm_compute; reflexivity.
Qed.

End Runs.

(** * Further properties *)

(** ** Lookups after assignments *)

Section Lookups.

Context {V : Type}.

Lemma get_set_same (d : dict.t V) (k : string) (v : V) :
  dict.get (dict.set d k v) k = Some v.
Proof.
  induction d as [| [k' v'] d IH]; simpl.
  - now rewrite String.eqb_refl.
  - destruct (String.eqb k' k) eqn:E; simpl; now rewrite E.
Qed.

Lemma get_set_other (d : dict.t V) (k k' : string) (v : V) :
  k <> k' -> dict.get (dict.set d k v) k' = dict.get d k'.
Proof.
  intros Hne. induction d as [| [k0 v0] d IH]; simpl.
  - destruct (String.eqb k k') eqn:E; [| reflexivity].
    apply String.eqb_eq in E. contradiction.
  - destruct (String.eqb k0 k) eqn:E; simpl.
    + apply String.eqb_eq in E. subst k0.
      destruct (String.eqb k k') eqn:E'; [| reflexivity].
      apply String.eqb_eq in E'. contradiction.
    + now rewrite IH.
Qed.

Lemma get_set (d : dict.t V) (k k' : string) (v : V) :
  dict.get (dict.set d k v) k'
  = if String.eqb k k' then Some v else dict.get d k'.
Proof.
  destruct (String.eqb k k') eqn:E.
  - apply String.eqb_eq in E. subst. apply get_set_same.
  - apply get_set_other. intros H. subst. now rewrite String.eqb_refl in E.
Qed.

Lemma get_app (d d' : dict.t V) (k : string) :
  dict.get (d ++ d') k = overlay (dict.get d) (dict.get d') k.
Proof.
  unfold overlay. induction d as [| [k0 v0] d IH]; simpl; [reflexivity |].
  now destruct (String.eqb k0 k).
Qed.

Lemma get_absent (d : dict.t V) (k : string) :
  ~ In k (dict.keys d) -> dict.get d k = None.
Proof.
  unfold dict.keys. induction d as [| [k0 v0] d IH]; simpl; intros H.
  - reflexivity.
  - destruct (String.eqb k0 k) eqn:E.
    + apply String.eqb_eq in E. tauto.
    + apply IH. tauto.
Qed.

Lemma get_present (d : dict.t V) (k : string) (v : V) :
  dict.get d k = Some v -> In k (dict.keys d) /\ In v (dict.values d).
Proof.
  unfold dict.keys, dict.values.
  induction d as [| [k0 v0] d IH]; simpl; intros H; [discriminate |].
  destruct (String.eqb k0 k) eqn:E.
  - apply String.eqb_eq in E. inversion H; subst. auto.
  - destruct (IH H). auto.
Qed.

(** A key holds what was last assigned to it, and what it held before when
    nothing was. *)
Lemma get_assign_all (kvs : list (string * V)) (d : dict.t V) (k : string) :
  dict.get (assign_all d kvs) k
  = overlay (last_assigned kvs) (dict.get d) k.
Proof.
  unfold assign_all, last_assigned, overlay. revert d.
  induction kvs as [| [k0 v0] kvs IH]; intros d; simpl; [reflexivity |].
  rewrite IH, get_app. unfold overlay. simpl.
  destruct (dict.get (rev kvs) k); [reflexivity |].
  rewrite get_set. now destruct (String.eqb k0 k).
Qed.

Lemma assign_all_app (d : dict.t V) (kvs kvs' : list (string * V)) :
  assign_all d (kvs ++ kvs') = assign_all (assign_all d kvs) kvs'.
Proof. apply fold_left_app. Qed.

Lemma keys_assign_all (kvs : list (string * V)) (d : dict.t V) :
  dict.keys (assign_all d kvs) = fold_left add_key (map fst kvs) (dict.keys d).
Proof.
  unfold assign_all. revert d.
  induction kvs as [| [k0 v0] kvs IH]; intros d; simpl; [reflexivity |].
  now rewrite IH, keys_set.
Qed.

Lemma last_assigned_absent (kvs : list (string * V)) (k : string) :
  ~ In k (map fst kvs) -> last_assigned kvs k = None.
Proof.
  intros H. apply get_absent. unfold dict.keys.
  rewrite map_rev. now rewrite <- in_rev.
Qed.

(** In a dictionary the first entry of a key is its only one. *)
Lemma get_rev_distinct (d : dict.t V) (k : string) :
  NoDup (dict.keys d) -> dict.get (rev d) k = dict.get d k.
Proof.
  unfold dict.keys. induction d as [| [k0 v0] d IH]; simpl; intros Hnd;
    [reflexivity |].
  inversion Hnd as [| ? ? Hk Hrest]; subst.
  rewrite get_app. unfold overlay. rewrite IH by assumption. simpl.
  destruct (String.eqb k0 k) eqn:E.
  - apply String.eqb_eq in E. subst k0.
    now rewrite (get_absent d k Hk).
  - now destruct (dict.get d k).
Qed.

End Lookups.

(** ** The comorbidity loop as a list of assignments *)

Section Loop.

Context {G : BitGenerator} {L : Libm}.

Lemma wp_indicator_columns (n : Z) (pairs : list (string * float))
  (Q : list (string * ndarray) -> RandomState -> Prop) (s : RandomState) :
  0 <= n ->
  forallb (fun cp => accepts_prevalence (snd cp)) pairs = true ->
  (forall cols s',
      map fst cols = map fst pairs ->
      Forall (fun c => size c = Z.to_nat n) (map snd cols) ->
      Forall (fun c => exists v, c = int64 v) (map snd cols) ->
      Q cols s') ->
  wp (indicator_columns n pairs) Q s.
Proof.
  intros Hn. revert Q s.
  induction pairs as [| [c p] rest IH]; intros Q s Hp HQ; simpl.
  - apply wp_ret. apply HQ; constructor.
  - simpl in Hp. apply andb_true_iff in Hp as [Hp Hrest].
    apply wp_bind. apply wp_binom_rvs; try assumption.
    intros v s1 Hlen. apply wp_bind. apply IH; [assumption |].
    intros cols s2 Hk Hs Hi. apply wp_ret. apply HQ; simpl.
    + now rewrite Hk.
    + constructor; assumption.
    + constructor; [now exists v | assumption].
Qed.

Lemma tools_loop_assigns (n : Z) (pairs : list (string * float))
  (d : dict.t ndarray) (s : RandomState) :
  generate_data.build_comorbidities n pairs d s
  = bind (indicator_columns n pairs) (fun cols => ret (assign_all d cols)) s.
Proof.
  revert d s. induction pairs as [| [c p] rest IH]; intros d s;
    cbn [generate_data.build_comorbidities indicator_columns].
  - reflexivity.
  - unfold bind. destruct (binom_rvs 1 p n s) as [[e | v] s1].
    + reflexivity.
    + rewrite IH. unfold bind.
      now destruct (indicator_columns n rest s1) as [[e | cols] s2].
Qed.

Lemma script_loop_assigns (n : Z) (pairs : list (string * float))
  (d : dict.t ndarray) (s : RandomState) :
  generate_synthetic_medical_data.build_comorbidities n pairs d s
  = bind (indicator_columns n pairs) (fun cols => ret (assign_all d cols)) s.
Proof.
  revert d s. induction pairs as [| [c p] rest IH]; intros d s;
    cbn [generate_synthetic_medical_data.build_comorbidities indicator_columns].
  - reflexivity.
  - unfold bind. destruct (binom_rvs 1 p n s) as [[e | v] s1].
    + reflexivity.
    + rewrite IH. unfold bind.
      now destruct (indicator_columns n rest s1) as [[e | cols] s2].
Qed.

Lemma table_ok_assign_all (n : nat) (cols : list (string * ndarray))
  (ks : list string) (d : dict.t ndarray) :
  table_ok n ks d ->
  Forall (fun c => size c = n) (map snd cols) ->
  table_ok n (fold_left add_key (map fst cols) ks) (assign_all d cols).
Proof.
  revert ks d. induction cols as [| [k v] cols IH]; intros ks d Hd Hc; simpl.
  - assumption.
  - inversion Hc; subst. apply IH; [| assumption].
    now apply table_ok_set.
Qed.

(** Adding the comorbidity columns to the script's table is assigning
    them. *)
Lemma insert_comorbidities_assigns (n : nat) (items : dict.t ndarray)
  (df : DataFrame) :
  Forall (fun c => size c = n) (dict.values items) ->
  nrows df = n ->
  generate_synthetic_medical_data.insert_comorbidities items df
  = inr {| data := assign_all (data df) items; nrows := n |}.
Proof.
  revert df. induction items as [| [k v] items IH]; intros df Hitems Hrows.
  - simpl. destruct df as [d r]. simpl in *. now subst.
  - unfold dict.values in Hitems. simpl in Hitems.
    inversion Hitems as [| ? ? Hv Hrest]; subst.
    simpl. unfold pd.setitem. rewrite Hv, Nat.eqb_refl.
    now rewrite IH.
Qed.

Lemma np_random_seed_valid (seed : Z) (s : RandomState) :
  valid_seed seed = true ->
  np_random_seed seed s = (inr tt, init_by_seed seed).
Proof.
  intros H. unfold np_random_seed. unfold valid_seed in H. now rewrite H.
Qed.

End Loop.

(** ** Sampling, then assembling *)

Section Assembly.

Context {G : BitGenerator} {L : Libm}.

Local Open Scope monad_scope.

(** [tools/generate_data.py] samples, then assigns the columns in order. *)
Lemma tools_samples_then_assigns (kw : generate_data.kwargs)
  (s : RandomState) :
  generate_data.generate_synthetic_data kw s
  = (np_random_seed (generate_data.random_seed kw) ;;;
     d1 <- generate_data.leading_columns kw [] ;;
     t <- tail_samples (generate_data.num_samples kw)
            (generate_data.length_of_stay_params kw)
            (combine (generate_data.comorbidities kw)
               (generate_data.prevalences kw))
            (generate_data.survival_shape kw)
            (generate_data.survival_scale kw) ;;
     lift (pd.DataFrame (tools_assemble d1 t))) s.
Proof.
  unfold generate_data.generate_synthetic_data, tail_samples, bind.
  destruct (np_random_seed _ s) as [[e | []] s0]; [reflexivity |].
  destruct (generate_data.leading_columns kw [] s0) as [[e | d1] s1];
    [reflexivity |].
  destruct (gamma_rvs _ _ _ s1) as [[e | los] s2]; [reflexivity |].
  rewrite tools_loop_assigns. unfold bind.
  destruct (indicator_columns _ _ s2) as [[e | cols] s3]; [reflexivity |].
  unfold ret at 1.
  destruct (gamma_rvs _ _ _ s3) as [[e | st] s4]; [reflexivity |].
  destruct (binom_rvs _ _ _ s4) as [[e | ev] s5]; [reflexivity |].
  unfold ret, tools_assemble, tools_assignments, assign_all. simpl.
  now rewrite fold_left_app.
Qed.

(** The script samples the same way, then builds its table. *)
Lemma script_samples_then_assigns
  (kw : generate_synthetic_medical_data.kwargs) (s : RandomState) :
  generate_synthetic_medical_data.generate_synthetic_data kw s
  = (np_random_seed (generate_synthetic_medical_data.random_seed kw) ;;;
     a <- norm_rvs (fst (generate_synthetic_medical_data.age_params kw))
            (snd (generate_synthetic_medical_data.age_params kw))
            (generate_synthetic_medical_data.num_samples kw) ;;
     w <- norm_rvs (fst (generate_synthetic_medical_data.weight_params kw))
            (snd (generate_synthetic_medical_data.weight_params kw))
            (generate_synthetic_medical_data.num_samples kw) ;;
     t <- tail_samples (generate_synthetic_medical_data.num_samples kw)
            (generate_synthetic_medical_data.length_of_stay_params kw)
            (combine (generate_synthetic_medical_data.comorbidities kw)
               (generate_synthetic_medical_data.prevalences kw))
            (generate_synthetic_medical_data.survival_shape kw)
            (generate_synthetic_medical_data.survival_scale kw) ;;
     data <- lift (pd.DataFrame (script_frame a w t)) ;;
     lift (generate_synthetic_medical_data.insert_comorbidities
             (assign_all [] (snd (fst (fst t)))) data)) s.
Proof.
  unfold generate_synthetic_medical_data.generate_synthetic_data,
    tail_samples, bind.
  destruct (np_random_seed _ s) as [[e | []] s0]; [reflexivity |].
  destruct (norm_rvs _ _ _ s0) as [[e | a] s1]; [reflexivity |].
  destruct (norm_rvs _ _ _ s1) as [[e | w] s2]; [reflexivity |].
  destruct (gamma_rvs _ _ _ s2) as [[e | los] s3]; [reflexivity |].
  rewrite script_loop_assigns. unfold bind.
  destruct (indicator_columns _ _ s3) as [[e | cols] s4]; [reflexivity |].
  unfold ret at 1.
  destruct (gamma_rvs _ _ _ s4) as [[e | st] s5]; [reflexivity |].
  destruct (binom_rvs _ _ _ s5) as [[e | ev] s6]; reflexivity.
Qed.

(** With parameters the samplers accept, the tail is sampled: columns of
    length [n], the indicators under the paired names. *)
Lemma wp_tail_samples (n : Z) (length_of_stay : float * float)
  (pairs : list (string * float)) (shape scale : float)
  (Q : list float * list (string * ndarray) * list float * list Z ->
       RandomState -> Prop)
  (s : RandomState) :
  0 <= n ->
  accepts_gamma (fst length_of_stay) (snd length_of_stay) = true ->
  forallb (fun cp => accepts_prevalence (snd cp)) pairs = true ->
  accepts_gamma shape scale = true ->
  (forall los cols st ev s',
      length los = Z.to_nat n ->
      map fst cols = map fst pairs ->
      Forall (fun c => size c = Z.to_nat n) (map snd cols) ->
      Forall (fun c => exists v, c = int64 v) (map snd cols) ->
      length st = Z.to_nat n ->
      length ev = Z.to_nat n ->
      Q (los, cols, st, ev) s') ->
  wp (tail_samples n length_of_stay pairs shape scale) Q s.
Proof.
  intros Hn Hl Hp Hg HQ. unfold tail_samples.
  apply wp_bind. apply wp_gamma_rvs; try assumption. intros los s1 Hlos.
  apply wp_bind. apply wp_indicator_columns; try assumption.
  intros cols s2 Hk Hs Hi.
  apply wp_bind. apply wp_gamma_rvs; try assumption. intros st s3 Hst.
  apply wp_bind.
  apply wp_binom_rvs; [apply accepts_event_probability | assumption |].
  intros ev s4 Hev. apply wp_ret. now apply HQ.
Qed.

End Assembly.

(** ** What the columns hold *)

Section Columns.

Context {G : BitGenerator} {L : Libm}.

Lemma last_assigned_present {V : Type} (kvs : list (string * V))
  (k : string) :
  In k (map fst kvs) ->
  exists v, last_assigned kvs k = Some v /\ In v (map snd kvs).
Proof.
  intros Hin. unfold last_assigned.
  destruct (get_of_key (rev kvs) k) as (v & Hget & Hv).
  - unfold dict.keys. rewrite map_rev. now apply -> in_rev.
  - exists v. split; [assumption |].
    unfold dict.values in Hv. rewrite map_rev in Hv. now apply in_rev.
Qed.

(** The last assignment to each key among those of the tools generator. *)
Lemma last_assigned_tools
  (los : list float) (cols : list (string * ndarray)) (st : list float)
  (ev : list Z) (k : string) :
  last_assigned (tools_assignments (los, cols, st, ev)) k
  = if String.eqb "event_occurred" k then Some (int64 ev)
    else if String.eqb "survival_time" k then Some (float64 st)
    else overlay (last_assigned cols)
           (fun k => if String.eqb "length_of_stay" k
                     then Some (float64 los) else None) k.
Proof.
  unfold last_assigned, tools_assignments.
  cbn [rev]. rewrite rev_app_distr. cbn [rev app].
  cbn [dict.get]. destruct (String.eqb "event_occurred" k); [reflexivity |].
  destruct (String.eqb "survival_time" k); [reflexivity |].
  rewrite get_app. unfold overlay. cbn [dict.get].
  reflexivity.
Qed.

Lemma tools_assemble_sizes (n : nat) (ks : list string)
  (d1 : dict.t ndarray) (names : list string)
  (t : list float * list (string * ndarray) * list float * list Z) :
  table_ok n ks d1 -> tail_ok n names t ->
  table_ok n (fold_left add_key (map fst (tools_assignments t)) ks)
    (tools_assemble d1 t).
Proof.
  destruct t as [[[los cols] st] ev].
  intros Hd (Hlos & _ & Hs & _ & Hst & Hev).
  apply table_ok_assign_all; [assumption |].
  unfold tools_assignments. cbn [map]. rewrite map_app. cbn [map snd].
  constructor; [exact Hlos |].
  apply Forall_app. split; [assumption |].
  repeat constructor; assumption.
Qed.

Lemma tools_assemble_not_empty (d1 : dict.t ndarray)
  (t : list float * list (string * ndarray) * list float * list Z) :
  tools_assemble d1 t <> [].
Proof.
  destruct t as [[[los cols] st] ev]. intros H.
  assert (Hget : dict.get (tools_assemble d1 (los, cols, st, ev))
                   "event_occurred" = Some (int64 ev)).
  { unfold tools_assemble. rewrite get_assign_all. unfold overlay.
    now rewrite last_assigned_tools. }
  rewrite H in Hget. discriminate.
Qed.

(** A valid call of the tools generator: what is sampled from the seeded
    generator, and the table assembled from it. *)
Lemma tools_valid_run (kw : generate_data.kwargs) (s : RandomState) :
  generate_data.valid kw = true ->
  exists d1 s1 t s2,
    generate_data.leading_columns kw []
      (init_by_seed (generate_data.random_seed kw)) = (inr d1, s1)
    /\ table_ok (Z.to_nat (generate_data.num_samples kw))
         (fold_left add_key (generate_data.leading_names kw) []) d1
    /\ tail_samples (generate_data.num_samples kw)
         (generate_data.length_of_stay_params kw)
         (combine (generate_data.comorbidities kw)
            (generate_data.prevalences kw))
         (generate_data.survival_shape kw)
         (generate_data.survival_scale kw) s1 = (inr t, s2)
    /\ tail_ok (Z.to_nat (generate_data.num_samples kw))
         (generate_data.comorbidity_names kw) t
    /\ generate_data.generate_synthetic_data kw s
       = (inr {| data := tools_assemble d1 t;
                 nrows := Z.to_nat (generate_data.num_samples kw) |}, s2).
Proof.
  intros Hv.
  destruct (valid_inv kw Hv) as (Hn & Hs & _ & Hl & Hp & Hg).
  destruct (proj1 (wp_returns _ _ _)
              (wp_leading_columns kw [] []
                 (fun d _ =>
                    table_ok (Z.to_nat (generate_data.num_samples kw))
                      (fold_left add_key (generate_data.leading_names kw) [])
                      d)
                 (init_by_seed (generate_data.random_seed kw)) Hv
                 (table_ok_empty _) (fun _ _ H => H)))
    as (d1 & s1 & E1 & T1).
  destruct (proj1 (wp_returns _ _ _)
              (wp_tail_samples (generate_data.num_samples kw)
                 (generate_data.length_of_stay_params kw)
                 (combine (generate_data.comorbidities kw)
                    (generate_data.prevalences kw))
                 (generate_data.survival_shape kw)
                 (generate_data.survival_scale kw)
                 (fun t _ =>
                    tail_ok (Z.to_nat (generate_data.num_samples kw))
                      (generate_data.comorbidity_names kw) t)
                 s1 Hn Hl Hp Hg
                 (fun los cols st ev _ H1 H2 H3 H4 H5 H6 =>
                    conj H1 (conj H2 (conj H3 (conj H4 (conj H5 H6)))))))
    as (t & s2 & E2 & T2).
  exists d1, s1, t, s2.
  split; [exact E1 |]. split; [exact T1 |].
  split; [exact E2 |]. split; [exact T2 |].
  rewrite tools_samples_then_assigns. unfold bind.
  rewrite np_random_seed_valid by assumption. rewrite E1, E2.
  unfold lift.
  rewrite (DataFrame_uniform _ _ _ (tools_assemble_sizes _ _ _ _ _ T1 T2))
    by apply tools_assemble_not_empty.
  reflexivity.
Qed.

End Columns.

Section Tables.

Context {G : BitGenerator} {L : Libm}.

Lemma script_frame_sizes (n : nat) (names : list string) (a w : list float)
  (t : list float * list (string * ndarray) * list float * list Z) :
  length a = n -> length w = n -> tail_ok n names t ->
  table_ok n generate_synthetic_medical_data.fixed_names
    (script_frame a w t).
Proof.
  destruct t as [[[los cols] st] ev].
  intros Ha Hw (Hlos & _ & _ & _ & Hst & Hev).
  split; [reflexivity |]. unfold dict.values. simpl.
  repeat constructor; simpl; try assumption.
  unfold np.astype_int. now rewrite length_map.
Qed.

(** A valid call of the script: what is sampled from the seeded generator,
    and the table assembled from it. *)
Lemma script_valid_run (kw : generate_synthetic_medical_data.kwargs)
  (s : RandomState) :
  generate_synthetic_medical_data.valid kw = true ->
  exists a s1 w s2 t s3,
    norm_rvs (fst (generate_synthetic_medical_data.age_params kw))
      (snd (generate_synthetic_medical_data.age_params kw))
      (generate_synthetic_medical_data.num_samples kw)
      (init_by_seed (generate_synthetic_medical_data.random_seed kw))
    = (inr a, s1)
    /\ length a = Z.to_nat (generate_synthetic_medical_data.num_samples kw)
    /\ norm_rvs (fst (generate_synthetic_medical_data.weight_params kw))
         (snd (generate_synthetic_medical_data.weight_params kw))
         (generate_synthetic_medical_data.num_samples kw) s1
       = (inr w, s2)
    /\ length w = Z.to_nat (generate_synthetic_medical_data.num_samples kw)
    /\ tail_samples (generate_synthetic_medical_data.num_samples kw)
         (generate_synthetic_medical_data.length_of_stay_params kw)
         (combine (generate_synthetic_medical_data.comorbidities kw)
            (generate_synthetic_medical_data.prevalences kw))
         (generate_synthetic_medical_data.survival_shape kw)
         (generate_synthetic_medical_data.survival_scale kw) s2
       = (inr t, s3)
    /\ tail_ok (Z.to_nat (generate_synthetic_medical_data.num_samples kw))
         (generate_synthetic_medical_data.comorbidity_names kw) t
    /\ generate_synthetic_medical_data.generate_synthetic_data kw s
       = (inr {| data := script_assemble a w t;
                 nrows :=
                   Z.to_nat (generate_synthetic_medical_data.num_samples kw)
              |}, s3).
Proof.
  intros Hv.
  destruct (script_valid_inv kw Hv) as (Hn & Hs & Ha & Hw & Hl & Hp & Hg).
  set (n := generate_synthetic_medical_data.num_samples kw) in *.
  destruct (proj1 (wp_returns _ _ _)
              (wp_norm_rvs
                 (fst (generate_synthetic_medical_data.age_params kw))
                 _ n (fun xs _ => length xs = Z.to_nat n)
                 (init_by_seed
                    (generate_synthetic_medical_data.random_seed kw))
                 Ha Hn (fun _ _ H => H)))
    as (a & s1 & E1 & L1).
  destruct (proj1 (wp_returns _ _ _)
              (wp_norm_rvs
                 (fst (generate_synthetic_medical_data.weight_params kw))
                 _ n (fun xs _ => length xs = Z.to_nat n) s1
                 Hw Hn (fun _ _ H => H)))
    as (w & s2 & E2 & L2).
  destruct (proj1 (wp_returns _ _ _)
              (wp_tail_samples n
                 (generate_synthetic_medical_data.length_of_stay_params kw)
                 (combine (generate_synthetic_medical_data.comorbidities kw)
                    (generate_synthetic_medical_data.prevalences kw))
                 (generate_synthetic_medical_data.survival_shape kw)
                 (generate_synthetic_medical_data.survival_scale kw)
                 (fun t _ =>
                    tail_ok (Z.to_nat n)
                      (generate_synthetic_medical_data.comorbidity_names kw)
                      t)
                 s2 Hn Hl Hp Hg
                 (fun los cols st ev _ H1 H2 H3 H4 H5 H6 =>
                    conj H1 (conj H2 (conj H3 (conj H4 (conj H5 H6)))))))
    as (t & s3 & E3 & T3).
  exists a, s1, w, s2, t, s3.
  split; [exact E1 |]. split; [exact L1 |].
  split; [exact E2 |]. split; [exact L2 |].
  split; [exact E3 |]. split; [exact T3 |].
  rewrite script_samples_then_assigns. unfold bind.
  rewrite np_random_seed_valid by assumption. fold n.
  rewrite E1, E2, E3. unfold lift.
  rewrite (DataFrame_uniform _ _ _ (script_frame_sizes _ _ _ _ _ L1 L2 T3)).
  - destruct t as [[[los cols] st] ev]. cbn [fst snd].
    destruct T3 as (_ & _ & Hsizes & _).
    rewrite (insert_comorbidities_assigns (Z.to_nat n)); try reflexivity.
    apply (table_ok_assign_all _ cols [] []); [apply table_ok_empty |].
    exact Hsizes.
  - destruct t as [[[los cols] st] ev]. discriminate.
Qed.

(** What a field of the tools table holds. *)
Lemma get_tools_assemble (d1 : dict.t ndarray)
  (los : list float) (cols : list (string * ndarray)) (st : list float)
  (ev : list Z) (k : string) :
  dict.get (tools_assemble d1 (los, cols, st, ev)) k
  = if String.eqb "event_occurred" k then Some (int64 ev)
    else if String.eqb "survival_time" k then Some (float64 st)
    else overlay (last_assigned cols)
           (fun k => if String.eqb "length_of_stay" k
                     then Some (float64 los) else dict.get d1 k) k.
Proof.
  unfold tools_assemble. rewrite get_assign_all. unfold overlay.
  rewrite last_assigned_tools.
  destruct (String.eqb "event_occurred" k); [reflexivity |].
  destruct (String.eqb "survival_time" k); [reflexivity |].
  unfold overlay. destruct (last_assigned cols k); [reflexivity |].
  now destruct (String.eqb "length_of_stay" k).
Qed.

(** What a field of the script's table holds. *)
Lemma get_script_assemble (a w : list float)
  (los : list float) (cols : list (string * ndarray)) (st : list float)
  (ev : list Z) (k : string) :
  dict.get (script_assemble a w (los, cols, st, ev)) k
  = overlay (last_assigned cols)
      (dict.get (script_frame a w (los, cols, st, ev))) k.
Proof.
  unfold script_assemble. rewrite get_assign_all. unfold overlay at 1.
  unfold last_assigned at 1. rewrite get_rev_distinct.
  - rewrite get_assign_all. unfold overlay. simpl.
    now destruct (last_assigned cols k).
  - rewrite keys_assign_all. apply fold_add_key_NoDup. constructor.
Qed.

Lemma indicator_of_name (n : nat) (cols : list (string * ndarray))
  (c : string) :
  Forall (fun col => size col = n) (map snd cols) ->
  Forall (fun col => exists v, col = int64 v) (map snd cols) ->
  In c (map fst cols) ->
  exists v, last_assigned cols c = Some (int64 v) /\ length v = n.
Proof.
  intros Hs Hi Hin.
  destruct (last_assigned_present cols c Hin) as (col & Hget & Hcol).
  rewrite Forall_forall in Hs, Hi.
  destruct (Hi col Hcol) as (v & ->).
  exists v. split; [assumption |]. exact (Hs _ Hcol).
Qed.

End Tables.

(** ** When a call returns a table *)

Section Success.

Context {G : BitGenerator} {L : Libm}.

Lemma fails_norm_rvs (loc scale : float) (n : Z) (s : RandomState) :
  accepts_scale scale = false -> fails (norm_rvs loc scale n) s.
Proof.
  intros Ha. unfold norm_rvs. unfold accepts_scale in Ha. rewrite Ha.
  apply fails_raise.
Qed.

Lemma fails_np_random_seed (seed : Z) (s : RandomState) :
  valid_seed seed = false -> fails (np_random_seed seed) s.
Proof.
  intros H. unfold np_random_seed. unfold valid_seed in H. rewrite H.
  now exists ValueError, s.
Qed.

Lemma fails_not_returns {A : Type} (m : M RandomState A) (s : RandomState)
  (a : A) (s' : RandomState) :
  fails m s -> m s = (inr a, s') -> False.
Proof. intros (e & s0 & H) H'. rewrite H in H'. discriminate. Qed.

Lemma fails_tools_loop (n : Z) (pairs : list (string * float))
  (d : dict.t ndarray) (s : RandomState) :
  forallb (fun cp => accepts_prevalence (snd cp)) pairs = false ->
  fails (generate_data.build_comorbidities n pairs d) s.
Proof.
  revert d s. induction pairs as [| [c p] rest IH]; intros d s H; simpl in *.
  - discriminate.
  - destruct (accepts_prevalence p) eqn:E; simpl in H.
    + apply fails_bind_later. intros v s'. now apply IH.
    + apply fails_bind_now. now apply fails_binom_rvs.
Qed.

Lemma fails_generate_correlated_variables
  (n : Z) (mean1 std1 mean2 std2 rho : float) (s : RandomState) :
  py.squares rho = false ->
  fails (generate_data.generate_correlated_variables
           n mean1 std1 mean2 std2 rho) s.
Proof.
  intros Hsq. unfold generate_data.generate_correlated_variables.
  apply fails_bind_later. intros x1 s1.
  apply fails_bind_later. intros x2 s2.
  apply fails_bind_now. unfold py.squares in Hsq. unfold lift.
  destruct (py.pow2 rho) as [e | c]; [| discriminate].
  now exists e, s2.
Qed.

Lemma tools_not_valid_fails (kw : generate_data.kwargs) (s : RandomState) :
  generate_data.valid kw = false ->
  fails (generate_data.generate_synthetic_data kw) s.
Proof.
  unfold generate_data.valid. rewrite !andb_false_iff.
  intros [[[[[Hn | Hs] | Hc] | Hl] | Hp] | Hg].
  - apply Z.leb_gt in Hn. eexists. eexists.
    now apply generate_synthetic_data_negative.
  - unfold generate_data.generate_synthetic_data.
    apply fails_bind_now. now apply fails_np_random_seed.
  - unfold generate_data.generate_synthetic_data.
    apply fails_bind_later. intros _ s0. apply fails_bind_now.
    unfold generate_data.leading_columns.
    destruct (generate_data.correlated_vars kw) as [cv |].
    { apply fails_bind_now.
      now apply fails_generate_correlated_variables. }
    apply andb_false_iff in Hc as [Ha | Hw].
    + apply fails_bind_now. now apply fails_norm_rvs.
    + apply fails_bind_later. intros a s1.
      apply fails_bind_now. now apply fails_norm_rvs.
  - unfold generate_data.generate_synthetic_data.
    apply fails_bind_later. intros _ s0.
    apply fails_bind_later. intros d1 s1.
    apply fails_bind_now. now apply fails_gamma_rvs.
  - unfold generate_data.generate_synthetic_data.
    apply fails_bind_later. intros _ s0.
    apply fails_bind_later. intros d1 s1.
    apply fails_bind_later. intros los s2.
    apply fails_bind_now. now apply fails_tools_loop.
  - unfold generate_data.generate_synthetic_data.
    apply fails_bind_later. intros _ s0.
    apply fails_bind_later. intros d1 s1.
    apply fails_bind_later. intros los s2.
    apply fails_bind_later. intros d2 s3.
    apply fails_bind_now. now apply fails_gamma_rvs.
Qed.

(** X1. The call of [tools/generate_data.py] returns a table exactly when the
    configuration is valid: the sample count is not negative, the seed is
    in [0, 2**32 - 1], the Gamma parameters and the paired prevalences pass
    the samplers' checks, and, when no correlated pair is configured, the
    standard deviations of age and weight are not negative. With a pair
    configured, the square of its correlation must evaluate (a correlation
    too large to be squared raises OverflowError); nothing else is asked
    of the pair, and nothing of age and weight. In every other case the
    call raises. *)
Theorem tools_returns_iff_valid (kw : generate_data.kwargs)
  (s : RandomState) :
  ((exists df s', generate_data.generate_synthetic_data kw s = (inr df, s'))
   <-> generate_data.valid kw = true)
  /\ ((exists e s', generate_data.generate_synthetic_data kw s = (inl e, s'))
      <-> generate_data.valid kw = false).
Proof.
  assert (Hret : generate_data.valid kw = true ->
                 exists df s',
                   generate_data.generate_synthetic_data kw s
                   = (inr df, s')).
  { intros Hv.
    destruct (tools_valid_run kw s Hv)
      as (d1 & s1 & t & s2 & _ & _ & _ & _ & H).
    eauto. }
  split; split.
  - intros (df & s' & Heq).
    destruct (generate_data.valid kw) eqn:Hv; [reflexivity |].
    exfalso. eapply fails_not_returns; [| exact Heq].
    now apply tools_not_valid_fails.
  - exact Hret.
  - intros (e & s' & Heq).
    destruct (generate_data.valid kw) eqn:Hv; [| reflexivity].
    destruct (Hret eq_refl) as (df & s0 & Heq').
    rewrite Heq in Heq'. discriminate.
  - intros Hv. now apply tools_not_valid_fails.
Qed.

Lemma fails_indicator_loop (n : Z) (pairs : list (string * float))
  (d : dict.t ndarray) (s : RandomState) :
  forallb (fun cp => accepts_prevalence (snd cp)) pairs = false ->
  fails (generate_synthetic_medical_data.build_comorbidities n pairs d) s.
Proof.
  revert d s. induction pairs as [| [c p] rest IH]; intros d s H; simpl in *.
  - discriminate.
  - destruct (accepts_prevalence p) eqn:E; simpl in H.
    + apply fails_bind_later. intros v s'. now apply IH.
    + apply fails_bind_now. now apply fails_binom_rvs.
Qed.

Lemma script_not_valid_fails
  (kw : generate_synthetic_medical_data.kwargs) (s : RandomState) :
  generate_synthetic_medical_data.valid kw = false ->
  fails (generate_synthetic_medical_data.generate_synthetic_data kw) s.
Proof.
  unfold generate_synthetic_medical_data.valid. rewrite !andb_false_iff.
  unfold generate_synthetic_medical_data.generate_synthetic_data.
  intros [[[[[[Hn | Hs] | Ha] | Hw] | Hl] | Hp] | Hg].
  - apply Z.leb_gt in Hn.
    apply fails_bind_later. intros _ s0. apply fails_bind_now.
    eexists. eexists. now apply norm_rvs_negative.
  - apply fails_bind_now. now apply fails_np_random_seed.
  - apply fails_bind_later. intros _ s0.
    apply fails_bind_now. now apply fails_norm_rvs.
  - apply fails_bind_later. intros _ s0.
    apply fails_bind_later. intros a s1.
    apply fails_bind_now. now apply fails_norm_rvs.
  - apply fails_bind_later. intros _ s0.
    apply fails_bind_later. intros a s1.
    apply fails_bind_later. intros w s2.
    apply fails_bind_now. now apply fails_gamma_rvs.
  - apply fails_bind_later. intros _ s0.
    apply fails_bind_later. intros a s1.
    apply fails_bind_later. intros w s2.
    apply fails_bind_later. intros los s3.
    apply fails_bind_now. now apply fails_indicator_loop.
  - apply fails_bind_later. intros _ s0.
    apply fails_bind_later. intros a s1.
    apply fails_bind_later. intros w s2.
    apply fails_bind_later. intros los s3.
    apply fails_bind_later. intros cd s4.
    apply fails_bind_now. now apply fails_gamma_rvs.
Qed.

(** X2. The script returns a table exactly when its configuration is valid. *)
Theorem script_returns_iff_valid
  (kw : generate_synthetic_medical_data.kwargs) (s : RandomState) :
  (exists df s',
      generate_synthetic_medical_data.generate_synthetic_data kw s
      = (inr df, s'))
  <-> generate_synthetic_medical_data.valid kw = true.
Proof.
  split.
  - intros (df & s' & Heq).
    destruct (generate_synthetic_medical_data.valid kw) eqn:Hv;
      [reflexivity |].
    exfalso. eapply fails_not_returns; [| exact Heq].
    now apply script_not_valid_fails.
  - intros Hv.
    destruct (script_valid_run kw s Hv)
      as (a & s1 & w & s2 & t & s3 & _ & _ & _ & _ & _ & _ & H).
    eauto.
Qed.

(** X3. For every valid configuration the script returns one table, whatever
    state the generator is in when it is called; the table has exactly
    [num_samples] rows and every column has that length. *)
Theorem script_table (kw : generate_synthetic_medical_data.kwargs) :
  generate_synthetic_medical_data.valid kw = true ->
  exists df s',
    (forall s : RandomState,
        generate_synthetic_medical_data.generate_synthetic_data kw s
        = (inr df, s'))
    /\ Z.of_nat (nrows df) = generate_synthetic_medical_data.num_samples kw
    /\ Z.of_nat (length (pd.rows df))
       = generate_synthetic_medical_data.num_samples kw
    /\ Forall
         (fun c => Z.of_nat (size c)
                   = generate_synthetic_medical_data.num_samples kw)
         (dict.values (data df)).
Proof.
  intros Hv.
  destruct (script_valid_inv kw Hv) as (Hn & Hs & _).
  assert (H : wp (generate_synthetic_medical_data.generate_synthetic_data kw)
                (fun df _ =>
                   nrows df
                   = Z.to_nat (generate_synthetic_medical_data.num_samples kw)
                   /\ Forall
                        (fun c =>
                           size c
                           = Z.to_nat
                               (generate_synthetic_medical_data.num_samples
                                  kw))
                        (dict.values (data df)))
                (init_by_seed 0)).
  { apply wp_script_generate_synthetic_data; [assumption |].
    intros df s' Hrows [_ Hsizes]. now split. }
  apply wp_returns in H. destruct H as (df & s' & Heq & Hrows & Hsizes).
  exists df, s'. split; [| split; [| split]].
  - intros s. rewrite <- Heq.
    unfold generate_synthetic_medical_data.generate_synthetic_data.
    unfold bind at 1. rewrite np_random_seed_valid by assumption.
    symmetry.
    unfold bind at 1. now rewrite np_random_seed_valid by assumption.
  - lia.
  - rewrite rows_length. lia.
  - eapply Forall_impl; [| exact Hsizes]. simpl. intros c Hc. lia.
Qed.

End Success.

(** ** Which column a field holds *)

Section Fields.

Context {G : BitGenerator} {L : Libm}.

Lemma binom_rvs_length (k : Z) (p : float) (n : Z) (s : RandomState)
  (v : list Z) (s' : RandomState) :
  binom_rvs k p n s = (inr v, s') -> length v = Z.to_nat n.
Proof.
  unfold binom_rvs. destruct (negb _); [discriminate |].
  unfold sample. destruct (n <? 0); [discriminate |].
  pose proof (draws_length (legacy_binomial k p) (Z.to_nat n) s) as Hlen.
  destruct (draws (legacy_binomial k p) (Z.to_nat n) s) as [xs s0].
  intros E. inversion E; subst. exact Hlen.
Qed.

(** The loop of the tools generator over a list in two parts. *)
Lemma tools_loop_app (n : Z) (before rest : list (string * float))
  (d : dict.t ndarray) (s : RandomState) :
  generate_data.build_comorbidities n (before ++ rest) d s
  = bind (generate_data.build_comorbidities n before d)
      (fun d' => generate_data.build_comorbidities n rest d') s.
Proof.
  revert d s. induction before as [| [c p] before IH]; intros d s;
    cbn [app generate_data.build_comorbidities].
  - reflexivity.
  - unfold bind. destruct (binom_rvs 1 p n s) as [[e | v] s1];
      [reflexivity |].
    rewrite IH. reflexivity.
Qed.

(** The loop leaves alone the keys it does not assign. *)
Lemma tools_loop_keeps (n : Z) (after : list (string * float))
  (d : dict.t ndarray) (s : RandomState) (d' : dict.t ndarray)
  (s' : RandomState) (c : string) :
  generate_data.build_comorbidities n after d s = (inr d', s') ->
  ~ In c (map fst after) ->
  dict.get d' c = dict.get d c.
Proof.
  revert d s. induction after as [| [c0 p0] after IH]; intros d s H Hnin;
    cbn [generate_data.build_comorbidities] in H.
  - unfold ret in H. now inversion H.
  - unfold bind in H. destruct (binom_rvs 1 p0 n s) as [[e | v] s1];
      [discriminate |].
    simpl in Hnin. rewrite (IH _ _ H) by tauto.
    apply get_set_other. tauto.
Qed.

(** The column of a comorbidity is the indicator sampled at its last
    occurrence in the list. *)
Lemma tools_loop_split (n : Z) (before : list (string * float))
  (c : string) (p : float) (after : list (string * float))
  (d : dict.t ndarray) (s : RandomState) (d' : dict.t ndarray)
  (s' : RandomState) :
  generate_data.build_comorbidities n (before ++ (c, p) :: after) d s
  = (inr d', s') ->
  ~ In c (map fst after) ->
  exists dm sm v sv,
    generate_data.build_comorbidities n before d s = (inr dm, sm)
    /\ binom_rvs 1 p n sm = (inr v, sv)
    /\ dict.get d' c = Some (int64 v).
Proof.
  intros H Hnin. rewrite tools_loop_app in H. unfold bind at 1 in H.
  destruct (generate_data.build_comorbidities n before d s)
    as [[e | dm] sm] eqn:Eb; [discriminate |].
  cbn [generate_data.build_comorbidities] in H. unfold bind in H.
  destruct (binom_rvs 1 p n sm) as [[e | v] sv] eqn:Ev; [discriminate |].
  exists dm, sm, v, sv. split; [reflexivity |]. split; [exact Ev |].
  rewrite (tools_loop_keeps _ _ _ _ _ _ c H Hnin). apply get_set_same.
Qed.

Lemma script_loop_app (n : Z) (before rest : list (string * float))
  (d : dict.t ndarray) (s : RandomState) :
  generate_synthetic_medical_data.build_comorbidities n (before ++ rest) d s
  = bind (generate_synthetic_medical_data.build_comorbidities n before d)
      (fun d' =>
         generate_synthetic_medical_data.build_comorbidities n rest d') s.
Proof.
  revert d s. induction before as [| [c p] before IH]; intros d s;
    cbn [app generate_synthetic_medical_data.build_comorbidities].
  - reflexivity.
  - unfold bind. destruct (binom_rvs 1 p n s) as [[e | v] s1];
      [reflexivity |].
    rewrite IH. reflexivity.
Qed.

Lemma script_loop_keeps (n : Z) (after : list (string * float))
  (d : dict.t ndarray) (s : RandomState) (d' : dict.t ndarray)
  (s' : RandomState) (c : string) :
  generate_synthetic_medical_data.build_comorbidities n after d s
  = (inr d', s') ->
  ~ In c (map fst after) ->
  dict.get d' c = dict.get d c.
Proof.
  revert d s. induction after as [| [c0 p0] after IH]; intros d s H Hnin;
    cbn [generate_synthetic_medical_data.build_comorbidities] in H.
  - unfold ret in H. now inversion H.
  - unfold bind in H. destruct (binom_rvs 1 p0 n s) as [[e | v] s1];
      [discriminate |].
    simpl in Hnin. rewrite (IH _ _ H) by tauto.
    apply get_set_other. tauto.
Qed.

Lemma script_loop_split (n : Z) (before : list (string * float))
  (c : string) (p : float) (after : list (string * float))
  (d : dict.t ndarray) (s : RandomState) (d' : dict.t ndarray)
  (s' : RandomState) :
  generate_synthetic_medical_data.build_comorbidities n
    (before ++ (c, p) :: after) d s = (inr d', s') ->
  ~ In c (map fst after) ->
  exists dm sm v sv,
    generate_synthetic_medical_data.build_comorbidities n before d s
    = (inr dm, sm)
    /\ binom_rvs 1 p n sm = (inr v, sv)
    /\ dict.get d' c = Some (int64 v).
Proof.
  intros H Hnin. rewrite script_loop_app in H. unfold bind at 1 in H.
  destruct (generate_synthetic_medical_data.build_comorbidities n before d s)
    as [[e | dm] sm] eqn:Eb; [discriminate |].
  cbn [generate_synthetic_medical_data.build_comorbidities] in H.
  unfold bind in H.
  destruct (binom_rvs 1 p n sm) as [[e | v] sv] eqn:Ev; [discriminate |].
  exists dm, sm, v, sv. split; [reflexivity |]. split; [exact Ev |].
  rewrite (script_loop_keeps _ _ _ _ _ _ c H Hnin). apply get_set_same.
Qed.

(** A valid call of the tools generator, statement by statement: every
    sampler returns, in the state the statement before it left, and the
    table is made of the dictionary the last assignment leaves. *)
Lemma tools_valid_trace (kw : generate_data.kwargs) (s : RandomState) :
  generate_data.valid kw = true ->
  exists d1 s1 los s2 d2 s3 st s4 ev s5,
    generate_data.leading_columns kw []
      (init_by_seed (generate_data.random_seed kw)) = (inr d1, s1)
    /\ gamma_rvs (fst (generate_data.length_of_stay_params kw))
         (snd (generate_data.length_of_stay_params kw))
         (generate_data.num_samples kw) s1 = (inr los, s2)
    /\ generate_data.build_comorbidities (generate_data.num_samples kw)
         (combine (generate_data.comorbidities kw)
            (generate_data.prevalences kw))
         (dict.set d1 "length_of_stay" (float64 los)) s2 = (inr d2, s3)
    /\ gamma_rvs (generate_data.survival_shape kw)
         (generate_data.survival_scale kw)
         (generate_data.num_samples kw) s3 = (inr st, s4)
    /\ length st = Z.to_nat (generate_data.num_samples kw)
    /\ binom_rvs 1 0.3 (generate_data.num_samples kw) s4 = (inr ev, s5)
    /\ length ev = Z.to_nat (generate_data.num_samples kw)
    /\ generate_data.generate_synthetic_data kw s
       = (inr {| data :=
                   dict.set
                     (dict.set d2 "survival_time" (float64 st))
                     "event_occurred" (int64 ev);
                 nrows := Z.to_nat (generate_data.num_samples kw) |}, s5).
Proof.
  intros Hv.
  destruct (tools_valid_run kw s Hv)
    as (d1 & s1 & [[[los cols] st] ev] & s5 & E1 & _ & E2 & T & Heq).
  destruct T as (_ & _ & _ & _ & Hst & Hev).
  unfold tail_samples, bind in E2.
  destruct (gamma_rvs _ _ _ s1) as [[e | los'] s2] eqn:Elos;
    [discriminate |].
  destruct (indicator_columns _ _ s2) as [[e | cols'] s3] eqn:Ecols;
    [discriminate |].
  destruct (gamma_rvs _ _ _ s3) as [[e | st'] s4] eqn:Est;
    [discriminate |].
  destruct (binom_rvs _ _ _ s4) as [[e | ev'] s5'] eqn:Eev;
    [discriminate |].
  unfold ret in E2. inversion E2; subst los' cols' st' ev' s5'.
  exists d1, s1, los, s2,
    (assign_all (dict.set d1 "length_of_stay" (float64 los)) cols),
    s3, st, s4, ev, s5.
  split; [exact E1 |]. split; [exact Elos |].
  split.
  { rewrite tools_loop_assigns. unfold bind. now rewrite Ecols. }
  split; [exact Est |]. split; [exact Hst |].
  split; [exact Eev |]. split; [exact Hev |].
  rewrite Heq. unfold tools_assemble, tools_assignments, assign_all.
  cbn [fold_left fst snd]. now rewrite fold_left_app.
Qed.

(** X6. In the table of [tools/generate_data.py], survival_time and
    event_occurred are assigned last. For every valid configuration the
    call returns, and these two fields hold the arrays that the last two
    sampler calls return: gamma.rvs on the survival parameters, as floats,
    in the state the generator is in after seeding, the leading columns,
    the length of stay and the comorbidity loop, then binom.rvs(1, 0.3),
    as integers, [num_samples] of each. This holds whatever the other
    names are, also with a comorbidity or a correlated variable called
    survival_time or event_occurred. *)
Theorem survival_and_event_kept (kw : generate_data.kwargs)
  (s : RandomState) :
  generate_data.valid kw = true ->
  exists d1 s1 los s2 d2 s3 st s4 ev s5 df,
    generate_data.leading_columns kw []
      (init_by_seed (generate_data.random_seed kw)) = (inr d1, s1)
    /\ gamma_rvs (fst (generate_data.length_of_stay_params kw))
         (snd (generate_data.length_of_stay_params kw))
         (generate_data.num_samples kw) s1 = (inr los, s2)
    /\ generate_data.build_comorbidities (generate_data.num_samples kw)
         (combine (generate_data.comorbidities kw)
            (generate_data.prevalences kw))
         (dict.set d1 "length_of_stay" (float64 los)) s2 = (inr d2, s3)
    /\ gamma_rvs (generate_data.survival_shape kw)
         (generate_data.survival_scale kw)
         (generate_data.num_samples kw) s3 = (inr st, s4)
    /\ binom_rvs 1 0.3 (generate_data.num_samples kw) s4 = (inr ev, s5)
    /\ generate_data.generate_synthetic_data kw s = (inr df, s5)
    /\ dict.get (data df) "survival_time" = Some (float64 st)
    /\ Z.of_nat (length st) = generate_data.num_samples kw
    /\ dict.get (data df) "event_occurred" = Some (int64 ev)
    /\ Z.of_nat (length ev) = generate_data.num_samples kw.
Proof.
  intros Hv. destruct (valid_inv kw Hv) as (Hn & _).
  destruct (tools_valid_trace kw s Hv)
    as (d1 & s1 & los & s2 & d2 & s3 & st & s4 & ev & s5
        & E1 & E2 & E3 & E4 & Hst & E5 & Hev & Heq).
  exists d1, s1, los, s2, d2, s3, st, s4, ev, s5. eexists.
  split; [exact E1 |]. split; [exact E2 |]. split; [exact E3 |].
  split; [exact E4 |]. split; [exact E5 |]. split; [exact Heq |].
  cbn [data]. split; [| split; [lia | split; [| lia]]].
  - rewrite get_set_other by discriminate. apply get_set_same.
  - apply get_set_same.
Qed.

(** X7. In the table of [tools/generate_data.py], the column of a
    comorbidity that has a prevalence is the indicator array sampled for
    it in the loop, unless it is called survival_time or event_occurred.
    For a comorbidity [c] of prevalence [p], at its last occurrence among
    the pairs, with the pairs [before] it in the list: the field [c] holds,
    as integers, the [num_samples] values that binom.rvs(1, p) returns in
    the state the generator is in after the leading columns, the length
    of stay and the comorbidities before it. It takes the place of a
    leading or length_of_stay column, or an earlier comorbidity, of the
    same name. *)
Theorem tools_comorbidity_indicators (kw : generate_data.kwargs)
  (s : RandomState) (before : list (string * float)) (c : string)
  (p : float) (after : list (string * float)) :
  generate_data.valid kw = true ->
  combine (generate_data.comorbidities kw) (generate_data.prevalences kw)
  = before ++ (c, p) :: after ->
  ~ In c (map fst after) ->
  c <> "survival_time"%string ->
  c <> "event_occurred"%string ->
  exists d1 s1 los s2 dm sm v sv df s',
    generate_data.leading_columns kw []
      (init_by_seed (generate_data.random_seed kw)) = (inr d1, s1)
    /\ gamma_rvs (fst (generate_data.length_of_stay_params kw))
         (snd (generate_data.length_of_stay_params kw))
         (generate_data.num_samples kw) s1 = (inr los, s2)
    /\ generate_data.build_comorbidities (generate_data.num_samples kw)
         before (dict.set d1 "length_of_stay" (float64 los)) s2
       = (inr dm, sm)
    /\ binom_rvs 1 p (generate_data.num_samples kw) sm = (inr v, sv)
    /\ generate_data.generate_synthetic_data kw s = (inr df, s')
    /\ dict.get (data df) c = Some (int64 v)
    /\ Z.of_nat (length v) = generate_data.num_samples kw.
Proof.
  intros Hv Hpairs Hlast Hst Hev.
  destruct (valid_inv kw Hv) as (Hn & _).
  destruct (tools_valid_trace kw s Hv)
    as (d1 & s1 & los & s2 & d2 & s3 & st & s4 & ev & s5
        & E1 & E2 & E3 & _ & _ & _ & _ & Heq).
  rewrite Hpairs in E3.
  destruct (tools_loop_split _ _ _ _ _ _ _ _ _ E3 Hlast)
    as (dm & sm & v & sv & Eb & Ev & Hget).
  exists d1, s1, los, s2, dm, sm, v, sv. eexists. exists s5.
  split; [exact E1 |]. split; [exact E2 |]. split; [exact Eb |].
  split; [exact Ev |]. split; [exact Heq |]. cbn [data]. split.
  - rewrite !get_set_other by (intros E; now symmetry in E).
    exact Hget.
  - rewrite (binom_rvs_length _ _ _ _ _ _ Ev). lia.
Qed.

(** A valid call of the script, statement by statement. *)
Lemma script_valid_trace (kw : generate_synthetic_medical_data.kwargs)
  (s : RandomState) :
  generate_synthetic_medical_data.valid kw = true ->
  exists a s1 w s2 los s3 cd s4 st s5 ev s6,
    norm_rvs (fst (generate_synthetic_medical_data.age_params kw))
      (snd (generate_synthetic_medical_data.age_params kw))
      (generate_synthetic_medical_data.num_samples kw)
      (init_by_seed (generate_synthetic_medical_data.random_seed kw))
    = (inr a, s1)
    /\ norm_rvs (fst (generate_synthetic_medical_data.weight_params kw))
         (snd (generate_synthetic_medical_data.weight_params kw))
         (generate_synthetic_medical_data.num_samples kw) s1
       = (inr w, s2)
    /\ gamma_rvs
         (fst (generate_synthetic_medical_data.length_of_stay_params kw))
         (snd (generate_synthetic_medical_data.length_of_stay_params kw))
         (generate_synthetic_medical_data.num_samples kw) s2
       = (inr los, s3)
    /\ generate_synthetic_medical_data.build_comorbidities
         (generate_synthetic_medical_data.num_samples kw)
         (combine (generate_synthetic_medical_data.comorbidities kw)
            (generate_synthetic_medical_data.prevalences kw)) [] s3
       = (inr cd, s4)
    /\ gamma_rvs (generate_synthetic_medical_data.survival_shape kw)
         (generate_synthetic_medical_data.survival_scale kw)
         (generate_synthetic_medical_data.num_samples kw) s4
       = (inr st, s5)
    /\ binom_rvs 1 0.3 (generate_synthetic_medical_data.num_samples kw) s5
       = (inr ev, s6)
    /\ exists df,
         generate_synthetic_medical_data.generate_synthetic_data kw s
         = (inr df, s6)
         /\ forall field,
              dict.get (data df) field
              = match dict.get cd field with
                | Some col => Some col
                | None =>
                    dict.get
                      [("age", int64 (np.astype_int a));
                       ("weight", float64 w);
                       ("length_of_stay", float64 los);
                       ("survival_time", float64 st);
                       ("event_occurred", int64 ev)]%string field
                end.
Proof.
  intros Hv.
  destruct (script_valid_run kw s Hv)
    as (a & s1 & w & s2 & [[[los cols] st] ev] & s6
        & Ea & _ & Ew & _ & E & _ & Heq).
  unfold tail_samples, bind in E.
  destruct (gamma_rvs _ _ _ s2) as [[e | los'] s3] eqn:Elos;
    [discriminate |].
  destruct (indicator_columns _ _ s3) as [[e | cols'] s4] eqn:Ecols;
    [discriminate |].
  destruct (gamma_rvs _ _ _ s4) as [[e | st'] s5] eqn:Est;
    [discriminate |].
  destruct (binom_rvs _ _ _ s5) as [[e | ev'] s6'] eqn:Eev;
    [discriminate |].
  unfold ret in E. inversion E; subst los' cols' st' ev' s6'.
  exists a, s1, w, s2, los, s3, (assign_all [] cols), s4, st, s5, ev, s6.
  split; [exact Ea |]. split; [exact Ew |]. split; [exact Elos |].
  split.
  { rewrite script_loop_assigns. unfold bind. now rewrite Ecols. }
  split; [exact Est |]. split; [exact Eev |].
  eexists. split; [exact Heq |]. cbn [data].
  intros field. rewrite get_script_assemble. unfold overlay.
  rewrite get_assign_all. unfold overlay. cbn [dict.get].
  now destruct (last_assigned cols field).
Qed.

(** X5. In the script's table the comorbidities are added last. For every
    valid configuration the call returns, and its table is fixed by what
    the samplers return, each called in the state the one before it left:
    norm.rvs for age (cast to integers) and for weight, gamma.rvs for the
    length of stay, the comorbidity loop, gamma.rvs for the survival
    times and binom.rvs(1, 0.3) for the events. A field holds the column
    the loop left under its name in comorbidity_data, if there is one,
    also when it is called age, weight, length_of_stay, survival_time or
    event_occurred; otherwise it holds what was sampled for it. And the
    column the loop leaves under a comorbidity [c] of prevalence [p], at
    its last occurrence among the pairs, is the array of [num_samples]
    values that binom.rvs(1, p) returns in the state the generator is in
    after the comorbidities before it. *)
Theorem script_comorbidity_indicators
  (kw : generate_synthetic_medical_data.kwargs) (s : RandomState) :
  generate_synthetic_medical_data.valid kw = true ->
  exists a s1 w s2 los s3 cd s4 st s5 ev s6 df,
    norm_rvs (fst (generate_synthetic_medical_data.age_params kw))
      (snd (generate_synthetic_medical_data.age_params kw))
      (generate_synthetic_medical_data.num_samples kw)
      (init_by_seed (generate_synthetic_medical_data.random_seed kw))
    = (inr a, s1)
    /\ norm_rvs (fst (generate_synthetic_medical_data.weight_params kw))
         (snd (generate_synthetic_medical_data.weight_params kw))
         (generate_synthetic_medical_data.num_samples kw) s1
       = (inr w, s2)
    /\ gamma_rvs
         (fst (generate_synthetic_medical_data.length_of_stay_params kw))
         (snd (generate_synthetic_medical_data.length_of_stay_params kw))
         (generate_synthetic_medical_data.num_samples kw) s2
       = (inr los, s3)
    /\ generate_synthetic_medical_data.build_comorbidities
         (generate_synthetic_medical_data.num_samples kw)
         (combine (generate_synthetic_medical_data.comorbidities kw)
            (generate_synthetic_medical_data.prevalences kw)) [] s3
       = (inr cd, s4)
    /\ gamma_rvs (generate_synthetic_medical_data.survival_shape kw)
         (generate_synthetic_medical_data.survival_scale kw)
         (generate_synthetic_medical_data.num_samples kw) s4
       = (inr st, s5)
    /\ binom_rvs 1 0.3 (generate_synthetic_medical_data.num_samples kw) s5
       = (inr ev, s6)
    /\ generate_synthetic_medical_data.generate_synthetic_data kw s
       = (inr df, s6)
    /\ (forall field,
           dict.get (data df) field
           = match dict.get cd field with
             | Some col => Some col
             | None =>
                 dict.get
                   [("age", int64 (np.astype_int a));
                    ("weight", float64 w);
                    ("length_of_stay", float64 los);
                    ("survival_time", float64 st);
                    ("event_occurred", int64 ev)]%string field
             end)
    /\ (forall before c p after,
           combine (generate_synthetic_medical_data.comorbidities kw)
             (generate_synthetic_medical_data.prevalences kw)
           = before ++ (c, p) :: after ->
           ~ In c (map fst after) ->
           exists dm sm v sv,
             generate_synthetic_medical_data.build_comorbidities
               (generate_synthetic_medical_data.num_samples kw)
               before [] s3 = (inr dm, sm)
             /\ binom_rvs 1 p
                  (generate_synthetic_medical_data.num_samples kw) sm
                = (inr v, sv)
             /\ dict.get (data df) c = Some (int64 v)
             /\ Z.of_nat (length v)
                = generate_synthetic_medical_data.num_samples kw).
Proof.
  intros Hv. destruct (script_valid_inv kw Hv) as (Hn & _).
  destruct (script_valid_trace kw s Hv)
    as (a & s1 & w & s2 & los & s3 & cd & s4 & st & s5 & ev & s6
        & Ea & Ew & El & Ec & Est & Eev & df & Heq & Hget).
  exists a, s1, w, s2, los, s3, cd, s4, st, s5, ev, s6, df.
  split; [exact Ea |]. split; [exact Ew |]. split; [exact El |].
  split; [exact Ec |]. split; [exact Est |]. split; [exact Eev |].
  split; [exact Heq |]. split; [exact Hget |].
  intros before c p after Hpairs Hlast. rewrite Hpairs in Ec.
  destruct (script_loop_split _ _ _ _ _ _ _ _ _ Ec Hlast)
    as (dm & sm & v & sv & Eb & Ev & Hc).
  exists dm, sm, v, sv. split; [exact Eb |]. split; [exact Ev |]. split.
  - now rewrite Hget, Hc.
  - rewrite (binom_rvs_length _ _ _ _ _ _ Ev). lia.
Qed.

End Fields.

(** ** The leading columns *)

Section Leading.

Context {G : BitGenerator} {L : Libm}.

Lemma leading_pair (kw : generate_data.kwargs) (cv : generate_data.correlated)
  (s0 : RandomState) (d1 : dict.t ndarray) (s1 : RandomState) :
  generate_data.correlated_vars kw = Some cv ->
  generate_data.leading_columns kw [] s0 = (inr d1, s1) ->
  exists v1 v2,
    generate_data.generate_correlated_variables
      (generate_data.num_samples kw)
      (generate_data.mean (generate_data.var1 cv))
      (generate_data.std (generate_data.var1 cv))
      (generate_data.mean (generate_data.var2 cv))
      (generate_data.std (generate_data.var2 cv))
      (generate_data.correlation cv) s0 = (inr (v1, v2), s1)
    /\ d1 = dict.set
              (dict.set [] (generate_data.name (generate_data.var1 cv))
                 (float64 v1))
              (generate_data.name (generate_data.var2 cv)) (float64 v2).
Proof.
  intros Hcv. unfold generate_data.leading_columns. rewrite Hcv.
  unfold bind at 1.
  destruct (generate_data.generate_correlated_variables _ _ _ _ _ _ s0)
    as [[e | [v1 v2]] s'] eqn:Egen.
  - discriminate.
  - unfold ret. intros H. inversion H; subst. now exists v1, v2.
Qed.

Lemma leading_age_weight (kw : generate_data.kwargs)
  (s0 : RandomState) (d1 : dict.t ndarray) (s1 : RandomState) :
  generate_data.correlated_vars kw = None ->
  generate_data.leading_columns kw [] s0 = (inr d1, s1) ->
  exists a sa w,
    norm_rvs (fst (generate_data.age_params kw))
      (snd (generate_data.age_params kw))
      (generate_data.num_samples kw) s0 = (inr a, sa)
    /\ norm_rvs (fst (generate_data.weight_params kw))
         (snd (generate_data.weight_params kw))
         (generate_data.num_samples kw) sa = (inr w, s1)
    /\ d1 = [("age", int64 (np.astype_int a)); ("weight", float64 w)]%string.
Proof.
  intros Hcv. unfold generate_data.leading_columns. rewrite Hcv.
  unfold bind.
  destruct (norm_rvs _ _ _ s0) as [[e | a] sa] eqn:Ea; [discriminate |].
  destruct (norm_rvs _ _ _ sa) as [[e | w] sw] eqn:Ew; [discriminate |].
  unfold ret. intros H. inversion H; subst. now exists a, sa, w.
Qed.

(** X9. When the two names of a correlated pair differ and nothing assigned
    later is called like them, the two fields hold the two arrays that
    [generate_correlated_variables] returns on the freshly seeded
    generator, as float columns. *)
Theorem pair_columns_hold_pair (kw : generate_data.kwargs)
  (cv : generate_data.correlated) (s : RandomState) :
  generate_data.valid kw = true ->
  generate_data.correlated_vars kw = Some cv ->
  generate_data.name (generate_data.var1 cv)
  <> generate_data.name (generate_data.var2 cv) ->
  ~ In (generate_data.name (generate_data.var1 cv)) (assigned_later kw) ->
  ~ In (generate_data.name (generate_data.var2 cv)) (assigned_later kw) ->
  exists v1 v2 s1 df s',
    generate_data.generate_correlated_variables
      (generate_data.num_samples kw)
      (generate_data.mean (generate_data.var1 cv))
      (generate_data.std (generate_data.var1 cv))
      (generate_data.mean (generate_data.var2 cv))
      (generate_data.std (generate_data.var2 cv))
      (generate_data.correlation cv)
      (init_by_seed (generate_data.random_seed kw)) = (inr (v1, v2), s1)
    /\ generate_data.generate_synthetic_data kw s = (inr df, s')
    /\ dict.get (data df) (generate_data.name (generate_data.var1 cv))
       = Some (float64 v1)
    /\ dict.get (data df) (generate_data.name (generate_data.var2 cv))
       = Some (float64 v2).
Proof.
  intros Hv Hcv Hne H1 H2.
  destruct (tools_valid_run kw s Hv)
    as (d1 & s1 & [[[los cols] st] ev] & s2 & E1 & _ & _ & T & Heq).
  destruct T as (_ & Hk & _).
  destruct (leading_pair kw cv _ d1 s1 Hcv E1) as (v1 & v2 & Egen & Hd1).
  exists v1, v2, s1. eexists. exists s2.
  split; [exact Egen |]. split; [exact Heq |]. cbn [data].
  unfold assigned_later in H1, H2. rewrite <- Hk in H1, H2.
  assert (Hget : forall k,
             ~ In k ("length_of_stay"%string
                     :: map fst cols
                     ++ ["survival_time"; "event_occurred"]%string) ->
             dict.get (tools_assemble d1 (los, cols, st, ev)) k
             = dict.get d1 k).
  { intros k Hk'. rewrite get_tools_assemble.
    simpl in Hk'. rewrite in_app_iff in Hk'. simpl in Hk'.
    destruct (String.eqb_spec "event_occurred" k); [tauto |].
    destruct (String.eqb_spec "survival_time" k); [tauto |].
    unfold overlay. rewrite last_assigned_absent by tauto.
    destruct (String.eqb_spec "length_of_stay" k); [tauto | reflexivity]. }
  rewrite !Hget by assumption. subst d1. split.
  - rewrite get_set_other by (intros E; now symmetry in E).
    apply get_set_same.
  - apply get_set_same.
Qed.

(** X11. Without a correlated pair, and with no comorbidity called age or
    weight, the age field holds the normal draws of the freshly seeded
    generator cast to integers, and the weight field the next normal
    draws, as floats. *)
Theorem age_and_weight_columns (kw : generate_data.kwargs)
  (s : RandomState) :
  generate_data.valid kw = true ->
  generate_data.correlated_vars kw = None ->
  ~ In "age"%string (generate_data.comorbidity_names kw) ->
  ~ In "weight"%string (generate_data.comorbidity_names kw) ->
  exists a s1 w s2 df s',
    norm_rvs (fst (generate_data.age_params kw))
      (snd (generate_data.age_params kw)) (generate_data.num_samples kw)
      (init_by_seed (generate_data.random_seed kw)) = (inr a, s1)
    /\ norm_rvs (fst (generate_data.weight_params kw))
         (snd (generate_data.weight_params kw))
         (generate_data.num_samples kw) s1 = (inr w, s2)
    /\ generate_data.generate_synthetic_data kw s = (inr df, s')
    /\ dict.get (data df) "age" = Some (int64 (np.astype_int a))
    /\ dict.get (data df) "weight" = Some (float64 w).
Proof.
  intros Hv Hcv Ha Hw.
  destruct (tools_valid_run kw s Hv)
    as (d1 & s1 & [[[los cols] st] ev] & s2 & E1 & _ & _ & T & Heq).
  destruct T as (_ & Hk & _).
  destruct (leading_age_weight kw _ d1 s1 Hcv E1)
    as (a & sa & w & Ea & Ew & Hd1).
  exists a, sa, w, s1. eexists. exists s2.
  split; [exact Ea |]. split; [exact Ew |]. split; [exact Heq |].
  cbn [data]. rewrite <- Hk in Ha, Hw.
  rewrite !get_tools_assemble. cbn [String.eqb Ascii.eqb Bool.eqb].
  unfold overlay. rewrite !last_assigned_absent by assumption.
  subst d1. split; reflexivity.
Qed.

End Leading.

(** ** The two generators side by side *)

Section Agreement.

Context {G : BitGenerator} {L : Libm}.

Lemma valid_as_script (kw : generate_data.kwargs) :
  generate_data.correlated_vars kw = None ->
  generate_synthetic_medical_data.valid (as_script kw)
  = generate_data.valid kw.
Proof.
  intros Hcv.
  unfold generate_synthetic_medical_data.valid, generate_data.valid.
  rewrite Hcv. cbn. now rewrite !andb_assoc.
Qed.

(** X8. Without a correlated pair, and with no comorbidity called
    survival_time or event_occurred, the two generators return the same
    data for the same arguments: as many rows, and under every field name
    the same column (or none in both); only the order of the fields
    differs. They leave the generator in the same state. *)
Theorem generators_agree (kw : generate_data.kwargs) (s : RandomState) :
  generate_data.valid kw = true ->
  generate_data.correlated_vars kw = None ->
  ~ In "survival_time"%string (generate_data.comorbidity_names kw) ->
  ~ In "event_occurred"%string (generate_data.comorbidity_names kw) ->
  exists df1 df2 s',
    generate_data.generate_synthetic_data kw s = (inr df1, s')
    /\ generate_synthetic_medical_data.generate_synthetic_data
         (as_script kw) s = (inr df2, s')
    /\ nrows df1 = nrows df2
    /\ forall field,
         dict.get (data df1) field = dict.get (data df2) field.
Proof.
  intros Hv Hcv Hst Hev.
  destruct (tools_valid_run kw s Hv)
    as (d1 & s1 & [[[los cols] st] ev] & s2 & E1 & _ & E2 & T & Heq).
  destruct T as (_ & Hk & _).
  destruct (leading_age_weight kw _ d1 s1 Hcv E1)
    as (a & sa & w & Ea & Ew & Hd1).
  assert (Hv' : generate_synthetic_medical_data.valid (as_script kw) = true)
    by now rewrite valid_as_script.
  destruct (script_valid_run (as_script kw) s Hv')
    as (a' & sa' & w' & s1' & t' & s2' & Ea' & _ & Ew' & _ & E2' & _ & Heq').
  cbn [as_script generate_synthetic_medical_data.age_params
       generate_synthetic_medical_data.weight_params
       generate_synthetic_medical_data.num_samples
       generate_synthetic_medical_data.random_seed
       generate_synthetic_medical_data.length_of_stay_params
       generate_synthetic_medical_data.survival_shape
       generate_synthetic_medical_data.survival_scale
       generate_synthetic_medical_data.comorbidities
       generate_synthetic_medical_data.prevalences
       generate_synthetic_medical_data.comorbidity_list
       generate_synthetic_medical_data.comorbidity_prevalences]
    in Ea', Ew', E2', Heq'.
  rewrite Ea in Ea'. inversion Ea'; subst a' sa'.
  rewrite Ew in Ew'. inversion Ew'; subst w' s1'.
  change (combine (generate_data.comorbidities kw)
            (generate_data.prevalences kw))
    with (combine
            (generate_synthetic_medical_data.comorbidities (as_script kw))
            (generate_synthetic_medical_data.prevalences (as_script kw)))
    in E2.
  cbn [as_script generate_synthetic_medical_data.comorbidities
       generate_synthetic_medical_data.prevalences
       generate_synthetic_medical_data.comorbidity_list
       generate_synthetic_medical_data.comorbidity_prevalences] in E2.
  unfold generate_data.comorbidities, generate_data.prevalences in E2.
  rewrite E2 in E2'. inversion E2'; subst t' s2'.
  eexists. eexists. exists s2.
  split; [exact Heq |]. split; [exact Heq' |]. cbn [data nrows].
  split; [reflexivity |].
  intros field. rewrite get_tools_assemble, get_script_assemble.
  rewrite <- Hk in Hst, Hev. subst d1.
  destruct (String.eqb_spec "event_occurred" field) as [<- | Hne1].
  { unfold overlay. now rewrite last_assigned_absent by assumption. }
  destruct (String.eqb_spec "survival_time" field) as [<- | Hne2].
  { unfold overlay. now rewrite last_assigned_absent by assumption. }
  unfold overlay. destruct (last_assigned cols field); [reflexivity |].
  unfold script_frame. cbn [dict.get].
  destruct (String.eqb_spec "length_of_stay" field) as [<- | Hne3];
    [reflexivity |].
  destruct (String.eqb_spec "age" field) as [<- | Hne4]; [reflexivity |].
  destruct (String.eqb_spec "weight" field) as [<- | Hne5]; [reflexivity |].
  destruct (String.eqb_spec "survival_time" field); [contradiction |].
  destruct (String.eqb_spec "event_occurred" field); [contradiction |].
  reflexivity.
Qed.

End Agreement.

(** ** The correlated pair, again *)

Section Pair.

Context {G : BitGenerator} {L : Libm}.

Lemma norm_rvs_draws (loc scale : float) (n : Z) (s : RandomState) :
  accepts_scale scale = true ->
  (scale =? 0)%float = false ->
  0 <= n ->
  norm_rvs loc scale n s
  = (inr (np.add_scalar
            (np.mul_scalar (fst (draws legacy_gauss (Z.to_nat n) s)) scale)
            loc),
     snd (draws legacy_gauss (Z.to_nat n) s)).
Proof.
  intros Ha Hz Hn. unfold norm_rvs. unfold accepts_scale in Ha.
  rewrite Ha, Hz. cbn [negb]. unfold bind.
  now rewrite sample_nonneg.
Qed.

(** X13. What a call of the correlated-pair generator does. With a negative
    sample count it raises ValueError before any draw, the generator as it
    was. Otherwise both standard normal arrays are drawn, and then the
    square of the correlation decides: when it raises (OverflowError, for
    a correlation too large to be squared), the call raises that error,
    the generator left as the two draws left it; when it evaluates, the
    call returns. So the call raises exactly when the sample count is
    negative or the correlation cannot be squared: no mean and no standard
    deviation makes it raise, and a correlation outside [-1,1] whose
    square evaluates is computed with. *)
Theorem correlated_pair_outcome
  (n : Z) (mean1 std1 mean2 std2 rho : float) (s : RandomState) :
  (n < 0 ->
   generate_data.generate_correlated_variables n mean1 std1 mean2 std2 rho s
   = (inl ValueError, s))
  /\ (0 <= n ->
      exists x1 s1 x2 s2,
        np_random_normal 0 1 n s = (inr x1, s1)
        /\ np_random_normal 0 1 n s1 = (inr x2, s2)
        /\ (forall e,
               py.pow2 rho = inl e ->
               generate_data.generate_correlated_variables
                 n mean1 std1 mean2 std2 rho s = (inl e, s2))
        /\ (py.squares rho = true ->
            exists v1 v2,
              generate_data.generate_correlated_variables
                n mean1 std1 mean2 std2 rho s = (inr (v1, v2), s2)))
  /\ (fails (generate_data.generate_correlated_variables
               n mean1 std1 mean2 std2 rho) s
      <-> n < 0 \/ py.squares rho = false).
Proof.
  assert (Hneg : n < 0 ->
                 generate_data.generate_correlated_variables
                   n mean1 std1 mean2 std2 rho s = (inl ValueError, s)).
  { intros Hn. unfold generate_data.generate_correlated_variables.
    unfold bind at 1. now rewrite np_random_normal_negative. }
  split; [exact Hneg |]. split.
  - intros Hn.
    destruct (generate_correlated_variables_nonneg n mean1 std1 mean2 std2
                rho s Hn) as (x1 & x2 & s1 & s2 & E1 & E2 & _ & _ & Heq).
    exists x1, s1, x2, s2. split; [exact E1 |]. split; [exact E2 |]. split.
    + intros e He. now rewrite He in Heq.
    + intros Hsq. destruct (squares_pow2 rho Hsq) as (c & Hc).
      rewrite Hc in Heq. eauto.
  - split.
    + intros (e & s' & Hfail).
      destruct (Z.lt_ge_cases n 0) as [Hlt | Hge]; [now left | right].
      destruct (generate_correlated_variables_nonneg n mean1 std1 mean2
                  std2 rho s Hge)
        as (x1 & x2 & s1 & s2 & _ & _ & _ & _ & Heq).
      unfold py.squares. destruct (py.pow2 rho); [reflexivity |].
      rewrite Heq in Hfail. discriminate.
    + intros [Hn | Hsq].
      * exists ValueError, s. now apply Hneg.
      * now apply fails_generate_correlated_variables.
Qed.

(** X14. The first array of the pair depends on its own mean and standard
    deviation only, and the state the generator is left in on none of the
    parameters: with another mean and standard deviation of the second
    variable and another correlation (both correlations such that their
    square evaluates) the call returns the same first array and leaves the
    same state. *)
Theorem first_variable_ignores_second
  (n : Z) (mean1 std1 mean2 std2 rho mean2' std2' rho' : float)
  (s : RandomState) :
  0 <= n ->
  py.squares rho = true ->
  py.squares rho' = true ->
  exists v1 v2 v2' s',
    generate_data.generate_correlated_variables
      n mean1 std1 mean2 std2 rho s = (inr (v1, v2), s')
    /\ generate_data.generate_correlated_variables
         n mean1 std1 mean2' std2' rho' s = (inr (v1, v2'), s').
Proof.
  intros Hn Hsq Hsq'.
  destruct (squares_pow2 rho Hsq) as (c & Hc).
  destruct (squares_pow2 rho' Hsq') as (c' & Hc').
  destruct (generate_correlated_variables_nonneg n mean1 std1 mean2 std2
              rho s Hn) as (x1 & x2 & s1 & s2 & E1 & E2 & _ & _ & Heq).
  destruct (generate_correlated_variables_nonneg n mean1 std1 mean2' std2'
              rho' s Hn) as (y1 & y2 & t1 & t2 & F1 & F2 & _ & _ & Heq').
  rewrite E1 in F1. inversion F1; subst y1 t1.
  rewrite E2 in F2. inversion F2; subst y2 t2.
  rewrite Hc in Heq. rewrite Hc' in Heq'.
  eexists. eexists. eexists. exists s2. split; [exact Heq | exact Heq'].
Qed.

(** X12. Configuring a correlated pair changes the leading columns only. For a
    valid configuration without a pair, whose age and weight standard
    deviations are not zero, the call with a pair added, of a correlation
    whose square evaluates, returns a table with the same column under
    every field name other than age, weight and the two names of the pair,
    and leaves the generator in the same state. *)
Theorem pair_changes_leading_columns_only (kw : generate_data.kwargs)
  (cv : generate_data.correlated) (s : RandomState) :
  generate_data.valid kw = true ->
  generate_data.correlated_vars kw = None ->
  (snd (generate_data.age_params kw) =? 0)%float = false ->
  (snd (generate_data.weight_params kw) =? 0)%float = false ->
  py.squares (generate_data.correlation cv) = true ->
  exists df df' s',
    generate_data.generate_synthetic_data kw s = (inr df, s')
    /\ generate_data.generate_synthetic_data
         (with_correlated_vars kw (Some cv)) s = (inr df', s')
    /\ forall field,
         field <> "age"%string ->
         field <> "weight"%string ->
         field <> generate_data.name (generate_data.var1 cv) ->
         field <> generate_data.name (generate_data.var2 cv) ->
         dict.get (data df) field = dict.get (data df') field.
Proof.
  intros Hv Hcv Hza Hzw Hsq.
  destruct (valid_inv kw Hv) as (Hn & Hs & Hc & Hl & Hp & Hg).
  rewrite Hcv in Hc. destruct Hc as [Ha Hw].
  assert (Hv' : generate_data.valid (with_correlated_vars kw (Some cv))
                = true).
  { unfold generate_data.valid in *. rewrite Hcv in Hv.
    cbn [with_correlated_vars generate_data.num_samples
         generate_data.random_seed generate_data.correlated_vars
         generate_data.length_of_stay_params generate_data.comorbidities
         generate_data.prevalences generate_data.comorbidity_list
         generate_data.comorbidity_prevalences generate_data.survival_shape
         generate_data.survival_scale].
    rewrite !andb_true_iff in *. intuition. }
  destruct (tools_valid_run kw s Hv)
    as (d1 & s1 & [[[los cols] st] ev] & s2 & E1 & _ & E2 & _ & Heq).
  destruct (tools_valid_run _ s Hv')
    as (d1' & s1' & t' & s2' & E1' & _ & E2' & _ & Heq').
  destruct (leading_age_weight kw _ d1 s1 Hcv E1)
    as (a & sa & w & Ea & Ew & Hd1).
  destruct (leading_pair (with_correlated_vars kw (Some cv)) cv _ d1' s1'
              eq_refl E1')
    as (v1 & v2 & Egen & Hd1').
  cbn [with_correlated_vars generate_data.num_samples
       generate_data.random_seed generate_data.correlated_vars
       generate_data.length_of_stay_params generate_data.comorbidities
       generate_data.prevalences generate_data.comorbidity_list
       generate_data.comorbidity_prevalences generate_data.survival_shape
       generate_data.survival_scale] in E1', E2', Heq', Egen.
  (* The generator is in one state after the leading columns. *)
  assert (Hstate : s1' = s1).
  { rewrite norm_rvs_draws in Ea by assumption. inversion Ea; subst a sa.
    rewrite norm_rvs_draws in Ew by assumption. inversion Ew; subst w s1.
    destruct (generate_correlated_variables_nonneg
                (generate_data.num_samples kw)
                (generate_data.mean (generate_data.var1 cv))
                (generate_data.std (generate_data.var1 cv))
                (generate_data.mean (generate_data.var2 cv))
                (generate_data.std (generate_data.var2 cv))
                (generate_data.correlation cv)
                (init_by_seed (generate_data.random_seed kw)) Hn)
      as (x1 & x2 & t1 & t2 & F1 & F2 & _ & _ & Fgen).
    rewrite np_random_normal_standard in F1 by assumption.
    inversion F1; subst x1 t1.
    rewrite np_random_normal_standard in F2 by assumption.
    inversion F2; subst x2 t2.
    destruct (squares_pow2 _ Hsq) as (c & Hc). rewrite Hc in Fgen.
    rewrite Fgen in Egen. now inversion Egen. }
  subst s1'.
  change (generate_data.comorbidities (with_correlated_vars kw (Some cv)))
    with (generate_data.comorbidities kw) in E2'.
  change (generate_data.prevalences (with_correlated_vars kw (Some cv)))
    with (generate_data.prevalences kw) in E2'.
  rewrite E2 in E2'. inversion E2'; subst t' s2'.
  eexists. eexists. exists s2.
  split; [exact Heq |]. split; [exact Heq' |]. cbn [data].
  intros field Hf1 Hf2 Hf3 Hf4. rewrite !get_tools_assemble.
  destruct (String.eqb "event_occurred" field); [reflexivity |].
  destruct (String.eqb "survival_time" field); [reflexivity |].
  unfold overlay. destruct (last_assigned cols field); [reflexivity |].
  destruct (String.eqb "length_of_stay" field); [reflexivity |].
  subst d1 d1'. rewrite !get_set_other by congruence.
  cbn [dict.get].
  destruct (String.eqb_spec "age" field); [congruence |].
  destruct (String.eqb_spec "weight" field); [congruence |].
  reflexivity.
Qed.

End Pair.

(** ** tools/generate_data.py: where the table is exported *)

Section Exporting.

Local Open Scope string_scope.

Lemma endswith_unfold (s suffix : string) :
  str.endswith s suffix
  = if String.eqb s suffix then true
    else match s with
         | EmptyString => false
         | String _ rest => str.endswith rest suffix
         end.
Proof. destruct s; reflexivity. Qed.

Lemma endswith_refl (s : string) : str.endswith s s = true.
Proof. rewrite endswith_unfold. now rewrite String.eqb_refl. Qed.

Lemma endswith_app (a b suffix : string) :
  str.endswith b suffix = true -> str.endswith (a ++ b) suffix = true.
Proof.
  intros H. induction a as [| c a IH]; [assumption |].
  rewrite endswith_unfold. cbn [String.append].
  now destruct (String.eqb (String c (a ++ b)) suffix).
Qed.

Lemma startswith_slash_app (f ext : string) :
  f <> "" -> str.startswith (f ++ ext) "/" = str.startswith f "/".
Proof.
  unfold str.startswith. destruct f as [| c f]; [congruence |].
  intros _. cbn [String.append String.prefix].
  match goal with
  | |- context [Ascii.ascii_dec ?a c] => destruct (Ascii.ascii_dec a c)
  end; [| reflexivity].
  now destruct (f ++ ext)%string, f.
Qed.

Lemma file_name_ends_with_csv (today : string) (filename : option string) :
  str.endswith (export.file_name today filename) ".csv" = true.
Proof.
  destruct filename as [f |]; unfold export.file_name.
  - destruct (str.endswith f ".csv") eqn:E; simpl.
    + exact E.
    + apply endswith_app, endswith_refl.
  - apply endswith_app, endswith_app, endswith_refl.
Qed.

Lemma output_path_ends_with_csv (today : string)
  (filename : option string) :
  str.endswith (export.output_path today filename) ".csv" = true.
Proof.
  unfold export.output_path, os.path_join.
  destruct (str.startswith (export.file_name today filename) "/").
  - apply file_name_ends_with_csv.
  - cbn [export.output_dir String.eqb str.endswith orb].
    change (str.endswith "data/generated_data" "/") with false. cbv iota.
    apply endswith_app, endswith_app, file_name_ends_with_csv.
Qed.

Lemma output_path_by_name (today : string) (filename : option string) :
  export.output_path today filename
  = match filename with
    | None =>
        "data/generated_data/synthetic_medical_data_" ++ today ++ ".csv"
    | Some f =>
        let name := if str.endswith f ".csv" then f else f ++ ".csv" in
        if str.startswith f "/" then name
        else "data/generated_data/" ++ name
    end.
Proof.
  destruct filename as [f |]; [| reflexivity].
  unfold export.output_path, os.path_join.
  assert (Hs : str.startswith (export.file_name today (Some f)) "/"
               = str.startswith f "/").
  { unfold export.file_name.
    destruct (negb (str.endswith f ".csv")); [| reflexivity].
    destruct f as [| c f]; [reflexivity |].
    now apply startswith_slash_app. }
  rewrite Hs. unfold export.file_name.
  destruct (str.endswith f ".csv"), (str.startswith f "/"); reflexivity.
Qed.

(** The export, call by call. *)
Lemma export_calls {O : OperatingSystem} (today : string) (df : DataFrame)
  (filename : option string) (made : list effect) :
  let path := export.output_path today filename in
  let mk := os_makedirs "data/generated_data" in
  let csv := to_csv df path in
  let pr := print_line ("Data exported to " ++ path) in
  export.export_synthetic_data today df filename made
  = match outcome made mk with
    | Some e => (inl e, (made ++ [mk])%list)
    | None =>
        match outcome (made ++ [mk])%list csv with
        | Some e => (inl e, (made ++ [mk; csv])%list)
        | None =>
            match outcome (made ++ [mk; csv])%list pr with
            | Some e => (inl e, (made ++ [mk; csv; pr])%list)
            | None => (inr tt, (made ++ [mk; csv; pr])%list)
            end
        end
    end.
Proof.
  intros path mk csv pr.
  unfold export.export_synthetic_data, bind, perform.
  fold path. change (os_makedirs export.output_dir) with mk.
  fold csv. fold pr.
  destruct (outcome made mk); [reflexivity |].
  destruct (outcome (made ++ [mk])%list csv);
    [now rewrite <- app_assoc |].
  rewrite <- !app_assoc. cbn [app].
  now destruct (outcome (made ++ [mk; csv])%list pr).
Qed.

(** X15. Whatever the file name asked for and whatever the date, the export
    first makes the directory data/generated_data; if that raises, the
    export raises the same error and nothing is written. Otherwise it
    writes the table it was given to one file, whose path ends with
    ".csv"; if the write raises, the export raises the same error and
    prints nothing. Otherwise it prints "Data exported to " and that very
    path, and returns (unless printing raises). These three calls, in this
    order, are all it makes. *)
Theorem export_writes_one_csv_file {O : OperatingSystem} (today : string)
  (df : DataFrame) (filename : option string) (made : list effect) :
  exists path,
    str.endswith path ".csv" = true
    /\ let mk := os_makedirs "data/generated_data" in
       let csv := to_csv df path in
       let pr := print_line ("Data exported to " ++ path) in
       match outcome made mk with
       | Some e =>
           export.export_synthetic_data today df filename made
           = (inl e, (made ++ [mk])%list)
       | None =>
           match outcome (made ++ [mk])%list csv with
           | Some e =>
               export.export_synthetic_data today df filename made
               = (inl e, (made ++ [mk; csv])%list)
           | None =>
               match outcome (made ++ [mk; csv])%list pr with
               | Some e =>
                   export.export_synthetic_data today df filename made
                   = (inl e, (made ++ [mk; csv; pr])%list)
               | None =>
                   export.export_synthetic_data today df filename made
                   = (inr tt, (made ++ [mk; csv; pr])%list)
               end
           end
       end.
Proof.
  exists (export.output_path today filename).
  split; [apply output_path_ends_with_csv |].
  cbv zeta. rewrite export_calls. cbv zeta.
  destruct (outcome made _); [reflexivity |].
  destruct (outcome (made ++ _)%list _); [reflexivity |].
  now destruct (outcome (made ++ _)%list _).
Qed.

(** X16. Where the file goes. Once the directory is made, the export writes
    the table it was given, and the file it writes to is
    data/generated_data/synthetic_medical_data_<date>.csv when no name is
    given, and data/generated_data/<name>, with ".csv" added unless the
    name ends with it, when the name does not start with a slash; a name
    that starts with a slash is used as the whole path, and the file does
    not go under data/generated_data. After the write the export makes no
    call but to print that path. *)
Theorem export_path_by_name {O : OperatingSystem} (today : string)
  (df : DataFrame) (filename : option string) (made : list effect) :
  outcome made (os_makedirs "data/generated_data") = None ->
  let path :=
    match filename with
    | None =>
        "data/generated_data/synthetic_medical_data_" ++ today ++ ".csv"
    | Some f =>
        let name := if str.endswith f ".csv" then f else f ++ ".csv" in
        if str.startswith f "/" then name
        else "data/generated_data/" ++ name
    end in
  exists r rest,
    export.export_synthetic_data today df filename made
    = (r, (made ++ os_makedirs "data/generated_data"
                 :: to_csv df path :: rest)%list)
    /\ (rest = [] \/ rest = [print_line ("Data exported to " ++ path)]).
Proof.
  intros Hmk path. rewrite export_calls. cbv zeta. rewrite Hmk.
  rewrite output_path_by_name. fold path.
  destruct (outcome (made ++ _)%list _) as [e |].
  - exists (inl e), []. split; [reflexivity | now left].
  - destruct (outcome (made ++ _)%list _) as [e |].
    + exists (inl e). eexists. split; [reflexivity | now right].
    + exists (inr tt). eexists. split; [reflexivity | now right].
Qed.

(** X17. The name of the file is settled by one pass: a name the export has
    produced is kept as it is when it is given back, and so is every name
    that already ends with ".csv". *)
Theorem export_file_name_settled (today : string)
  (filename : option string) :
  export.file_name today (Some (export.file_name today filename))
  = export.file_name today filename.
Proof.
  unfold export.file_name at 1.
  now rewrite file_name_ends_with_csv.
Qed.

End Exporting.

(** ** Names that meet *)

Section Meeting.

Context {G : BitGenerator} {L : Libm}.

Lemma fold_add_key_prefix (l acc : list string) :
  exists rest, fold_left add_key l acc = acc ++ rest.
Proof.
  revert acc. induction l as [| k l IH]; intros acc; simpl.
  - exists []. now rewrite app_nil_r.
  - unfold add_key at 2.
    destruct (existsb (fun k' => String.eqb k' k) acc).
    + apply IH.
    + destruct (IH (acc ++ [k])) as (rest & Hrest).
      exists (k :: rest). now rewrite Hrest, <- app_assoc.
Qed.

Lemma fold_add_key_cons (l : list string) (x : string) (acc : list string) :
  ~ In x l ->
  fold_left add_key l (x :: acc) = x :: fold_left add_key l acc.
Proof.
  revert acc. induction l as [| k l IH]; intros acc H; [reflexivity |].
  simpl in H. cbn [fold_left].
  assert (Hk : add_key (x :: acc) k = x :: add_key acc k).
  { unfold add_key. cbn [existsb].
    destruct (String.eqb_spec x k) as [E | _];
      [exfalso; apply H; left; now symmetry |].
    cbn [orb]. now destruct (existsb _ acc). }
  rewrite Hk. apply IH. tauto.
Qed.

(** X4. The script's table always begins with age, weight, length_of_stay,
    survival_time, event_occurred, in this order, whatever the
    comorbidities are called; after them come, each once, the comorbidity
    names that are none of these five. *)
Theorem script_fields (kw : generate_synthetic_medical_data.kwargs)
  (s : RandomState) :
  generate_synthetic_medical_data.valid kw = true ->
  exists df s' rest,
    generate_synthetic_medical_data.generate_synthetic_data kw s
    = (inr df, s')
    /\ pd.columns df
       = ["age"; "weight"; "length_of_stay"; "survival_time";
          "event_occurred"]%string ++ rest
    /\ NoDup rest
    /\ forall c,
         In c rest
         <-> In c (generate_synthetic_medical_data.comorbidity_names kw)
             /\ ~ In c ["age"; "weight"; "length_of_stay"; "survival_time";
                        "event_occurred"]%string.
Proof.
  intros Hv.
  destruct (script_columns_of_valid kw s Hv) as (df & s' & Heq & Hcols).
  destruct (fold_add_key_prefix
              (first_occurrences
                 (generate_synthetic_medical_data.comorbidity_names kw))
              generate_synthetic_medical_data.fixed_names)
    as (rest & Hrest).
  assert (Hnd : NoDup (generate_synthetic_medical_data.fixed_names ++ rest)).
  { rewrite <- Hrest. apply fold_add_key_NoDup.
    unfold generate_synthetic_medical_data.fixed_names.
    repeat (constructor;
            [simpl; intros H;
             repeat (destruct H as [H | H]; [discriminate |]); exact H |]).
    constructor. }
  assert (Hin : forall c,
             In c (generate_synthetic_medical_data.fixed_names ++ rest)
             <-> In c generate_synthetic_medical_data.fixed_names
                 \/ In c (generate_synthetic_medical_data.comorbidity_names
                            kw)).
  { intros c. rewrite <- Hrest, fold_add_key_In.
    now rewrite first_occurrences_In. }
  exists df, s', rest. split; [exact Heq |].
  split; [now rewrite Hcols, Hrest |].
  split; [eapply NoDup_app_remove_l; exact Hnd |].
  intros c. split.
  - intros Hc.
    assert (Hfixed : ~ In c generate_synthetic_medical_data.fixed_names).
    { intros Hf. revert Hc. clear - Hnd Hf.
      induction generate_synthetic_medical_data.fixed_names
        as [| k ks IH]; [contradiction |].
      simpl in Hnd. inversion Hnd as [| ? ? Hk Hrest]; subst.
      destruct Hf as [-> | Hf].
      - intros Hc. apply Hk. apply in_or_app. now right.
      - now apply IH. }
    split; [| exact Hfixed].
    destruct (proj1 (Hin c)) as [Hf | Hn]; [apply in_or_app; now right | |].
    + contradiction.
    + exact Hn.
  - intros [Hn Hfixed].
    destruct (in_app_or _ _ _ (proj2 (Hin c) (or_intror Hn))) as [Hf | Hr].
    + contradiction.
    + exact Hr.
Qed.

(** X10. When both variables of a correlated pair have one name, the table has
    one field of that name, and it holds the second array of the pair:
    the first is lost. (Nothing assigned later is called like it.) *)
Theorem pair_of_one_name_keeps_second (kw : generate_data.kwargs)
  (cv : generate_data.correlated) (s : RandomState) :
  generate_data.valid kw = true ->
  generate_data.correlated_vars kw = Some cv ->
  generate_data.name (generate_data.var1 cv)
  = generate_data.name (generate_data.var2 cv) ->
  ~ In (generate_data.name (generate_data.var2 cv)) (assigned_later kw) ->
  exists v1 v2 s1 df s',
    generate_data.generate_correlated_variables
      (generate_data.num_samples kw)
      (generate_data.mean (generate_data.var1 cv))
      (generate_data.std (generate_data.var1 cv))
      (generate_data.mean (generate_data.var2 cv))
      (generate_data.std (generate_data.var2 cv))
      (generate_data.correlation cv)
      (init_by_seed (generate_data.random_seed kw)) = (inr (v1, v2), s1)
    /\ generate_data.generate_synthetic_data kw s = (inr df, s')
    /\ dict.get (data df) (generate_data.name (generate_data.var2 cv))
       = Some (float64 v2)
    /\ pd.columns df
       = generate_data.name (generate_data.var2 cv)
         :: first_occurrences (assigned_later kw).
Proof.
  intros Hv Hcv Hsame Hlater.
  destruct (tools_valid_run kw s Hv)
    as (d1 & s1 & [[[los cols] st] ev] & s2 & E1 & _ & _ & T & Heq).
  destruct T as (_ & Hk & _).
  destruct (leading_pair kw cv _ d1 s1 Hcv E1) as (v1 & v2 & Egen & Hd1).
  destruct (columns_of_valid kw s Hv) as (df & s' & Heq' & Hcols).
  rewrite Heq in Heq'. inversion Heq'; subst df s'.
  exists v1, v2, s1. eexists. exists s2.
  split; [exact Egen |]. split; [exact Heq |]. cbn [data]. split.
  - rewrite get_tools_assemble.
    unfold assigned_later in Hlater. rewrite <- Hk in Hlater.
    simpl in Hlater. rewrite in_app_iff in Hlater. simpl in Hlater.
    destruct (String.eqb_spec "event_occurred"
                (generate_data.name (generate_data.var2 cv))); [tauto |].
    destruct (String.eqb_spec "survival_time"
                (generate_data.name (generate_data.var2 cv))); [tauto |].
    unfold overlay. rewrite last_assigned_absent by tauto.
    destruct (String.eqb_spec "length_of_stay"
                (generate_data.name (generate_data.var2 cv))); [tauto |].
    subst d1. apply get_set_same.
  - rewrite Hcols. unfold generate_data.assignments,
      generate_data.leading_names. rewrite Hcv, Hsame.
    unfold first_occurrences, assigned_later. cbn [app fold_left].
    set (n2 := generate_data.name (generate_data.var2 cv)) in *.
    assert (H1 : add_key (add_key [] n2) n2 = [n2]).
    { unfold add_key. cbn. now rewrite String.eqb_refl. }
    rewrite H1.
    change (fold_left add_key
              (generate_data.comorbidity_names kw
               ++ ["survival_time"; "event_occurred"]%string)
              (add_key [n2] "length_of_stay"))
      with (fold_left add_key (assigned_later kw) [n2]).
    change (fold_left add_key
              (generate_data.comorbidity_names kw
               ++ ["survival_time"; "event_occurred"]%string)
              (add_key [] "length_of_stay"))
      with (fold_left add_key (assigned_later kw) []).
    now apply (fold_add_key_cons (assigned_later kw) n2 []).
Qed.

End Meeting.

(** ** Further concrete runs *)

Section MoreRuns.

Import Examples.

#[local] Existing Instance libm.

Abbreviation tools_run_of := (@generate_data.generate_synthetic_data generator libm).
Abbreviation script_run_of :=
  (@generate_synthetic_medical_data.generate_synthetic_data generator).
Abbreviation pair_run_of :=
  (@generate_data.generate_correlated_variables generator libm).

(** The script on its defaults, two samples. *)
Lemma script_table_witness :
  generate_synthetic_medical_data.valid (script_call None None) = true
  /\ exists df s',
       script_run_of (script_call None None) [] = (inr df, s')
       /\ Z.of_nat (nrows df) = 2.
Proof.
  split; [reflexivity |].
  destruct (@script_table generator (script_call None None) eq_refl)
    as (df & s' & Heq & Hrows & _).
  exists df, s'. split; [apply Heq | exact Hrows].
Defined.

(** A comorbidity called survival_time, in the tools generator: the field
    holds the survival times all the same. *)
Lemma survival_and_event_kept_witness :
  generate_data.valid Collisions.tools_call = true
  /\ exists df s' st,
       tools_run_of Collisions.tools_call [] = (inr df, s')
       /\ dict.get (data df) "survival_time" = Some (float64 st).
Proof.
  split; [reflexivity |].
  destruct (@survival_and_event_kept generator libm Collisions.tools_call []
              eq_refl)
    as (d1 & s1 & los & s2 & d2 & s3 & st & s4 & ev & s5 & df
        & _ & _ & _ & _ & _ & Heq & Hst & _).
  exists df, s5, st. split; assumption.
Defined.

Lemma diabetes_is_last :
  ~ In "diabetes"%string
      (map fst [("hypertension"%string, 0.3%float);
                ("cancer"%string, 0.05%float)]).
Proof.
  simpl. intros H.
  repeat (destruct H as [H | H]; [discriminate |]). exact H.
Qed.

(** The first of the default comorbidities, in the tools generator. *)
Lemma tools_comorbidity_indicators_witness :
  generate_data.valid two = true
  /\ exists df s' v,
       tools_run_of two [] = (inr df, s')
       /\ dict.get (data df) "diabetes" = Some (int64 v).
Proof.
  split; [reflexivity |].
  destruct (@tools_comorbidity_indicators generator libm two [] []
              "diabetes"%string 0.2%float
              [("hypertension"%string, 0.3%float);
               ("cancer"%string, 0.05%float)]
              eq_refl eq_refl diabetes_is_last)
    as (d1 & s1 & los & s2 & dm & sm & v & sv & df & s'
        & _ & _ & _ & _ & Heq & Hget & _).
  - discriminate.
  - discriminate.
  - exists df, s', v. split; assumption.
Defined.

(** A comorbidity called survival_time, in the script: the field holds the
    indicator. *)
Lemma script_comorbidity_indicators_witness :
  generate_synthetic_medical_data.valid Collisions.script_call = true
  /\ exists df s' v,
       script_run_of Collisions.script_call [] = (inr df, s')
       /\ dict.get (data df) "survival_time" = Some (int64 v).
Proof.
  split; [reflexivity |].
  destruct (@script_comorbidity_indicators generator Collisions.script_call
              [] eq_refl)
    as (a & s1 & w & s2 & los & s3 & cd & s4 & st & s5 & ev & s6 & df
        & _ & _ & _ & _ & _ & _ & Heq & _ & Hind).
  destruct (Hind [] "survival_time"%string 0.5%float [] eq_refl)
    as (dm & sm & v & sv & _ & _ & Hget & _).
  - simpl. tauto.
  - exists df, s6, v. split; assumption.
Defined.

Lemma height_not_later :
  ~ In "height"%string (assigned_later paired_call).
Proof.
  simpl. intros H.
  repeat (destruct H as [H | H]; [discriminate |]). exact H.
Qed.

Lemma mass_not_later :
  ~ In "mass"%string (assigned_later paired_call).
Proof.
  simpl. intros H.
  repeat (destruct H as [H | H]; [discriminate |]). exact H.
Qed.

(** Height and mass hold the correlated pair. *)
Lemma pair_columns_hold_pair_witness :
  exists v1 v2 s1 df s',
    pair_run_of 2 170 10 70 15 0.8 (tape 42) = (inr (v1, v2), s1)
    /\ tools_run_of paired_call [] = (inr df, s')
    /\ dict.get (data df) "height" = Some (float64 v1)
    /\ dict.get (data df) "mass" = Some (float64 v2).
Proof.
  apply (@pair_columns_hold_pair generator libm paired_call height_mass []).
  - reflexivity.
  - reflexivity.
  - discriminate.
  - exact height_not_later.
  - exact mass_not_later.
Defined.

Lemma defaults_not_age :
  ~ In "age"%string (generate_data.comorbidity_names two).
Proof.
  simpl. intros H.
  repeat (destruct H as [H | H]; [discriminate |]). exact H.
Qed.

Lemma defaults_not_weight :
  ~ In "weight"%string (generate_data.comorbidity_names two).
Proof.
  simpl. intros H.
  repeat (destruct H as [H | H]; [discriminate |]). exact H.
Qed.

Lemma defaults_not_survival_time :
  ~ In "survival_time"%string (generate_data.comorbidity_names two).
Proof.
  simpl. intros H.
  repeat (destruct H as [H | H]; [discriminate |]). exact H.
Qed.

Lemma defaults_not_event_occurred :
  ~ In "event_occurred"%string (generate_data.comorbidity_names two).
Proof.
  simpl. intros H.
  repeat (destruct H as [H | H]; [discriminate |]). exact H.
Qed.

(** Age and weight from the defaults. *)
Lemma age_and_weight_columns_witness :
  exists df s' a w,
    tools_run_of two [] = (inr df, s')
    /\ dict.get (data df) "age" = Some (int64 (np.astype_int a))
    /\ dict.get (data df) "weight" = Some (float64 w).
Proof.
  destruct (@age_and_weight_columns generator libm two [] eq_refl eq_refl
              defaults_not_age defaults_not_weight)
    as (a & s1 & w & s2 & df & s' & _ & _ & Heq & Ha & Hw).
  exists df, s', a, w. repeat split; assumption.
Defined.

(** The two generators on the defaults. *)
Lemma generators_agree_witness :
  exists df1 df2 s',
    tools_run_of two [] = (inr df1, s')
    /\ script_run_of (as_script two) [] = (inr df2, s')
    /\ dict.get (data df1) "cancer" = dict.get (data df2) "cancer".
Proof.
  destruct (@generators_agree generator libm two [] eq_refl eq_refl
              defaults_not_survival_time defaults_not_event_occurred)
    as (df1 & df2 & s' & H1 & H2 & _ & Hget).
  exists df1, df2, s'. repeat split; try assumption. apply Hget.
Defined.

(** The defaults, with and without height and mass. *)
Lemma pair_changes_leading_columns_only_witness :
  exists df df' s',
    tools_run_of two [] = (inr df, s')
    /\ tools_run_of paired_call [] = (inr df', s')
    /\ dict.get (data df) "length_of_stay"
       = dict.get (data df') "length_of_stay".
Proof.
  destruct (@pair_changes_leading_columns_only generator libm two
              height_mass [] eq_refl eq_refl eq_refl eq_refl eq_refl)
    as (df & df' & s' & H1 & H2 & Hget).
  exists df, df', s'. split; [exact H1 |]. split; [exact H2 |].
  apply Hget; discriminate.
Defined.

(** Two pairs that differ in the second variable and the correlation. *)
Lemma first_variable_ignores_second_witness :
  exists v1 v2 v2' (s' : list float),
    pair_run_of 2 170 10 70 15 0.8 (tape 42) = (inr (v1, v2), s')
    /\ pair_run_of 2 170 10 0 1 (-0.5) (tape 42) = (inr (v1, v2'), s').
Proof.
  apply (@first_variable_ignores_second generator libm).
  - lia.
  - reflexivity.
  - reflexivity.
Defined.

(** The script with a comorbidity called survival_time: the five fields,
    and no sixth. *)
Lemma script_fields_witness :
  exists df s' rest,
    script_run_of Collisions.script_call [] = (inr df, s')
    /\ pd.columns df
       = ["age"; "weight"; "length_of_stay"; "survival_time";
          "event_occurred"]%string ++ rest.
Proof.
  destruct (@script_fields generator Collisions.script_call [] eq_refl)
    as (df & s' & rest & Heq & Hcols & _).
  exists df, s', rest. split; assumption.
Defined.

(** A name that starts with a slash, on a system where every call comes
    back: the file is written outside data/generated_data. *)
Lemma export_path_by_name_witness :
  @outcome Systems.willing [] (os_makedirs "data/generated_data") = None
  /\ exists r rest,
       @export.export_synthetic_data Systems.willing "20240131"
         Systems.empty_table (Some "/tmp/out"%string) []
       = (r, os_makedirs "data/generated_data"
             :: to_csv Systems.empty_table "/tmp/out.csv" :: rest).
Proof.
  split; [reflexivity |].
  destruct (@export_path_by_name Systems.willing "20240131"%string
              Systems.empty_table (Some "/tmp/out"%string) [] eq_refl)
    as (r & rest & Heq & _).
  exists r, rest. exact Heq.
Defined.

(** The name sub/report where data/generated_data/sub does not exist: the
    directory is made, the write raises OSError, nothing is printed. *)
Lemma export_into_missing_directory :
  @export.export_synthetic_data Systems.no_subdirectory "20240131"
    Systems.empty_table (Some "sub/report"%string) []
  = (inl OSError,
     [os_makedirs "data/generated_data";
      to_csv Systems.empty_table "data/generated_data/sub/report.csv"]).
Proof. reflexivity. Qed.

(** The same name where the directory exists: the three calls. *)
Lemma export_into_directory :
  @export.export_synthetic_data Systems.willing "20240131"
    Systems.empty_table (Some "sub/report"%string) []
  = (inr tt,
     [os_makedirs "data/generated_data";
      to_csv Systems.empty_table "data/generated_data/sub/report.csv";
      print_line "Data exported to data/generated_data/sub/report.csv"]).
Proof. reflexivity. Qed.

Lemma score_not_later :
  ~ In "score"%string (assigned_later Collisions.one_name_call).
Proof.
  simpl. intros H.
  repeat (destruct H as [H | H]; [discriminate |]). exact H.
Qed.

(** A pair called score twice: one field, the second array. *)
Lemma pair_of_one_name_keeps_second_witness :
  exists v1 v2 s1 df s',
    pair_run_of 2 0 1 10 2 0.5 (tape 42) = (inr (v1, v2), s1)
    /\ tools_run_of Collisions.one_name_call [] = (inr df, s')
    /\ dict.get (data df) "score" = Some (float64 v2).
Proof.
  destruct (@pair_of_one_name_keeps_second generator libm
              Collisions.one_name_call Collisions.score_twice []
              eq_refl eq_refl eq_refl score_not_later)
    as (v1 & v2 & s1 & df & s' & Egen & Heq & Hget & _).
  exists v1, v2, s1, df, s'. repeat split; assumption.
Defined.

End MoreRuns.
